(** * Synology download-manager extension: background orchestration

    A shallow embedding of the background scripts of the extension
    (the [actions] module in its two revisions, the multi-URL submission
    flow and the [TaskPoller] class) together with the properties of
    their documentation that can be stated over it.

    Conventions of the embedding.
    - A JavaScript string is a [string]; indices are [Z] so that the
      [-1] of [indexOf] and [lastIndexOf] is visible.
    - A settled promise is a value of [Settled]: fulfilled with a value
      or rejected with a JavaScript value.
    - Every call that leaves the module (browser storage, notifications,
      the remote API client, Axios, the clock) is an [Event]; a function
      of the source is a [Prog], a finite tree of events whose answers
      are chosen by the environment.  [exec] runs a program against an
      arbitrary environment and records the calls in order.
    - The calls of promise chains that run side by side are recorded
      chain by chain, in the order in which the chains are awaited.
    - A JavaScript number that the program only compares or passes on
      (a status code, a timestamp, an interval) is a [Z].
    - [console.log] and the [uniqueId] that only feeds it are erased. *)

From Stdlib Require Import ZArith List String Ascii Bool Lia DecimalString.
Import ListNotations.

Set Implicit Arguments.
Unset Strict Implicit.

Open Scope string_scope.
Open Scope Z_scope.

(** ** JavaScript strings *)

Module Js.

Fixpoint startsWith (s p : string) : bool :=
  match p, s with
  | EmptyString, _ => true
  | String _ _, EmptyString => false
  | String b p', String a s' => Ascii.eqb a b && startsWith s' p'
  end.

(** [s.endsWith(suffix)]: some tail of [s] is [suffix]. *)
Fixpoint endsWith (s suffix : string) : bool :=
  String.eqb s suffix ||
  match s with
  | EmptyString => false
  | String _ s' => endsWith s' suffix
  end.

(** [s.indexOf(sub)], [-1] when [sub] does not occur. *)
Fixpoint indexOf (s sub : string) : Z :=
  if startsWith s sub then 0
  else match s with
       | EmptyString => -1
       | String _ s' =>
           let i := indexOf s' sub in
           if i <? 0 then -1 else i + 1
       end.

(** [s.lastIndexOf(sub)], [-1] when [sub] does not occur. *)
Fixpoint lastIndexOf (s sub : string) : Z :=
  match s with
  | EmptyString => if startsWith s sub then 0 else -1
  | String _ s' =>
      let i := lastIndexOf s' sub in
      if 0 <=? i then i + 1
      else if startsWith s sub then 0 else -1
  end.

Definition len (s : string) : Z := Z.of_nat (String.length s).

(** The clamping of a relative index done by [slice]. *)
Definition clampIndex (s : string) (i : Z) : Z :=
  if i <? 0 then Z.max (len s + i) 0 else Z.min i (len s).

(** [s.slice(start, end)] *)
Definition slice (s : string) (start stop : Z) : string :=
  let from := clampIndex s start in
  let to := clampIndex s stop in
  substring (Z.to_nat from) (Z.to_nat (to - from)) s.

(** [s.slice(start)] *)
Definition sliceFrom (s : string) (start : Z) : string :=
  slice s start (len s).

Definition lowerChar (c : ascii) : ascii :=
  let n := nat_of_ascii c in
  if (Nat.leb 65 n && Nat.leb n 90)%bool then ascii_of_nat (n + 32) else c.

(** [s.toLowerCase()] on the ASCII range. *)
Fixpoint toLowerCase (s : string) : string :=
  match s with
  | EmptyString => EmptyString
  | String c s' => String (lowerChar c) (toLowerCase s')
  end.

(** [parts.join(sep)] *)
Fixpoint join (sep : string) (parts : list string) : string :=
  match parts with
  | [] => ""
  | [p] => p
  | p :: rest => p ++ sep ++ join sep rest
  end.

(** JavaScript values, as far as the handlers of this program look into
    them: primitives and objects with named properties.  [isError]
    records whether the object passes [instanceof Error]. *)
#[local] Unset Elimination Schemes.
Inductive Value : Type :=
| Undefined
| Null
| Boolean (b : bool)
| Number (n : Z)
| Str (s : string)
| Object (isError : bool) (props : list (string * Value)).
#[local] Set Elimination Schemes.

Definition truthy (v : Value) : bool :=
  match v with
  | Undefined | Null => false
  | Boolean b => b
  | Number n => negb (n =? 0)
  | Str s => negb (String.eqb s "")
  | Object _ _ => true
  end.

Fixpoint lookup (props : list (string * Value)) (key : string) : Value :=
  match props with
  | [] => Undefined
  | (k, v) :: rest => if String.eqb k key then v else lookup rest key
  end.

(** [v.key] for a [v] that is neither [null] nor [undefined]. *)
Definition get (v : Value) (key : string) : Value :=
  match v with
  | Object _ props => lookup props key
  | _ => Undefined
  end.

(** [a === b] against a primitive [b]. *)
Definition strictEqNumber (v : Value) (n : Z) : bool :=
  match v with Number m => m =? n | _ => false end.

Definition strictEqString (v : Value) (s : string) : bool :=
  match v with Str t => String.eqb t s | _ => false end.

Definition instanceofError (v : Value) : bool :=
  match v with Object true _ => true | _ => false end.

(** [new Error]: an [Error] instance with an empty message. *)
Definition newError : Value := Object true [("message", Str "")].

End Js.

(** ** Promises and external calls *)

Inductive Settled (A : Type) : Type :=
| Fulfilled (a : A)
| RejectedWith (reason : Js.Value).
Arguments RejectedWith {A} reason.

(** *** The data exchanged with the collaborators *)

Record DownloadStationTask : Type := {
  task_id : string;
  task_title : string;
  task_status : string
}.

Inductive FailureReason : Type :=
| MissingConfig
| FailureMessage (failureMessage : string).

(** [Partial<CachedTasks>]: [None] is an absent key.  The failure reason
    of the cache is nullable, hence the nested option. *)
Record PartialCachedTasks : Type := {
  tasks : option (list DownloadStationTask);
  taskFetchFailureReason : option (option FailureReason);
  tasksLastCompletedFetchTimestamp : option (option Z);
  tasksLastInitiatedFetchTimestamp : option (option Z)
}.


Record ConnectionFailure : Type := {
  cf_type : string;
  cf_failureMessage : string
}.

Inductive SynologyResponse (D : Type) : Type :=
| Success (data : D)
| Failure (code : Z).
Arguments Failure {D} code.

(** What a call of the API client resolves with; [isConnectionFailure]
    tells the two apart. *)
Inductive ApiResult (D : Type) : Type :=
| Disconnected (failure : ConnectionFailure)
| Responded (response : SynologyResponse D).
Arguments Disconnected {D} failure.

Definition isConnectionFailure {D} (r : ApiResult D) : bool :=
  match r with Disconnected _ => true | Responded _ => false end.

Record TaskListRequest : Type := {
  offset : Z;
  limit : Z;
  additional : list string;
  list_timeout : option Z
}.

Record Blob : Type := { blob_parts : string; blob_type : string }.

Record FormFile : Type := { content : Blob; filename : string }.

Record TaskCreateRequest : Type := {
  file : list FormFile;
  uri : list string;
  destination : option string
}.

Record HttpResponse : Type := {
  headers : list (string * string);
  data : string
}.

Fixpoint header (hs : list (string * string)) (name : string) : option string :=
  match hs with
  | [] => None
  | (k, v) :: rest => if String.eqb k name then Some v else header rest name
  end.

(** *** Events *)

Inductive Event : Type -> Type :=
| DateNow : Event Z
| StorageLocalSet (items : PartialCachedTasks) : Event (Settled unit)
| TaskList (request : TaskListRequest)
    : Event (Settled (ApiResult (list DownloadStationTask)))
| TaskCreate (request : TaskCreateRequest)
    : Event (Settled (ApiResult unit))
| AuthLogout : Event unit
| Notify (title : string) (message : option string)
    (kind : option string) (id : option string) : Event string
| AxiosHead (url : string) (timeout : Z) : Event (Settled HttpResponse)
| AxiosGet (url : string) (timeout : option Z) : Event (Settled HttpResponse)
| SettledFirst : Event bool.

(** A program: what it returns, or the next external call and how it
    continues with the answer. *)
Inductive Prog (A : Type) : Type :=
| Ret (a : A)
| Vis (X : Type) (e : Event X) (k : X -> Prog A).
Arguments Ret {A} a.
Arguments Vis {A X} e k.

Fixpoint bind {A B} (p : Prog A) (f : A -> Prog B) : Prog B :=
  match p with
  | Ret a => f a
  | Vis e k => Vis e (fun x => bind (k x) f)
  end.

Definition trigger {X} (e : Event X) : Prog X := Vis e (fun x => Ret x).

Declare Scope prog_scope.
Delimit Scope prog_scope with prog.
Notation "x <- c ;; k" := (bind c (fun x => k))
  (at level 61, c at next level, right associativity) : prog_scope.
Notation "c ;;; k" := (bind c (fun _ => k))
  (at level 61, right associativity) : prog_scope.
Open Scope prog_scope.

(** [p.then(f)] *)
Definition andThen {A B} (p : Prog (Settled A)) (f : A -> Prog (Settled B))
  : Prog (Settled B) :=
  r <- p ;;
  match r with
  | Fulfilled a => f a
  | RejectedWith e => Ret (RejectedWith e)
  end.

(** [p.catch(h)] *)
Definition orCatch {A} (p : Prog (Settled A)) (h : Js.Value -> Prog (Settled A))
  : Prog (Settled A) :=
  r <- p ;;
  match r with
  | Fulfilled a => Ret (Fulfilled a)
  | RejectedWith e => h e
  end.

(** [Promise.all([p, q])] of two promises that were both started, [p]
    first.  When both reject, the environment says which one did so
    first. *)
Definition promiseAll2 {A B} (p : Prog (Settled A)) (q : Prog (Settled B))
  : Prog (Settled (A * B)) :=
  ra <- p ;;
  rb <- q ;;
  match ra, rb with
  | Fulfilled a, Fulfilled b => Ret (Fulfilled (a, b))
  | RejectedWith e, Fulfilled _ => Ret (RejectedWith e)
  | Fulfilled _, RejectedWith e => Ret (RejectedWith e)
  | RejectedWith e1, RejectedWith e2 =>
      first <- trigger SettledFirst ;;
      Ret (RejectedWith (if first then e1 else e2))
  end.

(** *** Running a program *)

Record Handler (S : Type) : Type := {
  handle : forall X, Event X -> S -> X * S
}.

Inductive Obs : Type :=
| Observed (X : Type) (e : Event X) (x : X).

Fixpoint exec {S A} (h : Handler S) (p : Prog A) (s : S) : A * S * list Obs :=
  match p with
  | Ret a => (a, s, [])
  | Vis e k =>
      let '(x, s1) := handle h e s in
      let '(a, s2, tr) := exec h (k x) s1 in
      (a, s2, Observed e x :: tr)
  end.

Definition result {S A} (h : Handler S) (p : Prog A) (s : S) : A :=
  fst (fst (exec h p s)).

Definition trace {S A} (h : Handler S) (p : Prog A) (s : S) : list Obs :=
  snd (exec h p s).

(** ** Collaborators that are not part of these files

    The error tables, the protocol lists of [./protocols], the query
    string parser and the numeric conversion of the language are taken
    as given. *)

(** The result of the unary [+] on a header value.  A finite number is
    kept by its integral part (rounded down), which is all a comparison
    with an integral bound depends on. *)
Inductive Num : Type :=
| NaN
| Finite (n : Z)
| PosInfinity
| NegInfinity.

Definition isNaN (n : Num) : bool :=
  match n with NaN => true | _ => false end.

(** [n < bound] for an integral [bound]; comparisons with [NaN] are false. *)
Definition lessThan (n : Num) (bound : Z) : bool :=
  match n with
  | NaN | PosInfinity => false
  | NegInfinity => true
  | Finite m => m <? bound
  end.

Class Collaborators : Type := {
  (** [errorMessageFromCode(code, apiName)] of [./errors] *)
  errorMessageFromCode : Z -> string -> string;
  (** [errorMessageFromConnectionFailure(failure)] of [./errors] *)
  errorMessageFromConnectionFailure : ConnectionFailure -> string;
  (** [DownloadStation.Task.API_NAME] of [./api] *)
  Task_API_NAME : string;
  (** [ERROR_CODES.common[code]] and [ERROR_CODES.task[code]] of [./api] *)
  ERROR_CODES_common : Z -> option string;
  ERROR_CODES_task : Z -> option string;
  (** the lists exported by [./protocols] *)
  ALL_DOWNLOADABLE_PROTOCOLS : list string;
  AUTO_DOWNLOAD_TORRENT_FILE_PROTOCOLS : list string;
  (** [parseQueryString(url).dn] *)
  queryStringDn : string -> option string;
  (** [+value] for a header value, [None] standing for [undefined] *)
  toNumber : option string -> Num
}.

(** The object spread [{ ...a, ...b }] on partial cache records. *)
Definition spread (a b : PartialCachedTasks) : PartialCachedTasks :=
  let pick {T} (x y : option T) := match y with Some _ => y | None => x end in
  {| tasks := pick (tasks a) (tasks b);
     taskFetchFailureReason :=
       pick (taskFetchFailureReason a) (taskFetchFailureReason b);
     tasksLastCompletedFetchTimestamp :=
       pick (tasksLastCompletedFetchTimestamp a)
            (tasksLastCompletedFetchTimestamp b);
     tasksLastInitiatedFetchTimestamp :=
       pick (tasksLastInitiatedFetchTimestamp a)
            (tasksLastInitiatedFetchTimestamp b) |}.

(** The message chosen by the [catch] handler of a poll, written out in
    [pollTasks] (first revision) and in [TaskPoller.tryPoll]. *)
Definition failureMessageOf (error : Js.Value) : string :=
  if Js.truthy error && Js.truthy (Js.get error "response") &&
     Js.strictEqNumber (Js.get (Js.get error "response") "status") 400
  then "Connection failure (likely wrong protocol)."
  else if Js.truthy error &&
          Js.strictEqString (Js.get error "message") "Network Error"
  then "Connection failure (likely incorrect hostname/port or no internet connection)."
  else "Unknown error.".

(** ** [actions], first revision: polling without a retry *)

Module ActionsV1.
Section WithCollaborators.
Context `{Collaborators}.

(** [Promise.all([...]).then(...)]: the chain before its [catch]. *)
Definition fetchAndCache (started : Z) : Prog (Settled unit) :=
  let cachedTasks :=
    {| tasks := None; taskFetchFailureReason := None;
       tasksLastCompletedFetchTimestamp := None;
       tasksLastInitiatedFetchTimestamp := Some (Some started) |} in
  andThen
    (promiseAll2
       (trigger (StorageLocalSet cachedTasks))
       (trigger (TaskList {| offset := 0; limit := -1;
                             additional := ["transfer"];
                             list_timeout := None |})))
    (fun both =>
       let response := snd both in
       completed <- trigger DateNow ;;
       let cachedTasks :=
         match response with
         | Disconnected failure =>
             if String.eqb (cf_type failure) "missing-config"
             then {| tasks := None;
                     taskFetchFailureReason := Some (Some MissingConfig);
                     tasksLastCompletedFetchTimestamp := Some (Some completed);
                     tasksLastInitiatedFetchTimestamp := None |}
             else {| tasks := None;
                     taskFetchFailureReason :=
                       Some (Some (FailureMessage (cf_failureMessage failure)));
                     tasksLastCompletedFetchTimestamp := Some (Some completed);
                     tasksLastInitiatedFetchTimestamp := None |}
         | Responded (Success fetched) =>
             {| tasks := Some fetched;
                taskFetchFailureReason := Some None;
                tasksLastCompletedFetchTimestamp := Some (Some completed);
                tasksLastInitiatedFetchTimestamp := None |}
         | Responded (Failure code) =>
             {| tasks := None;
                taskFetchFailureReason :=
                  Some (Some (FailureMessage
                                (errorMessageFromCode code Task_API_NAME)));
                tasksLastCompletedFetchTimestamp := Some (Some completed);
                tasksLastInitiatedFetchTimestamp := None |}
         end in
       trigger (StorageLocalSet cachedTasks)).

(** The [catch] handler of the chain. *)
Definition cacheFailure (error : Js.Value) : Prog (Settled unit) :=
  let failureMessage := failureMessageOf error in
  completed <- trigger DateNow ;;
  trigger (StorageLocalSet
             {| tasks := None;
                taskFetchFailureReason :=
                  Some (Some (FailureMessage failureMessage));
                tasksLastCompletedFetchTimestamp := Some (Some completed);
                tasksLastInitiatedFetchTimestamp := None |}).

Definition pollTasks : Prog (Settled unit) :=
  started <- trigger DateNow ;;
  orCatch (fetchAndCache started) cacheFailure.

End WithCollaborators.
End ActionsV1.

(** ** [./protocols] *)

Module Protocols.

(** Modelled from the spec: [startsWithAnyProtocol] of [./protocols] is
    not among the files; a URL matches when it starts with one of the
    protocols followed by a colon, as in the copy kept next to the
    multi-URL flow. *)
Definition startsWithAnyProtocol (url : string) (protocols : list string) : bool :=
  existsb (fun protocol => Js.startsWith url (protocol ++ ":")) protocols.

End Protocols.

(** ** [actions], current revision *)

Module Actions.

Definition NO_PERMISSIONS_ERROR_CODE : Z := 105.

(** The test of the retry wrapper on the first result. *)
Definition isPermissionFailure {D} (result : ApiResult D) : bool :=
  match result with
  | Disconnected _ => false
  | Responded (Success _) => false
  | Responded (Failure code) => code =? NO_PERMISSIONS_ERROR_CODE
  end.

(** [wrapInNoPermissionsRetry(fn)]; the [api] argument is the one client
    every event is addressed to. *)
Definition wrapInNoPermissionsRetry {Args D}
    (fn : Args -> Prog (Settled (ApiResult D)))
    : Args -> Prog (Settled (ApiResult D)) :=
  fun args =>
    andThen (fn args)
      (fun result =>
         if isPermissionFailure result
         then trigger AuthLogout ;;; fn args
         else Ret (Fulfilled result)).

Definition taskListRequest : TaskListRequest :=
  {| offset := 0; limit := -1;
     additional := ["transfer"; "detail"];
     list_timeout := Some 20000 |}.

Definition doTaskPoll : unit -> Prog (Settled (ApiResult (list DownloadStationTask))) :=
  wrapInNoPermissionsRetry (fun _ : unit => trigger (TaskList taskListRequest)).

Definition doCreateTask : TaskCreateRequest -> Prog (Settled (ApiResult unit)) :=
  wrapInNoPermissionsRetry (fun options => trigger (TaskCreate options)).

Section WithCollaborators.
Context `{Collaborators}.

Definition pollTasks : Prog (Settled unit) :=
  started <- trigger DateNow ;;
  let cachedTasksInit :=
    {| tasks := None; taskFetchFailureReason := None;
       tasksLastCompletedFetchTimestamp := None;
       tasksLastInitiatedFetchTimestamp := Some (Some started) |} in
  orCatch
    (andThen
       (promiseAll2 (trigger (StorageLocalSet cachedTasksInit)) (doTaskPoll tt))
       (fun both =>
          let response := snd both in
          let setCachedTasksResponse (cachedTasks : PartialCachedTasks) :=
            completed <- trigger DateNow ;;
            trigger (StorageLocalSet
                       (spread
                          {| tasks := None; taskFetchFailureReason := None;
                             tasksLastCompletedFetchTimestamp :=
                               Some (Some completed);
                             tasksLastInitiatedFetchTimestamp := None |}
                          cachedTasks)) in
          match response with
          | Disconnected failure =>
              if String.eqb (cf_type failure) "missing-config"
              then setCachedTasksResponse
                     {| tasks := None;
                        taskFetchFailureReason := Some (Some MissingConfig);
                        tasksLastCompletedFetchTimestamp := None;
                        tasksLastInitiatedFetchTimestamp := None |}
              else setCachedTasksResponse
                     {| tasks := None;
                        taskFetchFailureReason :=
                          Some (Some (FailureMessage
                                        (errorMessageFromConnectionFailure failure)));
                        tasksLastCompletedFetchTimestamp := None;
                        tasksLastInitiatedFetchTimestamp := None |}
          | Responded (Success fetched) =>
              setCachedTasksResponse
                {| tasks := Some fetched;
                   taskFetchFailureReason := Some None;
                   tasksLastCompletedFetchTimestamp := None;
                   tasksLastInitiatedFetchTimestamp := None |}
          | Responded (Failure code) =>
              setCachedTasksResponse
                {| tasks := None;
                   taskFetchFailureReason :=
                     Some (Some (FailureMessage
                                   (errorMessageFromCode code "DownloadStation.Task")));
                   tasksLastCompletedFetchTimestamp := None;
                   tasksLastInitiatedFetchTimestamp := None |}
          end))
    (fun error => Ret (Fulfilled tt)).

Record MetadataFileType : Type := {
  mediaType : string;
  extension : string
}.

Definition METADATA_FILE_TYPES : list MetadataFileType :=
  [ {| mediaType := "application/x-bittorrent"; extension := ".torrent" |};
    {| mediaType := "application/x-nzb"; extension := ".nzb" |} ].

Definition ARBITRARY_FILE_FETCH_SIZE_CUTOFF : Z := 1024 * 1024 * 5.

Definition doubleQuote : ascii := ascii_of_nat 34.
Definition space : ascii := ascii_of_nat 32.
Definition verticalBar : ascii := ascii_of_nat 124.

(** The longest prefix whose characters satisfy [keep], and the rest. *)
Fixpoint span (keep : ascii -> bool) (s : string) : string * string :=
  match s with
  | EmptyString => (EmptyString, EmptyString)
  | String c s' =>
      if keep c
      then let '(taken, rest) := span keep s' in (String c taken, rest)
      else (EmptyString, s)
  end.

Fixpoint stripPrefix (p s : string) : option string :=
  match p, s with
  | EmptyString, _ => Some s
  | String _ _, EmptyString => None
  | String b p', String a s' =>
      if Ascii.eqb a b then stripPrefix p' s' else None
  end.

(** The capture groups 2 and 3 of a match of [FILENAME_PROPERTY_REGEX]. *)
Record FilenameMatch : Type := {
  group2 : option string;
  group3 : option string
}.

(** The quoted alternative at the start of [s]: a double quote, one or
    more characters other than a double quote, and a double quote. *)
Definition matchQuoted (s : string) : option string :=
  match s with
  | String c rest =>
      if Ascii.eqb c doubleQuote then
        let '(body, tail) := span (fun d => negb (Ascii.eqb d doubleQuote)) rest in
        match body, tail with
        | String _ _, String _ _ => Some body
        | _, _ => None
        end
      else None
  | EmptyString => None
  end.

(** The bare alternative at the start of [s]: a character other than a
    double quote, then one or more characters other than a space. *)
Definition matchBare (s : string) : option string :=
  match s with
  | String c rest =>
      if Ascii.eqb c doubleQuote then None
      else
        let '(body, _) := span (fun d => negb (Ascii.eqb d space)) rest in
        match body with
        | String _ _ => Some (String c body)
        | EmptyString => None
        end
  | EmptyString => None
  end.

(** [FILENAME_PROPERTY_REGEX] anchored at the start of [s]: the literal
    [filename=], then the quoted alternative or else the bare one. *)
Definition matchFilenameHere (s : string) : option FilenameMatch :=
  match stripPrefix "filename=" s with
  | None => None
  | Some rest =>
      match matchQuoted rest with
      | Some name => Some {| group2 := Some name; group3 := None |}
      | None =>
          match matchBare rest with
          | Some name => Some {| group2 := None; group3 := Some name |}
          | None => None
          end
      end
  end.

(** [FILENAME_PROPERTY_REGEX.exec(s)]: the leftmost match. *)
Fixpoint FILENAME_PROPERTY_REGEX_exec (s : string) : option FilenameMatch :=
  match matchFilenameHere s with
  | Some m => Some m
  | None =>
      match s with
      | EmptyString => None
      | String _ s' => FILENAME_PROPERTY_REGEX_exec s'
      end
  end.

(** [a || b] on optional strings: the empty string is falsy. *)
Definition orElse (a b : option string) : option string :=
  match a with
  | Some (String _ _) => a
  | _ => b
  end.

Definition isNonEmpty (s : option string) : bool :=
  match s with Some (String _ _) => true | _ => false end.

Definition guessTorrentFileName (urlWithoutQuery : string)
    (headers : list (string * string)) (metadataFileType : MetadataFileType)
    : string :=
  let contentDisposition := header headers "content-disposition" in
  let maybeFilename : option string :=
    if isNonEmpty contentDisposition &&
       negb (Js.indexOf (match contentDisposition with
                         | Some cd => cd
                         | None => ""
                         end) "filename=" =? -1)
    then
      match FILENAME_PROPERTY_REGEX_exec
              (match contentDisposition with Some cd => cd | None => "" end) with
      | Some regexMatch =>
          orElse (orElse (group2 regexMatch) (group3 regexMatch)) None
      | None => None
      end
    else Some (Js.sliceFrom urlWithoutQuery
                 (Js.lastIndexOf urlWithoutQuery "/" + 1)) in
  let maybeFilename : string :=
    match maybeFilename with
    | None => "download"
    | Some name => if Js.len name =? 0 then "download" else name
    end in
  if Js.endsWith maybeFilename (extension metadataFileType)
  then maybeFilename
  else maybeFilename ++ extension metadataFileType.

(** [ED2K_FILENAME_REGEX] anchored at the start of [s]: group 1, the
    characters between [|file|] and the next bar. *)
Definition matchEd2kHere (s : string) : option string :=
  match stripPrefix "|file|" s with
  | None => None
  | Some rest =>
      let '(body, tail) := span (fun d => negb (Ascii.eqb d verticalBar)) rest in
      match body, tail with
      | String _ _, String _ _ => Some body
      | _, _ => None
      end
  end.

(** [url.match(ED2K_FILENAME_REGEX)]: group 1 of the leftmost match *)
Fixpoint ED2K_FILENAME_REGEX_match (s : string) : option string :=
  match matchEd2kHere s with
  | Some name => Some name
  | None =>
      match s with
      | EmptyString => None
      | String _ s' => ED2K_FILENAME_REGEX_match s'
      end
  end.

Definition guessFileNameFromUrl (url : string) : option string :=
  if Js.startsWith url "magnet:" then queryStringDn url
  else if Js.startsWith url "ed2k:" then ED2K_FILENAME_REGEX_match url
  else None.

(** The [TypeError] of [undefined.toLowerCase()]. *)
Definition typeError : Js.Value :=
  Js.Object true [("name", Js.Str "TypeError")].

(** [path && path.startsWith('/') ? path.slice(1) : undefined] *)
Definition destinationOf (path : option string) : option string :=
  match path with
  | Some p =>
      if negb (String.eqb p "") && Js.startsWith p "/"
      then Some (Js.sliceFrom p 1)
      else None
  | None => None
  end.

(** [url.indexOf('?') !== -1 ? url.slice(0, url.indexOf('?')) : url] *)
Definition withoutQuery (url : string) : string :=
  if negb (Js.indexOf url "?" =? -1)
  then Js.slice url 0 (Js.indexOf url "?")
  else url.

(** The closures of [addDownloadTaskAndPoll], with what they close over
    as arguments. *)
Definition notifyTaskAddResult (notificationId url : string)
    (filename : option string) (result : ApiResult unit)
    : Prog (Settled unit) :=
  match result with
  | Disconnected _ =>
      trigger (Notify "Failed to connection to DiskStation"
                 (Some "Please check your settings.")
                 (Some "failure") (Some notificationId)) ;;;
      Ret (Fulfilled tt)
  | Responded (Success _) =>
      trigger (Notify "Download added"
                 (Some (match orElse filename None with
                        | Some name => name
                        | None => url
                        end))
                 (Some "success") (Some notificationId)) ;;;
      Ret (Fulfilled tt)
  | Responded (Failure code) =>
      trigger (Notify "Failed to add download"
                 (Some (errorMessageFromCode code "DownloadStation.Task"))
                 (Some "failure") (Some notificationId)) ;;;
      Ret (Fulfilled tt)
  end.

Definition notifyUnexpectedError (notificationId : string) (error : Js.Value)
    : Prog (Settled unit) :=
  trigger (Notify "Failed to add download"
             (Some "Unexpected error; please check your settings and try again")
             (Some "failure") (Some notificationId)) ;;;
  Ret (Fulfilled tt).

Definition pollOnResponse (_ : unit) : Prog (Settled unit) := pollTasks.

Definition addDownloadTaskAndPoll (url : string) (path : option string)
    : Prog (Settled unit) :=
  notificationId <- trigger (Notify "Adding download..." (Some url) None None) ;;
  let destination := destinationOf path in
  let notifyTaskAddResult := notifyTaskAddResult notificationId url in
  let notifyUnexpectedError := notifyUnexpectedError notificationId in
  if negb (String.eqb url "") then
    if Protocols.startsWithAnyProtocol url AUTO_DOWNLOAD_TORRENT_FILE_PROTOCOLS then
      orCatch
        (andThen (trigger (AxiosHead url 10000))
           (fun response =>
              match header (headers response) "content-type" with
              | None => Ret (RejectedWith typeError)
              | Some rawContentType =>
                  let contentType := Js.toLowerCase rawContentType in
                  let contentLength := header (headers response) "content-length" in
                  let urlWithoutQuery := withoutQuery url in
                  let metadataFileType :=
                    find (fun fileType =>
                            String.eqb contentType (mediaType fileType) ||
                            Js.endsWith urlWithoutQuery (extension fileType))
                         METADATA_FILE_TYPES in
                  let submitUri :=
                    andThen
                      (andThen
                         (doCreateTask {| file := []; uri := [url];
                                          destination := destination |})
                         (notifyTaskAddResult None))
                      pollOnResponse in
                  match metadataFileType with
                  | Some metadataFileType =>
                      if negb (isNaN (toNumber contentLength)) &&
                         lessThan (toNumber contentLength)
                                  ARBITRARY_FILE_FETCH_SIZE_CUTOFF
                      then
                        andThen (trigger (AxiosGet url (Some 10000)))
                          (fun response =>
                             let content :=
                               {| blob_parts := data response;
                                  blob_type := mediaType metadataFileType |} in
                             let filename :=
                               guessTorrentFileName urlWithoutQuery
                                 (headers response) metadataFileType in
                             andThen
                               (andThen
                                  (doCreateTask
                                     {| file := [ {| content := content;
                                                     filename := filename |} ];
                                        uri := [];
                                        destination := destination |})
                                  (notifyTaskAddResult (Some filename)))
                               pollOnResponse)
                      else submitUri
                  | None => submitUri
                  end
              end))
        notifyUnexpectedError
    else if Protocols.startsWithAnyProtocol url ALL_DOWNLOADABLE_PROTOCOLS then
      orCatch
        (andThen
           (andThen
              (doCreateTask {| file := []; uri := [url];
                               destination := destination |})
              (notifyTaskAddResult (guessFileNameFromUrl url)))
           pollOnResponse)
        notifyUnexpectedError
    else
      trigger (Notify "Failed to add download"
                 (Some ("URL must start with one of " ++
                        Js.join ", " ALL_DOWNLOADABLE_PROTOCOLS))
                 (Some "failure") (Some notificationId)) ;;;
      Ret (Fulfilled tt)
  else
    trigger (Notify "Failed to add download"
               (Some "No URL to download given")
               (Some "failure") (Some notificationId)) ;;;
    Ret (Fulfilled tt).

End WithCollaborators.
End Actions.

(** ** The multi-URL submission flow *)

Module MultiAdd.

Definition AUTO_DOWNLOAD_TORRENT_FILE_PROTOCOLS : list string :=
  ["http"; "https"].

Definition DOWNLOADABLE_PROTOCOLS : list string :=
  ["http"; "https"; "ftp"; "ftps"; "magnet"; "thunder"; "flashget"; "qqdl"].

Definition METADATA_FILE_TYPES : list Actions.MetadataFileType :=
  [ {| Actions.mediaType := "application/x-bittorrent";
       Actions.extension := ".torrent" |};
    {| Actions.mediaType := "application/x-nzb";
       Actions.extension := ".nzb" |} ].

Definition ARBITRARY_FILE_FETCH_SIZE_CUTOFF : Z := 1024 * 1024 * 5.

Definition startsWithAnyProtocol (url : string) (protocols : list string) : bool :=
  existsb (fun protocol => Js.startsWith url (protocol ++ ":")) protocols.

(** [guessFileName] has the text of [guessTorrentFileName], regular
    expression included. *)
Definition guessFileName (urlWithoutQuery : string)
    (headers : list (string * string))
    (metadataFileType : Actions.MetadataFileType) : string :=
  Actions.guessTorrentFileName urlWithoutQuery headers metadataFileType.

Definition doCreateTask : TaskCreateRequest -> Prog (Settled (ApiResult unit)) :=
  Actions.wrapInNoPermissionsRetry (fun options => trigger (TaskCreate options)).

Record Accumulator (T : Type) : Type := {
  resolved : list T;
  rejected : list Js.Value
}.

(** [next()] of [partitionPromises]; the queue and the accumulator it
    closes over are passed along.  A promise of the queue is the program
    that waits for it to settle. *)
Fixpoint next {T} (queue : list (Prog (Settled T)))
    (accumulator : Accumulator T) : Prog (Settled (Accumulator T)) :=
  match queue with
  | [] => Ret (Fulfilled accumulator)
  | promise :: queue =>
      andThen
        (orCatch
           (andThen promise
              (fun result =>
                 Ret (Fulfilled
                        {| resolved := resolved accumulator ++ [result];
                           rejected := rejected accumulator |})))
           (fun e =>
              Ret (Fulfilled
                     {| resolved := resolved accumulator;
                        rejected :=
                          rejected accumulator ++
                          [if Js.truthy e && Js.instanceofError e
                           then e else Js.newError] |})))
        (fun accumulator => next queue accumulator)
  end.

Definition partitionPromises {T} (promises : list (Prog (Settled T)))
    : Prog (Settled (Accumulator T)) :=
  next promises {| resolved := []; rejected := [] |}.

(** [`${n}`] for a length *)
Definition decimal (n : nat) : string :=
  NilZero.string_of_uint (Nat.to_uint n).

Section WithCollaborators.
Context `{Collaborators}.

(** [pollTasks] of [./pollTasks], which is not among the files. *)
Variable pollTasks : Prog (Settled unit).

(** [FormFile | string]: [inl] is a file, which is what [isFormFile]
    tests. *)
Definition Submission : Type := (FormFile + string)%type.

Definition maybeMapUrlToFile (url : string) : Prog (Settled Submission) :=
  if startsWithAnyProtocol url AUTO_DOWNLOAD_TORRENT_FILE_PROTOCOLS then
    andThen (trigger (AxiosHead url 10000))
      (fun response =>
         match header (headers response) "content-type" with
         | None => Ret (RejectedWith Actions.typeError)
         | Some rawContentType =>
             let contentType := Js.toLowerCase rawContentType in
             let contentLength := header (headers response) "content-length" in
             let urlWithoutQuery := Actions.withoutQuery url in
             let metadataFileType :=
               find (fun fileType =>
                       String.eqb contentType (Actions.mediaType fileType) ||
                       Js.endsWith urlWithoutQuery (Actions.extension fileType))
                    METADATA_FILE_TYPES in
             match metadataFileType with
             | Some metadataFileType =>
                 if negb (isNaN (toNumber contentLength)) &&
                    lessThan (toNumber contentLength)
                             ARBITRARY_FILE_FETCH_SIZE_CUTOFF
                 then
                   andThen (trigger (AxiosGet url (Some 10000)))
                     (fun response =>
                        let content :=
                          {| blob_parts := data response;
                             blob_type := Actions.mediaType metadataFileType |} in
                        let filename :=
                          guessFileName urlWithoutQuery (headers response)
                            metadataFileType in
                        Ret (Fulfilled
                               (inl {| content := content;
                                       filename := filename |})))
                 else Ret (Fulfilled (inr url))
             | None => Ret (Fulfilled (inr url))
             end
         end)
  else Ret (Fulfilled (inr url)).

Definition rejectUnknownUrls (taskPromise : Prog (Settled Submission))
    : Prog (Settled Submission) :=
  andThen taskPromise
    (fun task =>
       match task with
       | inl _ => Ret (Fulfilled task)
       | inr url =>
           if startsWithAnyProtocol url DOWNLOADABLE_PROTOCOLS
           then Ret (Fulfilled task)
           else Ret (RejectedWith
                       (Js.Str ("URL '" ++ url ++ "' must start with one of " ++
                                Js.join ", " DOWNLOADABLE_PROTOCOLS)))
       end).

(** The [reduce] that sorts the resolved submissions into files and URIs. *)
Definition sortSubmissions (resolved : list Submission)
    : list FormFile * list string :=
  fold_left
    (fun accumulator task =>
       match task with
       | inl f => ((fst accumulator ++ [f])%list, snd accumulator)
       | inr u => (fst accumulator, (snd accumulator ++ [u])%list)
       end)
    resolved (@nil FormFile, @nil string).

Definition notifyUnexpectedError (notificationId : option string)
    (error : Js.Value) : Prog (Settled unit) :=
  trigger (Notify "Failed to add download"
             (Some "Unexpected error; please check your settings and try again")
             None notificationId) ;;;
  Ret (Fulfilled tt).

Definition pollOnResponse (_ : ApiResult unit) : Prog (Settled unit) :=
  pollTasks.

Definition addDownloadTasksAndPoll (urls : list string) (path : option string)
    : Prog (Settled unit) :=
  match urls with
  | _ :: _ =>
      notificationId <-
        match urls with
        | [url] => trigger (Notify "Adding download..." (Some url) None None)
        | _ => trigger (Notify ("Adding " ++ decimal (List.length urls) ++
                                " downloads...") None None None)
        end ;;
      let destination := Actions.destinationOf path in
      orCatch
        (andThen
           (partitionPromises
              (map rejectUnknownUrls (map maybeMapUrlToFile urls)))
           (fun partition =>
              match resolved partition with
              | [] => Ret (Fulfilled tt)
              | _ :: _ =>
                  let '(file, uri) := sortSubmissions (resolved partition) in
                  andThen
                    (doCreateTask {| file := file; uri := uri;
                                     destination := destination |})
                    pollOnResponse
              end))
        (notifyUnexpectedError (Some notificationId))
  | [] =>
      trigger (Notify "Failed to add download"
                 (Some "No URL to download given") None None) ;;;
      Ret (Fulfilled tt)
  end.

End WithCollaborators.
End MultiAdd.

(** ** [TaskPoller]

    The class is a pair of fields; what it has in flight (a request, a
    storage write, a queued microtask, a timer) is kept next to it, and
    the environment decides what settles next.  Each pending item carries
    the [count] its chain captured in [tryPoll]. *)

Module TaskPoller.

Record PollerSettings : Type := {
  enabled : bool;
  hostname : string;
  sid : option string;
  interval : Z
}.

(** [Partial<PollerSettings>]: [None] is an absent key. *)
Record PartialPollerSettings : Type := {
  given_enabled : option bool;
  given_hostname : option string;
  given_sid : option (option string);
  given_interval : option Z
}.

Definition DEFAULT_SETTINGS : PollerSettings :=
  {| enabled := false; hostname := ""; sid := None; interval := 60 |}.

Definition asPartial (s : PollerSettings) : PartialPollerSettings :=
  {| given_enabled := Some (enabled s);
     given_hostname := Some (hostname s);
     given_sid := Some (sid s);
     given_interval := Some (interval s) |}.

(** [{ ...old, ...given }] *)
Definition spreadSettings (old : PollerSettings) (given : PartialPollerSettings)
    : PollerSettings :=
  {| enabled := match given_enabled given with Some v => v | None => enabled old end;
     hostname := match given_hostname given with Some v => v | None => hostname old end;
     sid := match given_sid given with Some v => v | None => sid old end;
     interval := match given_interval given with Some v => v | None => interval old end |}.

(** [{ ...settings, interval: undefined }] as an object. *)
Definition withoutInterval (s : PollerSettings) : list (string * Js.Value) :=
  [ ("enabled", Js.Boolean (enabled s));
    ("hostname", Js.Str (hostname s));
    ("sid", match sid s with Some v => Js.Str v | None => Js.Undefined end);
    ("interval", Js.Undefined) ].

(** [a === b]; two objects are the same only by identity, which the
    values of this model do not carry. *)
Definition strictEq (a b : Js.Value) : bool :=
  match a, b with
  | Js.Undefined, Js.Undefined => true
  | Js.Null, Js.Null => true
  | Js.Boolean x, Js.Boolean y => Bool.eqb x y
  | Js.Number x, Js.Number y => x =? y
  | Js.Str x, Js.Str y => String.eqb x y
  | _, _ => false
  end.

Definition hasKey (o : list (string * Js.Value)) (key : string) : bool :=
  existsb (fun kv => String.eqb (fst kv) key) o.

(** Modelled from the spec: [shallowEqual] of [./shallowEqual] is not
    among the files.  Two settings objects count as equal when they agree
    field by field: the same number of keys, and every key of the first
    is a key of the second with a strictly equal value. *)
Definition shallowEqual (a b : list (string * Js.Value)) : bool :=
  Nat.eqb (List.length a) (List.length b) &&
  forallb (fun kv => hasKey b (fst kv) && strictEq (snd kv) (Js.lookup b (fst kv))) a.

Record PartialCachedTasks : Type := {
  tasks : option (list DownloadStationTask);
  tasksFetchFailureMessage : option (option string);
  tasksFetchUpdateTimestamp : option Z
}.

Inductive WriteOrigin : Type :=
| FromResponse
| FromError
| FromMissingSettings.

Inductive Pending : Type :=
| AwaitingList (count : Z)
| AwaitingWrite (count : Z) (origin : WriteOrigin)
| QueuedMissingSettings (count : Z)
| Timer (count : Z) (delay : Z).

Inductive Call : Type :=
| CallTaskList (count : Z) (hostname sid : string) (request : TaskListRequest)
| CallStorageSet (count : Z) (items : PartialCachedTasks)
| CallSetTimeout (count : Z) (delay : Z).

Record World : Type := {
  tryPollCount : Z;
  settings : PollerSettings;
  pending : list Pending;
  calls : list Call
}.

Definition setPending (w : World) (p : list Pending) : World :=
  {| tryPollCount := tryPollCount w; settings := settings w;
     pending := p; calls := calls w |}.

Definition issue (w : World) (c : Call) (p : Pending) : World :=
  {| tryPollCount := tryPollCount w; settings := settings w;
     pending := pending w ++ [p]; calls := calls w ++ [c] |}.

Definition truthyString (s : string) : bool := negb (String.eqb s "").

(** The synchronous part of [tryPoll]. *)
Definition tryPoll (w : World) : World :=
  let count := tryPollCount w + 1 in
  let w := {| tryPollCount := count; settings := settings w;
              pending := pending w; calls := calls w |} in
  if enabled (settings w) then
    match sid (settings w) with
    | Some s =>
        if truthyString (hostname (settings w)) && truthyString s
        then issue w
               (CallTaskList count (hostname (settings w)) s
                  {| offset := 0; limit := -1; additional := ["transfer"];
                     list_timeout := None |})
               (AwaitingList count)
        else setPending w (pending w ++ [QueuedMissingSettings count])
    | None => setPending w (pending w ++ [QueuedMissingSettings count])
    end
  else w.

Definition updateSettings (given : PartialPollerSettings) (w : World) : World :=
  let newSettings := spreadSettings (settings w) given in
  let oldSettings := settings w in
  let w := {| tryPollCount := tryPollCount w; settings := newSettings;
              pending := pending w; calls := calls w |} in
  if negb (shallowEqual (withoutInterval newSettings) (withoutInterval oldSettings))
  then tryPoll w
  else w.

(** [new TaskPoller(settings)] *)
Definition construct (given : option PartialPollerSettings) : World :=
  updateSettings
    (match given with Some g => g | None => asPartial DEFAULT_SETTINGS end)
    {| tryPollCount := 0; settings := DEFAULT_SETTINGS;
       pending := []; calls := [] |}.

Fixpoint removeNth {A} (i : nat) (l : list A) : list A :=
  match i, l with
  | _, [] => []
  | O, _ :: rest => rest
  | S i', x :: rest => x :: removeNth i' rest
  end.

Inductive Input : Type :=
| UpdateSettings (given : PartialPollerSettings)
| ListSettled (i : nat)
    (outcome : Settled (SynologyResponse (list DownloadStationTask))) (now : Z)
| WriteSettled (i : nat) (outcome : Settled unit) (now : Z)
| MicrotaskRun (i : nat) (now : Z)
| TimerFired (i : nat).

Section WithCollaborators.
Context `{Collaborators}.

(** [a || b || 'Unknown error.'] over the two tables. *)
Definition responseFailureMessage (code : Z) : string :=
  match Actions.orElse
          (Actions.orElse (ERROR_CODES_common code) (ERROR_CODES_task code))
          (Some "Unknown error.") with
  | Some m => m
  | None => "Unknown error."
  end.

(** [pollPromise.then(() => { if (enabled) setTimeout(...) })] *)
Definition afterPoll (count : Z) (w : World) : World :=
  if enabled (settings w)
  then issue w
         (CallSetTimeout count (interval (settings w) * 1000))
         (Timer count (interval (settings w) * 1000))
  else w.

(** The [then] handler of the request. *)
Definition onResponse (count : Z)
    (response : SynologyResponse (list DownloadStationTask)) (now : Z)
    (w : World) : World :=
  if enabled (settings w) then
    let cachedTasks :=
      match response with
      | Success fetched =>
          {| tasks := Some fetched;
             tasksFetchFailureMessage := Some None;
             tasksFetchUpdateTimestamp := Some now |}
      | Failure code =>
          {| tasks := None;
             tasksFetchFailureMessage := Some (Some (responseFailureMessage code));
             tasksFetchUpdateTimestamp := Some now |}
      end in
    issue w (CallStorageSet count cachedTasks) (AwaitingWrite count FromResponse)
  else afterPoll count w.

(** The [catch] handler of the request. *)
Definition onError (count : Z) (error : Js.Value) (now : Z) (w : World) : World :=
  if enabled (settings w) then
    let failureMessage := failureMessageOf error in
    let cachedTasks :=
      {| tasks := None;
         tasksFetchFailureMessage := Some (Some failureMessage);
         tasksFetchUpdateTimestamp := Some now |} in
    issue w (CallStorageSet count cachedTasks) (AwaitingWrite count FromError)
  else afterPoll count w.

(** The branch of [tryPoll] taken without a host or a session. *)
Definition onMissingSettings (count : Z) (now : Z) (w : World) : World :=
  issue w
    (CallStorageSet count
       {| tasks := None;
          tasksFetchFailureMessage :=
            Some (Some "Host, username or password is not set. Please check your settings.");
          tasksFetchUpdateTimestamp := Some now |})
    (AwaitingWrite count FromMissingSettings).

(** One turn of the event loop: a call of [updateSettings], or one
    pending item settling.  [None] when the input does not name a pending
    item of its kind. *)
Definition step (w : World) (input : Input) : option World :=
  match input with
  | UpdateSettings given => Some (updateSettings given w)
  | ListSettled i outcome now =>
      match nth_error (pending w) i with
      | Some (AwaitingList count) =>
          let w := setPending w (removeNth i (pending w)) in
          Some match outcome with
               | Fulfilled response => onResponse count response now w
               | RejectedWith error => onError count error now w
               end
      | _ => None
      end
  | WriteSettled i outcome now =>
      match nth_error (pending w) i with
      | Some (AwaitingWrite count origin) =>
          let w := setPending w (removeNth i (pending w)) in
          Some match outcome, origin with
               | Fulfilled _, _ => afterPoll count w
               | RejectedWith error, FromResponse => onError count error now w
               | RejectedWith _, FromError => w
               | RejectedWith _, FromMissingSettings => w
               end
      | _ => None
      end
  | MicrotaskRun i now =>
      match nth_error (pending w) i with
      | Some (QueuedMissingSettings count) =>
          Some (onMissingSettings count now
                  (setPending w (removeNth i (pending w))))
      | _ => None
      end
  | TimerFired i =>
      match nth_error (pending w) i with
      | Some (Timer count _) =>
          let w := setPending w (removeNth i (pending w)) in
          Some (if count =? tryPollCount w then tryPoll w else w)
      | _ => None
      end
  end.

Fixpoint run (w : World) (inputs : list Input) : option World :=
  match inputs with
  | [] => Some w
  | input :: rest =>
      match step w input with
      | Some w' => run w' rest
      | None => None
      end
  end.

End WithCollaborators.
End TaskPoller.

(** ** Reading a trace *)

Definition taskListAnswer (o : Obs)
    : option (Settled (ApiResult (list DownloadStationTask))) :=
  match o with
  | Observed e x =>
      match e in Event X return X -> option _ with
      | TaskList _ => fun answer => Some answer
      | _ => fun _ => None
      end x
  end.

Definition taskCreateRequest (o : Obs) : option TaskCreateRequest :=
  match o with
  | Observed e _ => match e with TaskCreate request => Some request | _ => None end
  end.


Definition axiosGetUrl (o : Obs) : option string :=
  match o with
  | Observed e _ => match e with AxiosGet url _ => Some url | _ => None end
  end.

Definition headAnswer (o : Obs) : option (Settled HttpResponse) :=
  match o with
  | Observed e x =>
      match e in Event X return X -> option _ with
      | AxiosHead _ _ => fun answer => Some answer
      | _ => fun _ => None
      end x
  end.

Definition getAnswer (o : Obs) : option (Settled HttpResponse) :=
  match o with
  | Observed e x =>
      match e in Event X return X -> option _ with
      | AxiosGet _ _ => fun answer => Some answer
      | _ => fun _ => None
      end x
  end.

(** A notification as the user sees it. *)
Record Notification : Type := {
  n_title : string;
  n_message : option string;
  n_kind : option string;
  n_replaces : option string
}.

Definition notification (o : Obs) : option Notification :=
  match o with
  | Observed e _ =>
      match e with
      | Notify title message kind id =>
          Some {| n_title := title; n_message := message;
                  n_kind := kind; n_replaces := id |}
      | _ => None
      end
  end.

(** The values a projection picks out of a trace, in order. *)
Fixpoint collect {A} (f : Obs -> option A) (tr : list Obs) : list A :=
  match tr with
  | [] => []
  | o :: rest =>
      match f o with
      | Some a => a :: collect f rest
      | None => collect f rest
      end
  end.


(** ** An environment to run examples against

    Every kind of call is answered from a list of prepared answers, in
    order; a kind that has run out is answered by a default. *)

Record Script : Type := {
  clock : list Z;
  storageAnswers : list (Settled unit);
  listAnswers : list (Settled (ApiResult (list DownloadStationTask)));
  createAnswers : list (Settled (ApiResult unit));
  headAnswers : list (Settled HttpResponse);
  getAnswers : list (Settled HttpResponse);
  firstAnswers : list bool
}.

Definition emptyScript : Script :=
  {| clock := []; storageAnswers := []; listAnswers := [];
     createAnswers := []; headAnswers := []; getAnswers := [];
     firstAnswers := [] |}.

Definition networkError : Js.Value :=
  Js.Object true [("message", Js.Str "Network Error")].

Definition scripted : Handler Script :=
  {| handle := fun X (e : Event X) =>
       match e in Event X return Script -> X * Script with
       | DateNow => fun s =>
           (hd 0 (clock s),
            {| clock := tl (clock s); storageAnswers := storageAnswers s;
               listAnswers := listAnswers s; createAnswers := createAnswers s;
               headAnswers := headAnswers s; getAnswers := getAnswers s;
               firstAnswers := firstAnswers s |})
       | StorageLocalSet _ => fun s =>
           (hd (Fulfilled tt) (storageAnswers s),
            {| clock := clock s; storageAnswers := tl (storageAnswers s);
               listAnswers := listAnswers s; createAnswers := createAnswers s;
               headAnswers := headAnswers s; getAnswers := getAnswers s;
               firstAnswers := firstAnswers s |})
       | TaskList _ => fun s =>
           (hd (RejectedWith networkError) (listAnswers s),
            {| clock := clock s; storageAnswers := storageAnswers s;
               listAnswers := tl (listAnswers s); createAnswers := createAnswers s;
               headAnswers := headAnswers s; getAnswers := getAnswers s;
               firstAnswers := firstAnswers s |})
       | TaskCreate _ => fun s =>
           (hd (RejectedWith networkError) (createAnswers s),
            {| clock := clock s; storageAnswers := storageAnswers s;
               listAnswers := listAnswers s; createAnswers := tl (createAnswers s);
               headAnswers := headAnswers s; getAnswers := getAnswers s;
               firstAnswers := firstAnswers s |})
       | AuthLogout => fun s => (tt, s)
       | Notify _ _ _ _ => fun s => ("notification", s)
       | AxiosHead _ _ => fun s =>
           (hd (RejectedWith networkError) (headAnswers s),
            {| clock := clock s; storageAnswers := storageAnswers s;
               listAnswers := listAnswers s; createAnswers := createAnswers s;
               headAnswers := tl (headAnswers s); getAnswers := getAnswers s;
               firstAnswers := firstAnswers s |})
       | AxiosGet _ _ => fun s =>
           (hd (RejectedWith networkError) (getAnswers s),
            {| clock := clock s; storageAnswers := storageAnswers s;
               listAnswers := listAnswers s; createAnswers := createAnswers s;
               headAnswers := headAnswers s; getAnswers := tl (getAnswers s);
               firstAnswers := firstAnswers s |})
       | SettledFirst => fun s =>
           (hd true (firstAnswers s),
            {| clock := clock s; storageAnswers := storageAnswers s;
               listAnswers := listAnswers s; createAnswers := createAnswers s;
               headAnswers := headAnswers s; getAnswers := getAnswers s;
               firstAnswers := tl (firstAnswers s) |})
       end |}.

(** Collaborators for the examples: error codes print as ["code N"], the
    protocol lists are those of the multi-URL flow, and a header value
    converts when it is a plain run of digits. *)

Fixpoint digitsValue (acc : Z) (s : string) : option Z :=
  match s with
  | EmptyString => Some acc
  | String c rest =>
      let n := Z.of_nat (nat_of_ascii c) in
      if (48 <=? n) && (n <=? 57) then digitsValue (acc * 10 + (n - 48)) rest
      else None
  end.

Definition sampleCollaborators : Collaborators :=
  {| errorMessageFromCode := fun code _ =>
       "code " ++ MultiAdd.decimal (Z.to_nat code);
     errorMessageFromConnectionFailure := cf_failureMessage;
     Task_API_NAME := "SYNO.DownloadStation.Task";
     ERROR_CODES_common := fun code =>
       if code =? 100 then Some "Unknown error." else None;
     ERROR_CODES_task := fun _ => None;
     ALL_DOWNLOADABLE_PROTOCOLS := MultiAdd.DOWNLOADABLE_PROTOCOLS;
     AUTO_DOWNLOAD_TORRENT_FILE_PROTOCOLS :=
       MultiAdd.AUTO_DOWNLOAD_TORRENT_FILE_PROTOCOLS;
     queryStringDn := fun _ => None;
     toNumber := fun value =>
       match value with
       | None => NaN
       | Some EmptyString => Finite 0
       | Some digits =>
           match digitsValue 0 digits with
           | Some n => Finite n
           | None => NaN
           end
       end |}.

(** ** The vocabulary of the properties *)

(** The answer given to a storage write, and to a [Task.Create]. *)
Definition storageAnswer (o : Obs) : option (Settled unit) :=
  match o with
  | Observed e x =>
      match e in Event X return X -> option _ with
      | StorageLocalSet _ => fun answer => Some answer
      | _ => fun _ => None
      end x
  end.

Definition createAnswer (o : Obs) : option (Settled (ApiResult unit)) :=
  match o with
  | Observed e x =>
      match e in Event X return X -> option _ with
      | TaskCreate _ => fun answer => Some answer
      | _ => fun _ => None
      end x
  end.

(** The answer is a successful response. *)
Definition isSuccess {D} (answer : Settled (ApiResult D)) : bool :=
  match answer with
  | Fulfilled (Responded (Success _)) => true
  | _ => false
  end.

(** A notification that closes a submission: it says how it ended. *)
Definition isTerminal (n : Notification) : Prop :=
  n_kind n = Some "success" \/ n_kind n = Some "failure".

(** Waiting for the promises of a list one after the other, first to
    last. *)
Fixpoint settleInOrder {S T} (h : Handler S) (promises : list (Prog (Settled T)))
    (s : S) : list (Settled T) * S * list Obs :=
  match promises with
  | [] => ([], s, [])
  | promise :: rest =>
      let '(outcome, s1, t1) := exec h promise s in
      let '(outcomes, s2, t2) := settleInOrder h rest s1 in
      (outcome :: outcomes, s2, (t1 ++ t2)%list)
  end.

(** The values, and the reasons, of a list of outcomes, in order. *)
Fixpoint fulfilledValues {T} (outcomes : list (Settled T)) : list T :=
  match outcomes with
  | [] => []
  | Fulfilled v :: rest => v :: fulfilledValues rest
  | RejectedWith _ :: rest => fulfilledValues rest
  end.

Fixpoint rejectionReasons {T} (outcomes : list (Settled T)) : list Js.Value :=
  match outcomes with
  | [] => []
  | Fulfilled _ :: rest => rejectionReasons rest
  | RejectedWith e :: rest => e :: rejectionReasons rest
  end.

(** An [Error] instance is kept, anything else becomes [new Error]. *)
Definition asError (e : Js.Value) : Js.Value :=
  if Js.instanceofError e then e else Js.newError.

(** The name before the extension is considered: never empty. *)
Definition orDownload (name : option string) : string :=
  match name with
  | Some (String c rest) => String c rest
  | _ => "download"
  end.

Definition withExtension (name extension : string) : string :=
  if Js.endsWith name extension then name else name ++ extension.

(** The part of a URL after its last slash (all of it without one). *)
Definition finalSegment (url : string) : string :=
  Js.sliceFrom url (Js.lastIndexOf url "/" + 1).


(** The error carries an HTTP response whose status is 400. *)
Definition hasStatus400 (error : Js.Value) : Prop :=
  exists isError props,
    error = Js.Object isError props /\
    Js.truthy (Js.lookup props "response") = true /\
    Js.get (Js.lookup props "response") "status" = Js.Number 400.

(** The error has the given message. *)
Definition hasMessage (error : Js.Value) (message : string) : Prop :=
  exists isError props,
    error = Js.Object isError props /\
    Js.lookup props "message" = Js.Str message.

(** The message that goes with the shape of an error; the cases are
    tried in this order. *)
Definition classified (error : Js.Value) (message : string) : Prop :=
  (hasStatus400 error ->
   message = "Connection failure (likely wrong protocol).") /\
  (~ hasStatus400 error -> hasMessage error "Network Error" ->
   message =
     "Connection failure (likely incorrect hostname/port or no internet connection).") /\
  (~ hasStatus400 error -> ~ hasMessage error "Network Error" ->
   message = "Unknown error.").


(** No observation of the program is picked out by [f], whatever the
    environment answers. *)
Inductive avoids (B : Type) (f : Obs -> option B) (A : Type)
    : Prog A -> Prop :=
| avoids_Ret (a : A) : avoids f (Ret a)
| avoids_Vis (X : Type) (e : Event X) (k : X -> Prog A) :
    (forall x, f (Observed e x) = None) ->
    (forall x, avoids f (k x)) ->
    avoids f (Vis e k).

Definition addingDownload (url : string) : Notification :=
  {| n_title := "Adding download..."; n_message := Some url;
     n_kind := None; n_replaces := None |}.

(** How a run reports on the submission: the last answer to
    [Task.Create], if any, was a successful response. *)
Definition succeeded (tr : list Obs) : bool :=
  isSuccess (last (collect createAnswer tr) (RejectedWith Js.Undefined)).


(** The request that submits the URL itself. *)
Definition uriSubmission (url : string) (path : option string)
    : TaskCreateRequest :=
  {| file := []; uri := [url]; destination := Actions.destinationOf path |}.

Definition oneOrTwo (request : TaskCreateRequest)
    (requests : list TaskCreateRequest) : Prop :=
  requests = [request] \/ requests = [request; request].

(** The message [rejectUnknownUrls] rejects with. *)
Definition unknownUrlMessage (url : string) : string :=
  "URL '" ++ url ++ "' must start with one of " ++
  "http, https, ftp, ftps, magnet, thunder, flashget, qqdl".

(** The announcement of the multi-URL flow. *)
Definition announcement (urls : list string) : Event string :=
  match urls with
  | [url] => Notify "Adding download..." (Some url) None None
  | _ => Notify ("Adding " ++ MultiAdd.decimal (List.length urls) ++
                 " downloads...") None None None
  end.

Section WithCollaborators.
Context `{Collaborators}.



End WithCollaborators.

Section Reports.
Variables (S : Type) (h : Handler S).

(** A part of the flow that either reports the outcome once and
    fulfils, or rejects without having reported anything. *)
Definition reportsOrRejects (p : Prog (Settled unit)) : Prop :=
  forall s : S,
    let '(r, _, tr) := exec h p s in
    (r = Fulfilled tt /\
     exists n, collect notification tr = [n] /\ isTerminal n /\
               (n_kind n = Some "success" <-> succeeded tr = true)) \/
    ((exists e, r = RejectedWith e) /\ collect notification tr = [] /\
     succeeded tr = false).

(** A part of the flow that reports the outcome exactly once. *)
Definition reportsOnce (p : Prog (Settled unit)) : Prop :=
  forall s : S,
    exists n,
      collect notification (trace h p s) = [n] /\ isTerminal n /\
      (n_kind n = Some "success" <-> succeeded (trace h p s) = true).

End Reports.

Module PollerSpec.
Import TaskPoller.



(** What later calls add to the log: the count only grows, and a request
    issued later carries a count above the one the poller had. *)
Definition advances (w w' : World) : Prop :=
  tryPollCount w <= tryPollCount w' /\
  exists added,
    calls w' = (calls w ++ added)%list /\
    forall count host session request,
      In (CallTaskList count host session request) added ->
      tryPollCount w < count.

End PollerSpec.

(** ** Worked runs *)

Module Runs.




Definition oneTask : DownloadStationTask :=
  {| task_id := "dbid_1"; task_title := "ubuntu.iso";
     task_status := "downloading" |}.


(** The request is rejected: no network. *)
Definition offlineScript : Script :=
  {| clock := [10; 20]; storageAnswers := [];
     listAnswers := [RejectedWith networkError];
     createAnswers := []; headAnswers := []; getAnswers := [];
     firstAnswers := [] |}.




(** The station accepts what is submitted. *)
Definition acceptingScript : Script :=
  {| clock := [10; 20]; storageAnswers := [];
     listAnswers := [Fulfilled (Responded (Success [oneTask]))];
     createAnswers := [Fulfilled (Responded (Success tt))];
     headAnswers := []; getAnswers := []; firstAnswers := [] |}.

Definition magnetUrl : string := "magnet:?xt=urn:btih:c12fe1c06bba254a9dc9f519b335aa7c1367a88a".

Definition nasSettings : TaskPoller.PartialPollerSettings :=
  {| TaskPoller.given_enabled := Some true;
     TaskPoller.given_hostname := Some "https://nas.local:5001";
     TaskPoller.given_sid := Some (Some "session-1");
     TaskPoller.given_interval := Some 30 |}.

Definition newSession : TaskPoller.PartialPollerSettings :=
  {| TaskPoller.given_enabled := None;
     TaskPoller.given_hostname := None;
     TaskPoller.given_sid := Some (Some "session-2");
     TaskPoller.given_interval := None |}.

(** A poller that polled once, cached the answer, set its timer, and was
    then given a new session. *)
Definition supersededWorld : TaskPoller.World :=
  match @TaskPoller.run sampleCollaborators
          (TaskPoller.construct (Some nasSettings))
          [ TaskPoller.ListSettled 0 (Fulfilled (Success [oneTask])) 100;
            TaskPoller.WriteSettled 0 (Fulfilled tt) 101;
            TaskPoller.UpdateSettings newSession ] with
  | Some w => w
  | None => TaskPoller.construct None
  end.

End Runs.

(** ** The rest of [actions]: clearing the cache, and the first
    submission flow *)

Module Cache.

(** [clearCachedTasks()], the same in both revisions. *)
Definition clearCachedTasks : Prog (Settled unit) :=
  let emptyState :=
    {| tasks := Some [];
       taskFetchFailureReason := Some None;
       tasksLastCompletedFetchTimestamp := Some None;
       tasksLastInitiatedFetchTimestamp := Some None |} in
  trigger (StorageLocalSet emptyState).

(** [CachedTasks]: what the storage area holds under the four keys. *)
Record CachedTasks : Type := {
  stored_tasks : list DownloadStationTask;
  stored_reason : option FailureReason;
  stored_completed : option Z;
  stored_initiated : option Z
}.

(** [browser.storage.local.set(items)] once it is fulfilled: the keys
    given are stored, the others are left as they were. *)
Definition store (area : CachedTasks) (items : PartialCachedTasks) : CachedTasks :=
  {| stored_tasks :=
       match tasks items with Some v => v | None => stored_tasks area end;
     stored_reason :=
       match taskFetchFailureReason items with
       | Some v => v
       | None => stored_reason area
       end;
     stored_completed :=
       match tasksLastCompletedFetchTimestamp items with
       | Some v => v
       | None => stored_completed area
       end;
     stored_initiated :=
       match tasksLastInitiatedFetchTimestamp items with
       | Some v => v
       | None => stored_initiated area
       end |}.

(** The write of an observation, when it is one that was fulfilled. *)
Definition fulfilledWrite (o : Obs) : option PartialCachedTasks :=
  match o with
  | Observed e x =>
      match e in Event X return X -> option PartialCachedTasks with
      | StorageLocalSet items =>
          fun answer =>
            match answer with
            | Fulfilled _ => Some items
            | RejectedWith _ => None
            end
      | _ => fun _ => None
      end x
  end.

(** The storage area after the writes of a trace. *)
Definition areaAfter (tr : list Obs) (area : CachedTasks) : CachedTasks :=
  fold_left store (collect fulfilledWrite tr) area.

Section WithCollaborators.
Context `{Collaborators}.

(** [clearCachedTasks().then(() => { pollTasks(api); })] of the
    background script: the poll is started and not waited for. *)
Definition clearThenPoll : Prog (Settled unit) :=
  andThen clearCachedTasks
    (fun _ => Actions.pollTasks ;;; Ret (Fulfilled tt)).

End WithCollaborators.
End Cache.

Module FirstSubmission.

Definition AUTO_DOWNLOAD_TORRENT_FILE_PROTOCOLS : list string :=
  ["http"; "https"; "ftp"; "ftps"].

Definition DOWNLOADABLE_PROTOCOLS : list string :=
  ["http"; "https"; "ftp"; "ftps"; "magnet"].

Definition ARBITRARY_FILE_FETCH_SIZE_CUTOFF : Z := 1024 * 1024 * 5.

Definition startsWithAnyProtocol (url : string) (protocols : list string) : bool :=
  existsb (fun protocol => Js.startsWith url (protocol ++ "://")) protocols.

Section WithCollaborators.
Context `{Collaborators}.

Definition notifyTaskAddResult (notificationId url : string)
    (result : ApiResult unit) : Prog (Settled unit) :=
  match result with
  | Disconnected _ =>
      trigger (Notify "Failed to connection to DiskStation"
                 (Some "Please check your settings.")
                 None (Some notificationId)) ;;;
      Ret (Fulfilled tt)
  | Responded (Success _) =>
      trigger (Notify "Download added" (Some url) None (Some notificationId)) ;;;
      Ret (Fulfilled tt)
  | Responded (Failure code) =>
      trigger (Notify "Failed to add download"
                 (Some (errorMessageFromCode code Task_API_NAME))
                 None (Some notificationId)) ;;;
      Ret (Fulfilled tt)
  end.

Definition addDownloadTask (url : string) : Prog (Settled unit) :=
  notificationId <- trigger (Notify "Adding download..." (Some url) None None) ;;
  if negb (String.eqb url "") then
    if startsWithAnyProtocol url AUTO_DOWNLOAD_TORRENT_FILE_PROTOCOLS then
      andThen
        (andThen (trigger (AxiosHead url 10000))
           (fun response =>
              match header (headers response) "content-type" with
              | None => Ret (RejectedWith Actions.typeError)
              | Some rawContentType =>
                  let contentType := Js.toLowerCase rawContentType in
                  let contentLength := header (headers response) "content-length" in
                  if (String.eqb contentType "application/x-bittorrent" ||
                      Js.endsWith url ".torrent") &&
                     negb (isNaN (toNumber contentLength)) &&
                     lessThan (toNumber contentLength)
                              ARBITRARY_FILE_FETCH_SIZE_CUTOFF
                  then
                    andThen (trigger (AxiosGet url None))
                      (fun response =>
                         let blob :=
                           {| blob_parts := data response;
                              blob_type := "application/x-bittorrent" |} in
                         trigger (TaskCreate
                                    {| file := [ {| content := blob;
                                                    filename := "download.torrent" |} ];
                                       uri := [];
                                       destination := None |}))
                  else
                    trigger (TaskCreate {| file := []; uri := [url];
                                           destination := None |})
              end))
        (notifyTaskAddResult notificationId url)
    else if startsWithAnyProtocol url DOWNLOADABLE_PROTOCOLS then
      andThen
        (trigger (TaskCreate {| file := []; uri := [url]; destination := None |}))
        (notifyTaskAddResult notificationId url)
    else
      trigger (Notify "Failed to add download"
                 (Some ("URL must start with one of " ++
                        Js.join ", " DOWNLOADABLE_PROTOCOLS))
                 None None) ;;;
      Ret (Fulfilled tt)
  else
    trigger (Notify "Failed to add download"
               (Some "No URL to download given") None None) ;;;
    Ret (Fulfilled tt).

End WithCollaborators.
End FirstSubmission.

(** ** The background script *)

Module Background.

(** [s.trim()]: the white space and line terminators among the
    characters of this model. *)
Definition isWhiteSpace (c : ascii) : bool :=
  let n := nat_of_ascii c in
  (Nat.leb 9 n && Nat.leb n 13) || Nat.eqb n 32 || Nat.eqb n 160.

Fixpoint trimStart (s : string) : string :=
  match s with
  | EmptyString => EmptyString
  | String c rest => if isWhiteSpace c then trimStart rest else s
  end.

Fixpoint trimEnd (s : string) : string :=
  match s with
  | EmptyString => EmptyString
  | String c rest =>
      match trimEnd rest with
      | EmptyString => if isWhiteSpace c then EmptyString else String c EmptyString
      | kept => String c kept
      end
  end.

Definition trim (s : string) : string := trimEnd (trimStart s).

(** Modelled from the spec: [NotificationSettings] is declared in
    [../common/state], which is not among the files.  The record has the
    two fields that the script reads. *)
Record NotificationSettings : Type := {
  enabled : bool;
  pollingInterval : Z
}.

(** What the listener reads of the stored state. *)
Record StoredState : Type := {
  notifications : NotificationSettings;
  taskFetchFailureReason : option FailureReason;
  tasks : list DownloadStationTask;
  tasksLastCompletedFetchTimestamp : option Z
}.

(** The variables of the script that the listener updates. *)
Record Variables : Type := {
  finishedTaskIds : option (list string);
  notificationSettings : NotificationSettings;
  notificationInterval : option Z
}.

(** What the listener asks of the browser, in order. *)
Inductive Request : Type :=
| ClearCachedTasksThenPoll
| ClearInterval (id : option Z)
| SetInterval (delay : Z) (id : Z)
| SetIcon (disabled : bool)
| SetBadgeText (text : string)
| SetBadgeBackgroundColor (color : list Z)
| NotifyFinished (title : string).

(** [isEqual] of lodash on two notification settings: the same value in
    every field. *)
Definition isEqual (a b : NotificationSettings) : bool :=
  Bool.eqb (enabled a) (enabled b) && (pollingInterval a =? pollingInterval b).

(** [ids.indexOf(id) === -1] *)
Definition absent (ids : list string) (id : string) : bool :=
  negb (existsb (String.eqb id) ids).

Definition isFinished (t : DownloadStationTask) : bool :=
  String.eqb (task_status t) "finished" || String.eqb (task_status t) "seeding".

(** [updatedFinishedTaskIds] *)
Definition updatedFinishedTaskIds (storedState : StoredState) : list string :=
  map task_id (filter isFinished (tasks storedState)).

(** [newlyFinishedTaskIds]; nothing is new before the first list of
    finished tasks has been recorded. *)
Definition newlyFinishedTaskIds (known : option (list string))
    (storedState : StoredState) : list string :=
  match known with
  | Some ids => filter (absent ids) (updatedFinishedTaskIds storedState)
  | None => []
  end.

(** The notifications of the [forEach]: the title of the first task with
    the identifier. *)
Definition finishedNotifications (storedState : StoredState)
    (ids : list string) : list Request :=
  flat_map
    (fun id =>
       match filter (fun t => String.eqb (task_id t) id) (tasks storedState) with
       | task :: _ =>
           if enabled (notifications storedState)
           then [NotifyFinished (task_title task)]
           else []
       | [] => []
       end)
    ids.

(** Whether the stored state reports a fetch that completed after the
    script started and did not fail. *)
Definition isFreshSuccess (START_TIME : Z) (storedState : StoredState) : bool :=
  match tasksLastCompletedFetchTimestamp storedState,
        taskFetchFailureReason storedState with
  | Some completed, None => START_TIME <? completed
  | _, _ => false
  end.

(** The listener given to [onStoredStateChange].  [didUpdateSettings] is
    what [api.updateSettings] returned and [timer] the identifier that
    [setInterval] returns if it is called. *)
Definition onStoredStateChange (START_TIME : Z) (vars : Variables)
    (storedState : StoredState) (didUpdateSettings : bool) (timer : Z)
    : Variables * list Request :=
  let settingsRequests :=
    if didUpdateSettings then [ClearCachedTasksThenPoll] else [] in
  let changed := negb (isEqual (notifications storedState)
                               (notificationSettings vars)) in
  let notificationSettings' :=
    if changed then notifications storedState else notificationSettings vars in
  let intervalRequests :=
    if changed then
      ClearInterval (notificationInterval vars) ::
      (if enabled (notifications storedState)
       then [SetInterval (pollingInterval (notifications storedState) * 1000) timer]
       else [])
    else [] in
  let notificationInterval' :=
    if changed && enabled (notifications storedState)
    then Some timer
    else notificationInterval vars in
  let badgeRequests :=
    match taskFetchFailureReason storedState with
    | Some _ =>
        [ SetIcon true; SetBadgeText "";
          SetBadgeBackgroundColor [217; 0; 0; 255] ]
    | None =>
        [ SetIcon false;
          SetBadgeText
            (match tasks storedState with
             | [] => ""
             | _ :: _ => MultiAdd.decimal (List.length (tasks storedState))
             end);
          SetBadgeBackgroundColor [0; 217; 0; 255] ]
    end in
  let fresh := isFreshSuccess START_TIME storedState in
  let finishedRequests :=
    if fresh
    then finishedNotifications storedState
           (newlyFinishedTaskIds (finishedTaskIds vars) storedState)
    else [] in
  let finishedTaskIds' :=
    if fresh
    then Some ((match finishedTaskIds vars with Some ids => ids | None => [] end) ++
               filter (fun taskId =>
                         match finishedTaskIds vars with
                         | Some ids => absent ids taskId
                         | None => true
                         end)
                      (updatedFinishedTaskIds storedState))%list
    else finishedTaskIds vars in
  ({| finishedTaskIds := finishedTaskIds';
      notificationSettings := notificationSettings';
      notificationInterval := notificationInterval' |},
   (settingsRequests ++ intervalRequests ++ badgeRequests ++ finishedRequests)%list).

(** The variables when the script is loaded; the default notification
    settings come from [../common/state]. *)
Definition loaded (defaultNotifications : NotificationSettings) : Variables :=
  {| finishedTaskIds := None;
     notificationSettings := defaultNotifications;
     notificationInterval := None |}.

(** One call of the listener, as the browser makes it. *)
Record Change : Type := {
  storedState : StoredState;
  didUpdateSettings : bool;
  timer : Z
}.

(** The listener called for a sequence of changes. *)
Fixpoint listen (START_TIME : Z) (vars : Variables) (changes : list Change)
    : Variables * list (list Request) :=
  match changes with
  | [] => (vars, [])
  | change :: rest =>
      let '(vars1, requests) :=
        onStoredStateChange START_TIME vars (storedState change)
          (didUpdateSettings change) (timer change) in
      let '(vars2, later) := listen START_TIME vars1 rest in
      (vars2, requests :: later)
  end.

(** What the context menu receives. *)
Record OnClickData : Type := {
  linkUrl : option string;
  srcUrl : option string;
  selectionText : option string
}.

Section WithCollaborators.
Context `{Collaborators}.

(** [browser.i18n.getMessage] *)
Variable getMessage : string -> string.

(** The [onclick] of the context menu entry. *)
Definition onclick (data : OnClickData) : Prog (Settled unit) :=
  if Actions.isNonEmpty (linkUrl data) then
    Actions.addDownloadTaskAndPoll
      (match linkUrl data with Some u => u | None => "" end) None
  else if Actions.isNonEmpty (srcUrl data) then
    Actions.addDownloadTaskAndPoll
      (match srcUrl data with Some u => u | None => "" end) None
  else if Actions.isNonEmpty (selectionText data) then
    let text := match selectionText data with Some t => t | None => "" end in
    let trimmedUrl := trim text in
    if Protocols.startsWithAnyProtocol trimmedUrl ALL_DOWNLOADABLE_PROTOCOLS
    then Actions.addDownloadTaskAndPoll text None
    else
      trigger (Notify (getMessage "Failed_to_add_download")
                 (Some (getMessage "Selected_text_is_not_a_valid_URL"))
                 (Some "failure") None) ;;;
      Ret (Fulfilled tt)
  else
    trigger (Notify (getMessage "Failed_to_add_download")
               (Some (getMessage "URL_is_empty_or_missing"))
               (Some "failure") None) ;;;
    Ret (Fulfilled tt).

End WithCollaborators.
End Background.

(** ** The vocabulary of the further properties *)

(** The files, and the URLs, of a list of submissions, in order. *)
Fixpoint filesOf (submissions : list (FormFile + string)) : list FormFile :=
  match submissions with
  | [] => []
  | inl f :: rest => f :: filesOf rest
  | inr _ :: rest => filesOf rest
  end.

Fixpoint urlsOf (submissions : list (FormFile + string)) : list string :=
  match submissions with
  | [] => []
  | inl _ :: rest => urlsOf rest
  | inr u :: rest => u :: urlsOf rest
  end.

(** The URLs of a list that the multi-URL flow lets through. *)
Definition downloadable (urls : list string) : list string :=
  filter (fun url =>
            MultiAdd.startsWithAnyProtocol url MultiAdd.DOWNLOADABLE_PROTOCOLS)
         urls.

(** What a URL that is not looked at first settles to in the multi-URL
    flow. *)
Definition settledPlain (url : string) : Settled (FormFile + string) :=
  if MultiAdd.startsWithAnyProtocol url MultiAdd.DOWNLOADABLE_PROTOCOLS
  then Fulfilled (inr url)
  else RejectedWith (Js.Str (unknownUrlMessage url)).

(** The request of the multi-URL flow for URLs submitted as they are. *)
Definition urisSubmission (urls : list string) (path : option string)
    : TaskCreateRequest :=
  {| file := []; uri := urls; destination := Actions.destinationOf path |}.



(** What the single-URL flow may fetch and submit for a URL: the file is
    fetched from that URL, at most once; every request carries the
    destination of the path and either the URL alone, or one file and no
    URL, the file only after it was fetched. *)
Definition submitsOnlyGiven (url : string) (path : option string)
    (fetched : list string) (requests : list TaskCreateRequest) : Prop :=
  (fetched = [] \/ fetched = [url]) /\
  forall request,
    In request requests ->
    destination request = Actions.destinationOf path /\
    ((file request = [] /\ uri request = [url]) \/
     (uri request = [] /\ (exists f, file request = [f]) /\ fetched = [url])).

(** What the multi-URL flow may fetch and submit for a list of URLs: it
    fetches only URLs of the list that are looked at first; it makes at
    most one request (sent twice by the retry), whose URLs are URLs of the
    list that start with a downloadable protocol, whose files are no more
    than were fetched, and which carries the destination of the path. *)
Definition submitsOnlyGivenList (urls : list string) (path : option string)
    (fetched : list string) (requests : list TaskCreateRequest) : Prop :=
  Forall (fun url =>
            In url urls /\
            MultiAdd.startsWithAnyProtocol url
              MultiAdd.AUTO_DOWNLOAD_TORRENT_FILE_PROTOCOLS = true) fetched /\
  exists request,
    (requests = [] \/ oneOrTwo request requests) /\
    incl (uri request) (downloadable urls) /\
    (List.length (file request) <= List.length fetched)%nat /\
    destination request = Actions.destinationOf path.

(** What a poll may leave of the cached tasks: those that were cached, or
    those of the successful response that it ended with, stored with a
    cleared failure reason and the time of completion. *)
Definition keptOrFetched (tr : list Obs) (before after : Cache.CachedTasks)
    : Prop :=
  Cache.stored_tasks after = Cache.stored_tasks before \/
  exists fetched,
    last (collect taskListAnswer tr) (RejectedWith Js.Undefined) =
      Fulfilled (Responded (Success fetched)) /\
    Cache.stored_tasks after = fetched /\
    Cache.stored_reason after = None /\
    exists now, Cache.stored_completed after = Some now.

(** The notification of the first revision for a URL it does not take. *)
Definition firstRevisionRefusal : Notification :=
  {| n_title := "Failed to add download";
     n_message :=
       Some "URL must start with one of http, https, ftp, ftps, magnet";
     n_kind := None; n_replaces := None |}.

Module PollerTerms.
Import TaskPoller.

(** The chain a pending item belongs to. *)
Definition countOf (p : Pending) : Z :=
  match p with
  | AwaitingList count => count
  | AwaitingWrite count _ => count
  | QueuedMissingSettings count => count
  | Timer count _ => count
  end.

(** What may be pending together: one item per chain, of chains that were
    started. *)
Definition oneItemPerChain (w : World) : Prop :=
  NoDup (map countOf (pending w)) /\
  Forall (fun p => countOf p <= tryPollCount w) (pending w).

(** A request for the task list that names a host and a session. *)
Definition namesHostAndSession (c : Call) : Prop :=
  match c with
  | CallTaskList _ host session request =>
      host <> "" /\ session <> "" /\
      request = {| offset := 0; limit := -1; additional := ["transfer"];
                   list_timeout := None |}
  | _ => True
  end.

(** A cache write that is stamped, and carries the tasks exactly when it
    clears the failure message. *)
Definition isConsistentWrite (c : Call) : Prop :=
  match c with
  | CallStorageSet _ items =>
      (exists now, tasksFetchUpdateTimestamp items = Some now) /\
      ((exists fetched, tasks items = Some fetched /\
                        tasksFetchFailureMessage items = Some None) \/
       (exists message, tasks items = None /\
                        tasksFetchFailureMessage items = Some (Some message) /\
                        message <> ""))
  | _ => True
  end.

Definition isUpdate (input : Input) : bool :=
  match input with UpdateSettings _ => true | _ => false end.

(** The write made without a host or a session. *)
Definition isMissingSettingsWrite (c : Call) : Prop :=
  exists count now,
    c = CallStorageSet count
          {| tasks := None;
             tasksFetchFailureMessage :=
               Some (Some "Host, username or password is not set. Please check your settings.");
             tasksFetchUpdateTimestamp := Some now |}.

(** A handler run for a chain adds at most one item, of that chain. *)
Definition addsForChain (count : Z) (w w' : World) : Prop :=
  tryPollCount w' = tryPollCount w /\
  (pending w' = pending w \/
   exists p, countOf p = count /\ pending w' = (pending w ++ [p])%list).

(** What a turn of the poller adds to its calls: a timer is set only by
    an enabled poller, for the interval of its settings, and is then
    pending. *)
Definition setsTimersFor (w w' : World) : Prop :=
  exists added,
    calls w' = (calls w ++ added)%list /\
    forall count delay,
      In (CallSetTimeout count delay) added ->
      enabled (settings w') = true /\
      delay = interval (settings w') * 1000 /\
      In (Timer count delay) (pending w').

(** What every call of the poller satisfies. *)
Definition wellFormed (c : Call) : Prop :=
  namesHostAndSession c /\ isConsistentWrite c.

End PollerTerms.

Module BackgroundTerms.
Import Background.

Definition isNotifyFinished (r : Request) : bool :=
  match r with NotifyFinished _ => true | _ => false end.

Definition isIntervalRequest (r : Request) : bool :=
  match r with ClearInterval _ | SetInterval _ _ => true | _ => false end.

(** The identifiers a call of the listener announces as finished. *)
Definition announcedBy (START_TIME : Z) (vars : Variables)
    (storedState : StoredState) : list string :=
  if isFreshSuccess START_TIME storedState
  then newlyFinishedTaskIds (finishedTaskIds vars) storedState
  else [].

(** The identifiers announced over a sequence of calls. *)
Fixpoint announcedDuring (START_TIME : Z) (vars : Variables)
    (changes : list Change) : list string :=
  match changes with
  | [] => []
  | change :: rest =>
      (announcedBy START_TIME vars (storedState change) ++
       announcedDuring START_TIME
         (fst (onStoredStateChange START_TIME vars (storedState change)
                 (didUpdateSettings change) (timer change)))
         rest)%list
  end.

(** The intervals that run after a list of requests, given those that ran
    before: each with its identifier and its delay. *)
Fixpoint runningAfter (requests : list Request) (running : list (Z * Z))
    : list (Z * Z) :=
  match requests with
  | [] => running
  | ClearInterval (Some id) :: rest =>
      runningAfter rest (filter (fun r => negb (fst r =? id)) running)
  | SetInterval delay id :: rest =>
      runningAfter rest (running ++ [(id, delay)])
  | _ :: rest => runningAfter rest running
  end.

(** At most one interval runs: the one the script remembers, set for the
    notification settings it remembers, which are enabled. *)
Definition oneInterval (vars : Variables) (running : list (Z * Z)) : Prop :=
  match running with
  | [] => True
  | [(id, delay)] =>
      notificationInterval vars = Some id /\
      enabled (notificationSettings vars) = true /\
      delay = pollingInterval (notificationSettings vars) * 1000
  | _ => False
  end.

(** The identifiers the script has recorded as finished. *)
Definition recorded (vars : Variables) : list string :=
  match finishedTaskIds vars with Some ids => ids | None => [] end.

Definition hasDistinctTasks (change : Change) : Prop :=
  NoDup (map task_id (tasks (storedState change))).

End BackgroundTerms.

Module MoreRuns.

(** A poller that polls, caches the answer, sets its timer and is given a
    new session. *)
Definition pollerInputs : list TaskPoller.Input :=
  [ TaskPoller.ListSettled 0 (Fulfilled (Success [Runs.oneTask])) 100;
    TaskPoller.WriteSettled 0 (Fulfilled tt) 101;
    TaskPoller.UpdateSettings Runs.newSession ].

Definition switchOff : TaskPoller.PartialPollerSettings :=
  {| TaskPoller.given_enabled := Some false;
     TaskPoller.given_hostname := None;
     TaskPoller.given_sid := None;
     TaskPoller.given_interval := None |}.

(** A poller switched off while its request is under way. *)
Definition switchedOff : TaskPoller.World :=
  TaskPoller.updateSettings switchOff
    (TaskPoller.construct (Some Runs.nasSettings)).

Definition whileOff : list TaskPoller.Input :=
  [ TaskPoller.ListSettled 0 (Fulfilled (Success [Runs.oneTask])) 100 ].

(** A poller whose request was answered and whose cache write is under
    way. *)
Definition answered : TaskPoller.World :=
  match @TaskPoller.run sampleCollaborators
          (TaskPoller.construct (Some Runs.nasSettings))
          [ TaskPoller.ListSettled 0 (Fulfilled (Success [Runs.oneTask])) 100 ] with
  | Some w => w
  | None => TaskPoller.construct None
  end.

(** A poller whose request was rejected and that is writing the failure
    message to the cache. *)
Definition reportingFailure : TaskPoller.World :=
  match @TaskPoller.run sampleCollaborators
          (TaskPoller.construct (Some Runs.nasSettings))
          [ TaskPoller.ListSettled 0 (RejectedWith networkError) 100 ] with
  | Some w => w
  | None => TaskPoller.construct None
  end.

Definition notifying : Background.NotificationSettings :=
  {| Background.enabled := true; Background.pollingInterval := 60 |}.

Definition finishedTask : DownloadStationTask :=
  {| task_id := "dbid_1"; task_title := "ubuntu.iso";
     task_status := "finished" |}.

Definition stateWith (tasks : list DownloadStationTask)
    (settings : Background.NotificationSettings) : Background.StoredState :=
  {| Background.notifications := settings;
     Background.taskFetchFailureReason := None;
     Background.tasks := tasks;
     Background.tasksLastCompletedFetchTimestamp := Some 200 |}.

(** The task is seen downloading, then finished, then finished again. *)
Definition taskFinishes : list Background.Change :=
  [ {| Background.storedState := stateWith [Runs.oneTask] notifying;
       Background.didUpdateSettings := true; Background.timer := 7 |};
    {| Background.storedState := stateWith [finishedTask] notifying;
       Background.didUpdateSettings := false; Background.timer := 8 |};
    {| Background.storedState := stateWith [finishedTask] notifying;
       Background.didUpdateSettings := false; Background.timer := 9 |} ].

(** The variables of the script once it has seen the task downloading. *)
Definition sawDownloading : Background.Variables :=
  fst (Background.onStoredStateChange 100
         (Background.loaded notifying)
         (stateWith [Runs.oneTask] notifying) true 7).

Definition selectedLink : Background.OnClickData :=
  {| Background.linkUrl := None; Background.srcUrl := None;
     Background.selectionText := Some " magnet:?xt=urn:btih:c12f" |}.

End MoreRuns.

(** ** Properties *)

(** *** Running a sequence *)

Lemma exec_bind S A B (h : Handler S) (p : Prog A) (f : A -> Prog B) (s : S) :
  exec h (bind p f) s =
  let '(a, s1, t1) := exec h p s in
  let '(b, s2, t2) := exec h (f a) s1 in
  (b, s2, (t1 ++ t2)%list).
Proof.
  revert s; induction p as [a | X e k IH]; intros s; simpl.
  - destruct (exec h (f a) s) as [[b s2] t2]; reflexivity.
  - destruct (handle h e s) as [x s1].
    rewrite IH.
    destruct (exec h (k x) s1) as [[a s2] t1].
    destruct (exec h (f a) s2) as [[b s3] t2]; reflexivity.
Qed.

Lemma exec_trigger S X (h : Handler S) (e : Event X) (s : S) :
  exec h (trigger e) s =
  (fst (handle h e s), snd (handle h e s), [Observed e (fst (handle h e s))]).
Proof.
  unfold trigger; simpl.
  destruct (handle h e s); reflexivity.
Qed.

Lemma collect_app A (f : Obs -> option A) (t1 t2 : list Obs) :
  collect f (t1 ++ t2) = (collect f t1 ++ collect f t2)%list.
Proof.
  induction t1 as [| o t1 IH]; simpl; [reflexivity|].
  destruct (f o); simpl; rewrite IH; reflexivity.
Qed.

(** *** The retry wrapper *)

(** C2. [wrapInNoPermissionsRetry(fn)] calls [fn] once; when that call
    resolves with a response (not a connection failure) that is
    unsuccessful with error code 105 it logs the session out, calls [fn]
    once more with the same arguments and returns the second result; in
    every other case the first result is returned as it is.  [fn] is
    therefore called at most twice; [doTaskPoll] wraps [Task.List] and
    [doCreateTask] wraps [Task.Create], each issuing its request once or
    twice. *)
Theorem wrapInNoPermissionsRetry_retries_once :
  (forall S (h : Handler S) Args D
          (fn : Args -> Prog (Settled (ApiResult D))) (args : Args) (s : S),
      exec h (Actions.wrapInNoPermissionsRetry fn args) s =
      match exec h (fn args) s with
      | (Fulfilled (Responded (Failure code)), s1, t1) =>
          if code =? 105 then
            let '(u, s2) := handle h AuthLogout s1 in
            let '(second, s3, t2) := exec h (fn args) s2 in
            (second, s3, (t1 ++ Observed AuthLogout u :: t2)%list)
          else (Fulfilled (Responded (Failure code)), s1, t1)
      | first => first
      end) /\
  Actions.doTaskPoll =
    Actions.wrapInNoPermissionsRetry
      (fun _ : unit => trigger (TaskList Actions.taskListRequest)) /\
  Actions.doCreateTask =
    Actions.wrapInNoPermissionsRetry
      (fun options => trigger (TaskCreate options)) /\
  (forall S (h : Handler S) (s : S),
      let tr := trace h (Actions.doTaskPoll tt) s in
      (List.length (collect taskListAnswer tr) = 1%nat \/
       List.length (collect taskListAnswer tr) = 2%nat) /\
      (List.length (collect taskListAnswer tr) = 2%nat <->
       hd_error (collect taskListAnswer tr) =
         Some (Fulfilled (Responded (Failure 105)))) /\
      collect taskCreateRequest tr = []) /\
  (forall S (h : Handler S) (s : S) (options : TaskCreateRequest),
      let tr := trace h (Actions.doCreateTask options) s in
      (collect taskCreateRequest tr = [options] \/
       collect taskCreateRequest tr = [options; options]) /\
      collect taskListAnswer tr = []).
Proof.
  split; [| split; [reflexivity | split; [reflexivity | split]]].
  - intros S h Args D fn args s.
    unfold Actions.wrapInNoPermissionsRetry, andThen.
    rewrite exec_bind.
    destruct (exec h (fn args) s) as [[r s1] t1].
    destruct r as [[failure | [d | code]] | e]; simpl;
      rewrite ?app_nil_r; try reflexivity.
    unfold Actions.NO_PERMISSIONS_ERROR_CODE.
    destruct (code =? 105); simpl; rewrite ?app_nil_r; [| reflexivity].
    destruct (handle h AuthLogout s1) as [u s2].
    destruct (exec h (fn args) s2) as [[second s3] t2].
    reflexivity.
  - intros S h s tr; subst tr.
    unfold trace, Actions.doTaskPoll, Actions.wrapInNoPermissionsRetry, andThen.
    simpl.
    destruct (handle h (TaskList Actions.taskListRequest) s)
      as [[[failure | [d | code]] | e] s1]; simpl;
      try (split; [left; reflexivity | split; [split; discriminate | reflexivity]]).
    unfold Actions.NO_PERMISSIONS_ERROR_CODE.
    destruct (code =? 105) eqn:Hcode; simpl.
    + apply Z.eqb_eq in Hcode; subst code.
      destruct (handle h AuthLogout s1) as [u s2].
      destruct (handle h (TaskList Actions.taskListRequest) s2) as [second s3].
      simpl.
      split; [right; reflexivity | split; [split; reflexivity | reflexivity]].
    + split; [left; reflexivity | split; [| reflexivity]].
      split; [discriminate |].
      intros Heq; inversion Heq; subst.
      rewrite Z.eqb_refl in Hcode; discriminate.
  - intros S h s options tr; subst tr.
    unfold trace, Actions.doCreateTask, Actions.wrapInNoPermissionsRetry, andThen.
    simpl.
    destruct (handle h (TaskCreate options) s)
      as [[[failure | [d | code]] | e] s1]; simpl;
      try (split; [left; reflexivity | reflexivity]).
    destruct (code =? Actions.NO_PERMISSIONS_ERROR_CODE); simpl.
    + destruct (handle h AuthLogout s1) as [u s2].
      destruct (handle h (TaskCreate options) s2) as [second s3].
      simpl.
      split; [right; reflexivity | reflexivity].
    + split; [left; reflexivity | reflexivity].
Qed.

(** *** Promise chains *)

Lemma exec_andThen S A B (h : Handler S) (p : Prog (Settled A))
    (f : A -> Prog (Settled B)) (s : S) :
  exec h (andThen p f) s =
  match exec h p s with
  | (Fulfilled a, s1, t1) =>
      let '(b, s2, t2) := exec h (f a) s1 in (b, s2, (t1 ++ t2)%list)
  | (RejectedWith e, s1, t1) => (RejectedWith e, s1, t1)
  end.
Proof.
  unfold andThen; rewrite exec_bind.
  destruct (exec h p s) as [[[a | e] s1] t1]; simpl.
  - destruct (exec h (f a) s1) as [[b s2] t2]; reflexivity.
  - rewrite app_nil_r; reflexivity.
Qed.

Lemma exec_orCatch S A (h : Handler S) (p : Prog (Settled A))
    (handler : Js.Value -> Prog (Settled A)) (s : S) :
  exec h (orCatch p handler) s =
  match exec h p s with
  | (Fulfilled a, s1, t1) => (Fulfilled a, s1, t1)
  | (RejectedWith e, s1, t1) =>
      let '(b, s2, t2) := exec h (handler e) s1 in (b, s2, (t1 ++ t2)%list)
  end.
Proof.
  unfold orCatch; rewrite exec_bind.
  destruct (exec h p s) as [[[a | e] s1] t1]; simpl.
  - rewrite app_nil_r; reflexivity.
  - destruct (exec h (handler e) s1) as [[b s2] t2]; reflexivity.
Qed.

(** *** [partitionPromises] *)

Lemma instanceofError_truthy (e : Js.Value) :
  Js.instanceofError e = true -> Js.truthy e = true.
Proof. destruct e as [| | b | n | t | [] props]; simpl; congruence. Qed.

Lemma normalised_reason (e : Js.Value) :
  (if Js.truthy e && Js.instanceofError e then e else Js.newError) = asError e.
Proof.
  unfold asError.
  destruct (Js.instanceofError e) eqn:He.
  - rewrite (instanceofError_truthy He); reflexivity.
  - rewrite andb_false_r; reflexivity.
Qed.



Lemma next_accumulates S T (h : Handler S)
    (queue : list (Prog (Settled T))) :
  forall (accumulator : MultiAdd.Accumulator T) (s : S),
    exec h (MultiAdd.next queue accumulator) s =
    let '(outcomes, s1, tr) := settleInOrder h queue s in
    (Fulfilled
       {| MultiAdd.resolved :=
            (MultiAdd.resolved accumulator ++ fulfilledValues outcomes)%list;
          MultiAdd.rejected :=
            (MultiAdd.rejected accumulator ++
             map asError (rejectionReasons outcomes))%list |},
     s1, tr).
Proof.
  induction queue as [| promise queue IH]; intros accumulator s.
  - simpl. rewrite !app_nil_r. destruct accumulator; reflexivity.
  - cbn [MultiAdd.next settleInOrder].
    rewrite exec_andThen, exec_orCatch, exec_andThen.
    destruct (exec h promise s) as [[[v | e] s1] t1]; cbn [exec];
      rewrite ?app_nil_r, IH;
      destruct (settleInOrder h queue s1) as [[outcomes s2] t2];
      cbn [fulfilledValues rejectionReasons map MultiAdd.resolved
           MultiAdd.rejected];
      rewrite <- ?app_assoc, ?normalised_reason; reflexivity.
Qed.


(** *** File names *)


Lemma stripPrefix_startsWith (p s : string) :
  Js.startsWith s p = false -> Actions.stripPrefix p s = None.
Proof.
  revert s; induction p as [| b p IH]; intros s;
    [destruct s; simpl; discriminate |].
  destruct s as [| a s]; simpl; [reflexivity |].
  destruct (Ascii.eqb a b); simpl; [apply IH | reflexivity].
Qed.

Lemma indexOf_lower_bound (s sub : string) : -1 <= Js.indexOf s sub.
Proof.
  induction s as [| c s IH]; cbn [Js.indexOf].
  - destruct (Js.startsWith "" sub); lia.
  - destruct (Js.startsWith (String c s) sub); [lia |].
    destruct (Js.indexOf s sub <? 0) eqn:Hneg; [lia |].
    apply Z.ltb_ge in Hneg; lia.
Qed.

Lemma startsWith_empty (s : string) : Js.startsWith s "" = true.
Proof. destruct s; reflexivity. Qed.

(** A string without a slash has no last slash either. *)
Lemma lastIndexOf_without_slash (s : string) :
  Js.indexOf s "/" = -1 -> Js.lastIndexOf s "/" = -1.
Proof.
  induction s as [| c s IH]; [reflexivity |].
  cbn [Js.indexOf Js.lastIndexOf Js.startsWith].
  rewrite startsWith_empty, andb_true_r.
  destruct (Ascii.eqb c "/"); [discriminate |].
  pose proof (@indexOf_lower_bound s "/") as Hlow.
  destruct (Js.indexOf s "/" <? 0) eqn:Hneg; [| intros; lia].
  apply Z.ltb_lt in Hneg.
  intros _. rewrite IH by lia. reflexivity.
Qed.

Lemma lastIndexOf_last_slash (dir segment : string) :
  Js.indexOf segment "/" = -1 ->
  Js.lastIndexOf (dir ++ "/" ++ segment) "/" = Js.len dir.
Proof.
  intros Hnone. unfold Js.len.
  induction dir as [| c dir IH].
  - cbn [append String.length]. cbn [Js.lastIndexOf].
    rewrite (lastIndexOf_without_slash Hnone).
    cbn [Js.startsWith Ascii.eqb Bool.eqb andb].
    rewrite startsWith_empty. reflexivity.
  - cbn [append String.length Js.lastIndexOf] in IH |- *. rewrite IH.
    destruct (0 <=? Z.of_nat (String.length dir)) eqn:Hpos.
    + lia.
    + apply Z.leb_gt in Hpos. lia.
Qed.

Lemma substring_all (s : string) : substring 0 (String.length s) s = s.
Proof. induction s as [| c s IH]; simpl; [reflexivity | rewrite IH; reflexivity]. Qed.

Lemma substring_after (a b : string) :
  substring (String.length a) (String.length b) (a ++ b) = b.
Proof.
  induction a as [| c a IH]; simpl; [apply substring_all | exact IH].
Qed.

Lemma length_append (a b : string) :
  String.length (a ++ b) = (String.length a + String.length b)%nat.
Proof. induction a as [| c a IH]; simpl; [reflexivity | rewrite IH; reflexivity]. Qed.

(** The final segment of a URL is what follows its last slash, and the
    whole of a URL without a slash. *)
Lemma finalSegment_after_last_slash (dir segment : string) :
  Js.indexOf segment "/" = -1 ->
  finalSegment (dir ++ "/" ++ segment) = segment.
Proof.
  intros Hnone.
  unfold finalSegment, Js.sliceFrom, Js.slice, Js.clampIndex.
  rewrite (lastIndexOf_last_slash dir Hnone).
  unfold Js.len.
  rewrite !length_append. cbn [String.length].
  assert (Hpos : (Z.of_nat (String.length dir +
                            (1 + String.length segment)) <? 0) = false)
    by (apply Z.ltb_ge; lia).
  assert (Hstart : (Z.of_nat (String.length dir) + 1 <? 0) = false)
    by (apply Z.ltb_ge; lia).
  rewrite Hpos, ?Hstart.
  rewrite (Z.min_l (Z.of_nat (String.length dir) + 1)) by lia.
  rewrite Z.min_id.
  replace (Z.to_nat (Z.of_nat (String.length dir) + 1))
    with (String.length (dir ++ "/")) by (rewrite length_append; simpl; lia).
  replace (Z.to_nat (Z.of_nat (String.length dir +
                               (1 + String.length segment)) -
                     (Z.of_nat (String.length dir) + 1)))
    with (String.length segment) by lia.
  replace (dir ++ "/" ++ segment) with ((dir ++ "/") ++ segment).
  - apply substring_after.
  - clear. induction dir as [| c dir IH]; simpl; [reflexivity | rewrite IH; reflexivity].
Qed.

Lemma finalSegment_without_slash (url : string) :
  Js.indexOf url "/" = -1 -> finalSegment url = url.
Proof.
  intros Hnone.
  unfold finalSegment, Js.sliceFrom, Js.slice, Js.clampIndex.
  rewrite (lastIndexOf_without_slash Hnone).
  cbn [Z.add Z.ltb Z.compare Z.opp Z.pos_sub].
  unfold Js.len.
  replace (Z.of_nat (String.length url) <? 0) with false
    by (symmetry; apply Z.ltb_ge; lia).
  rewrite Z.min_l, Z.min_r by lia.
  rewrite Z.sub_0_r, Nat2Z.id. apply substring_all.
Qed.

Lemma span_until (keep : ascii -> bool) (body rest : string) (stop : ascii) :
  (forall c, keep c = false <-> c = stop) ->
  Js.indexOf body (String stop "") = -1 ->
  Actions.span keep (body ++ String stop rest) = (body, String stop rest).
Proof.
  intros Hkeep.
  induction body as [| c body IH]; intros Hnone; cbn [append Actions.span].
  - destruct (keep stop) eqn:Hs; [| reflexivity].
    assert (Hfalse : keep stop = false) by (apply Hkeep; reflexivity).
    congruence.
  - cbn [Js.indexOf Js.startsWith] in Hnone.
    rewrite startsWith_empty, andb_true_r in Hnone.
    destruct (Ascii.eqb c stop) eqn:Hc; [discriminate |].
    pose proof (@indexOf_lower_bound body (String stop "")) as Hlow.
    destruct (Js.indexOf body (String stop "") <? 0) eqn:Hneg;
      [| lia].
    apply Z.ltb_lt in Hneg.
    destruct (keep c) eqn:Hk.
    + rewrite IH by lia. reflexivity.
    + apply Hkeep in Hk. subst c. rewrite Ascii.eqb_refl in Hc. discriminate.
Qed.

Lemma exec_matches_here (s : string) (m : Actions.FilenameMatch) :
  Actions.matchFilenameHere s = Some m ->
  Actions.FILENAME_PROPERTY_REGEX_exec s = Some m.
Proof.
  intros Hhere.
  destruct s; cbn [Actions.FILENAME_PROPERTY_REGEX_exec]; rewrite Hhere;
    reflexivity.
Qed.

Lemma exec_moves_on (c : ascii) (s : string) :
  Js.startsWith (String c s) "filename=" = false ->
  Actions.FILENAME_PROPERTY_REGEX_exec (String c s) =
  Actions.FILENAME_PROPERTY_REGEX_exec s.
Proof.
  intros Hstart.
  cbn [Actions.FILENAME_PROPERTY_REGEX_exec].
  unfold Actions.matchFilenameHere at 1.
  rewrite (stripPrefix_startsWith Hstart). reflexivity.
Qed.

(** A quoted [filename] that is the first [filename=] of the header is
    what the regular expression captures. *)
Lemma quoted_filename_is_captured (before name after : string) :
  name <> "" ->
  Js.indexOf name (String Actions.doubleQuote "") = -1 ->
  Js.indexOf
    (before ++ "filename=" ++
     String Actions.doubleQuote (name ++ String Actions.doubleQuote after))
    "filename=" = Js.len before ->
  Actions.FILENAME_PROPERTY_REGEX_exec
    (before ++ "filename=" ++
     String Actions.doubleQuote (name ++ String Actions.doubleQuote after)) =
    Some {| Actions.group2 := Some name; Actions.group3 := None |}.
Proof.
  intros Hname Hquote.
  induction before as [| c before IH]; intros Hfirst.
  - cbn [append]. apply exec_matches_here.
    unfold Actions.matchFilenameHere.
    cbn [append Actions.stripPrefix Ascii.eqb Bool.eqb].
    unfold Actions.matchQuoted. rewrite Ascii.eqb_refl.
    rewrite (@span_until _ name after Actions.doubleQuote).
    + destruct name; [congruence | reflexivity].
    + intros d; split; intros Hd.
      * apply negb_false_iff in Hd. apply Ascii.eqb_eq in Hd. exact Hd.
      * subst d. rewrite Ascii.eqb_refl. reflexivity.
    + exact Hquote.
  - cbn [append] in *. cbn [Js.indexOf] in Hfirst.
    destruct (Js.startsWith (String c _) "filename=") eqn:Hstart.
    + unfold Js.len in Hfirst. cbn [String.length] in Hfirst. lia.
    + rewrite (exec_moves_on Hstart).
      apply IH.
      destruct (Js.indexOf _ "filename=" <? 0) eqn:Hneg.
      * unfold Js.len in Hfirst. lia.
      * unfold Js.len in *. cbn [String.length] in Hfirst. lia.
Qed.

(** Some headers and what they give. *)
Example guessTorrentFileName_examples :
  let torrent := {| Actions.mediaType := "application/x-bittorrent";
                    Actions.extension := ".torrent" |} in
  Actions.guessTorrentFileName "http://h/a/b.torrent" [] torrent = "b.torrent" /\
  Actions.guessTorrentFileName "http://h/a/b" [] torrent = "b.torrent" /\
  Actions.guessTorrentFileName "http://h/a/" [] torrent = "download.torrent" /\
  Actions.guessTorrentFileName "http://h/a/b"
    [("content-disposition", "attachment; filename=abc def")] torrent =
    "abc.torrent" /\
  Actions.guessTorrentFileName "http://h/a/b"
    [("content-disposition", "attachment; filename=a")] torrent =
    "download.torrent" /\
  Actions.guessTorrentFileName "http://h/a/b"
    [("content-disposition", "attachment")] torrent = "b.torrent".
Proof. vm_compute. repeat split. Qed.


(** *** [TaskPoller] *)

Module PollerFacts.
Import TaskPoller PollerSpec.





Lemma advances_refl (w : World) : advances w w.
Proof.
  split; [lia |].
  exists []; split; [rewrite app_nil_r; reflexivity | intros ? ? ? ? []].
Qed.

Lemma advances_trans (a b c : World) :
  advances a b -> advances b c -> advances a c.
Proof.
  intros (Hab & added1 & Hc1 & Hl1) (Hbc & added2 & Hc2 & Hl2).
  split; [lia |].
  exists (added1 ++ added2)%list; split.
  - rewrite Hc2, Hc1, app_assoc; reflexivity.
  - intros count host session request Hin.
    apply in_app_or in Hin; destruct Hin as [Hin | Hin].
    + eapply Hl1; eassumption.
    + specialize (Hl2 _ _ _ _ Hin); lia.
Qed.

Lemma advances_setPending (w : World) (p : list Pending) :
  advances w (setPending w p).
Proof.
  split; [simpl; lia |].
  exists []; split; [simpl; rewrite app_nil_r; reflexivity | intros ? ? ? ? []].
Qed.

Lemma advances_issue (w : World) (c : Call) (p : Pending) :
  (forall count host session request,
      c = CallTaskList count host session request -> tryPollCount w < count) ->
  advances w (issue w c p).
Proof.
  intros Hc; split; [simpl; lia |].
  exists [c]; split; [reflexivity |].
  intros count host session request [Heq | []].
  eapply Hc; eassumption.
Qed.

Lemma advances_tryPoll (w : World) : advances w (tryPoll w).
Proof.
  unfold tryPoll; cbn [settings tryPollCount pending calls].
  set (w1 := {| tryPollCount := tryPollCount w + 1; settings := settings w;
                pending := pending w; calls := calls w |}).
  assert (H1 : advances w w1).
  { split; [simpl; lia |].
    exists []; split; [simpl; rewrite app_nil_r; reflexivity | intros ? ? ? ? []]. }
  destruct (enabled (settings w)); [| exact H1].
  destruct (sid (settings w)) as [s |].
  - destruct (truthyString (hostname (settings w)) && truthyString s).
    + split; [simpl; lia |].
      eexists; split; [reflexivity |].
      intros count host session request [Heq | []].
      inversion Heq; subst; lia.
    + eapply advances_trans; [exact H1 | apply advances_setPending].
  - eapply advances_trans; [exact H1 | apply advances_setPending].
Qed.

Lemma advances_updateSettings (given : PartialPollerSettings) (w : World) :
  advances w (updateSettings given w).
Proof.
  unfold updateSettings.
  set (w1 := {| tryPollCount := tryPollCount w;
                settings := spreadSettings (settings w) given;
                pending := pending w; calls := calls w |}).
  assert (H1 : advances w w1).
  { split; [simpl; lia |].
    exists []; split; [simpl; rewrite app_nil_r; reflexivity | intros ? ? ? ? []]. }
  destruct (negb _); [| exact H1].
  eapply advances_trans; [exact H1 | apply advances_tryPoll].
Qed.

Section WithCollaborators.
Context `{Collaborators}.

Lemma advances_afterPoll (count : Z) (w : World) :
  advances w (afterPoll count w).
Proof.
  unfold afterPoll.
  destruct (enabled (settings w)); [| apply advances_refl].
  apply advances_issue; intros; discriminate.
Qed.

Lemma advances_onResponse count response now (w : World) :
  advances w (onResponse count response now w).
Proof.
  unfold onResponse.
  destruct (enabled (settings w)); [| apply advances_afterPoll].
  apply advances_issue; intros; discriminate.
Qed.

Lemma advances_onError count error now (w : World) :
  advances w (onError count error now w).
Proof.
  unfold onError.
  destruct (enabled (settings w)); [| apply advances_afterPoll].
  apply advances_issue; intros; discriminate.
Qed.

Lemma advances_step (w w' : World) (input : Input) :
  step w input = Some w' -> advances w w'.
Proof.
  destruct input as [given | i outcome now | i outcome now | i now | i];
    cbn [step].
  - intros Heq; inversion Heq; subst. apply advances_updateSettings.
  - destruct (nth_error (pending w) i) as [[count | | |] |];
      try discriminate.
    intros Heq; inversion Heq; subst; clear Heq.
    eapply advances_trans; [apply advances_setPending |].
    destruct outcome; [apply advances_onResponse | apply advances_onError].
  - destruct (nth_error (pending w) i) as [[| count origin | |] |];
      try discriminate.
    intros Heq; inversion Heq; subst; clear Heq.
    eapply advances_trans; [apply advances_setPending |].
    destruct outcome as [u | error]; [apply advances_afterPoll |].
    destruct origin;
      [apply advances_onError | apply advances_refl | apply advances_refl].
  - destruct (nth_error (pending w) i) as [[| | count |] |];
      try discriminate.
    intros Heq; inversion Heq; subst; clear Heq.
    eapply advances_trans; [apply advances_setPending |].
    unfold onMissingSettings.
    apply advances_issue; intros; discriminate.
  - destruct (nth_error (pending w) i) as [[| | | count delay] |];
      try discriminate.
    intros Heq; inversion Heq; subst; clear Heq.
    eapply advances_trans; [apply advances_setPending |].
    destruct (count =? _); [apply advances_tryPoll | apply advances_refl].
Qed.

Lemma advances_run (inputs : list Input) :
  forall w w', run w inputs = Some w' -> advances w w'.
Proof.
  induction inputs as [| input rest IH]; intros w w'; cbn [run].
  - intros Heq; inversion Heq; subst; apply advances_refl.
  - destruct (step w input) as [w1 |] eqn:Hstep; [| discriminate].
    intros Hrun.
    eapply advances_trans; [eapply advances_step; eassumption |].
    apply IH; assumption.
Qed.

(** C8. While the poller is enabled, a cache write that completes
    schedules the next poll of its chain [interval * 1000] milliseconds
    later.  A timer that fires calls [tryPoll] only when the count it
    captured is still [tryPollCount]; once a newer chain has been started
    the count has moved on for good, so the timers of an older chain do
    nothing when they fire, and every request issued from then on carries
    a newer count. *)
Theorem tryPoll_chain_is_abandoned_when_superseded :
  (forall (w : World) (i : nat) (count : Z) (origin : WriteOrigin) (now : Z),
      nth_error (pending w) i = Some (AwaitingWrite count origin) ->
      enabled (settings w) = true ->
      step w (WriteSettled i (Fulfilled tt) now) =
        Some {| tryPollCount := tryPollCount w;
                settings := settings w;
                pending :=
                  (removeNth i (pending w) ++
                   [Timer count (interval (settings w) * 1000)])%list;
                calls :=
                  (calls w ++
                   [CallSetTimeout count (interval (settings w) * 1000)])%list |}) /\
  (forall (w : World) (i : nat) (count delay : Z),
      nth_error (pending w) i = Some (Timer count delay) ->
      (count = tryPollCount w ->
       step w (TimerFired i) =
         Some (tryPoll (setPending w (removeNth i (pending w))))) /\
      (count <> tryPollCount w ->
       step w (TimerFired i) =
         Some (setPending w (removeNth i (pending w))))) /\
  (forall (w w' : World) (inputs : list Input) (count : Z),
      run w inputs = Some w' ->
      count < tryPollCount w ->
      count < tryPollCount w' /\
      (forall i delay,
          nth_error (pending w') i = Some (Timer count delay) ->
          step w' (TimerFired i) =
            Some (setPending w' (removeNth i (pending w')))) /\
      (exists added,
          calls w' = (calls w ++ added)%list /\
          forall host session request,
            ~ In (CallTaskList count host session request) added)).
Proof.
  split; [| split].
  - intros w i count origin now Hnth Hen.
    cbn [step]. rewrite Hnth.
    unfold afterPoll; cbn [settings setPending].
    rewrite Hen. reflexivity.
  - intros w i count delay Hnth.
    cbn [step]. rewrite Hnth. cbn [tryPollCount setPending].
    split; intros Hc.
    + apply Z.eqb_eq in Hc. rewrite Hc. reflexivity.
    + apply Z.eqb_neq in Hc. rewrite Hc. reflexivity.
  - intros w w' inputs count Hrun Hold.
    destruct (advances_run Hrun) as (Hle & added & Hcalls & Hnew).
    split; [lia | split].
    + intros i delay Hnth.
      cbn [step]. rewrite Hnth. cbn [tryPollCount setPending].
      assert (Hc : (count =? tryPollCount w') = false)
        by (apply Z.eqb_neq; lia).
      rewrite Hc. reflexivity.
    + exists added; split; [exact Hcalls |].
      intros host session request Hin.
      specialize (Hnew _ _ _ _ Hin). lia.
Qed.

End WithCollaborators.
End PollerFacts.

(** *** What a poll caches *)

Lemma strictEqNumber_spec (v : Js.Value) (n : Z) :
  Js.strictEqNumber v n = true <-> v = Js.Number n.
Proof.
  destruct v; simpl; split; intros Hv; try discriminate.
  - apply Z.eqb_eq in Hv; congruence.
  - inversion Hv; apply Z.eqb_refl.
Qed.

Lemma strictEqString_spec (v : Js.Value) (s : string) :
  Js.strictEqString v s = true <-> v = Js.Str s.
Proof.
  destruct v; simpl; split; intros Hv; try discriminate.
  - apply String.eqb_eq in Hv; congruence.
  - inversion Hv; apply String.eqb_refl.
Qed.

Lemma hasStatus400_test (error : Js.Value) :
  Js.truthy error && Js.truthy (Js.get error "response") &&
  Js.strictEqNumber (Js.get (Js.get error "response") "status") 400 = true <->
  hasStatus400 error.
Proof.
  unfold hasStatus400; split.
  - intros Ht.
    apply andb_true_iff in Ht; destruct Ht as (Ht & Hs).
    apply andb_true_iff in Ht; destruct Ht as (_ & Hr).
    apply strictEqNumber_spec in Hs.
    destruct error as [| | b | n | t | isError props]; simpl in Hr;
      try discriminate.
    exists isError, props; repeat split; assumption.
  - intros (isError & props & -> & Hr & Hs).
    simpl. rewrite Hr. simpl.
    apply strictEqNumber_spec; exact Hs.
Qed.

Lemma hasMessage_test (error : Js.Value) (message : string) :
  Js.truthy error && Js.strictEqString (Js.get error "message") message = true <->
  hasMessage error message.
Proof.
  unfold hasMessage; split.
  - intros Ht.
    apply andb_true_iff in Ht; destruct Ht as (_ & Hm).
    apply strictEqString_spec in Hm.
    destruct error as [| | b | n | t | isError props]; simpl in Hm;
      try discriminate.
    exists isError, props; split; [reflexivity | assumption].
  - intros (isError & props & -> & Hm).
    simpl. apply strictEqString_spec; exact Hm.
Qed.

Lemma failureMessageOf_classified (error : Js.Value) :
  classified error (failureMessageOf error).
Proof.
  unfold classified, failureMessageOf.
  pose proof (hasStatus400_test error) as H400.
  pose proof (hasMessage_test error "Network Error") as Hmsg.
  destruct (Js.truthy error && Js.truthy (Js.get error "response") &&
            Js.strictEqNumber (Js.get (Js.get error "response") "status") 400).
  - assert (Hyes : hasStatus400 error) by (apply H400; reflexivity).
    repeat split; intros; try reflexivity; contradiction.
  - assert (Hno : ~ hasStatus400 error)
      by (intros Hy; apply H400 in Hy; discriminate).
    destruct (Js.truthy error &&
              Js.strictEqString (Js.get error "message") "Network Error").
    + repeat split; intros; try reflexivity; try contradiction.
      exfalso; match goal with Hn : ~ hasMessage _ _ |- _ => apply Hn end.
      apply Hmsg; reflexivity.
    + repeat split; intros; try reflexivity; try contradiction.
      match goal with Hy : hasMessage _ _ |- _ => apply Hmsg in Hy end.
      discriminate.
Qed.

Section WithCollaborators.
Context `{Collaborators}.

(** C6. The message cached for an error that rejects a poll depends on
    the shape of the error alone: a response with status 400 gives the
    wrong-protocol message, otherwise the message ["Network Error"] gives
    the hostname/port message, and anything else gives
    ["Unknown error."].  This is what the [catch] handler of [pollTasks]
    (first revision) writes for whatever its chain rejected with, and what
    the one of [TaskPoller.tryPoll] writes while the poller is enabled. *)
Theorem poll_failure_message_by_shape :
  (forall S (h : Handler S) (s s0 s1 : S) (started : Z) (error : Js.Value)
          (t1 : list Obs),
      handle h DateNow s = (started, s0) ->
      exec h (ActionsV1.fetchAndCache started) s0 = (RejectedWith error, s1, t1) ->
      exists message now answer,
        classified error message /\
        trace h ActionsV1.pollTasks s =
          (Observed DateNow started :: t1 ++
           [Observed DateNow now;
            Observed
              (StorageLocalSet
                 {| tasks := None;
                    taskFetchFailureReason := Some (Some (FailureMessage message));
                    tasksLastCompletedFetchTimestamp := Some (Some now);
                    tasksLastInitiatedFetchTimestamp := None |})
              answer])%list) /\
  (forall (w : TaskPoller.World) (i : nat) (count : Z) (error : Js.Value)
          (now : Z),
      nth_error (TaskPoller.pending w) i = Some (TaskPoller.AwaitingList count) ->
      TaskPoller.enabled (TaskPoller.settings w) = true ->
      exists message w',
        classified error message /\
        TaskPoller.step w (TaskPoller.ListSettled i (RejectedWith error) now) =
          Some w' /\
        TaskPoller.calls w' =
          (TaskPoller.calls w ++
           [TaskPoller.CallStorageSet count
              {| TaskPoller.tasks := None;
                 TaskPoller.tasksFetchFailureMessage := Some (Some message);
                 TaskPoller.tasksFetchUpdateTimestamp := Some now |}])%list) /\
  (forall (w : TaskPoller.World) (i : nat) (count : Z) (error : Js.Value)
          (now : Z),
      nth_error (TaskPoller.pending w) i =
        Some (TaskPoller.AwaitingWrite count TaskPoller.FromResponse) ->
      TaskPoller.enabled (TaskPoller.settings w) = true ->
      exists message w',
        classified error message /\
        TaskPoller.step w (TaskPoller.WriteSettled i (RejectedWith error) now) =
          Some w' /\
        TaskPoller.calls w' =
          (TaskPoller.calls w ++
           [TaskPoller.CallStorageSet count
              {| TaskPoller.tasks := None;
                 TaskPoller.tasksFetchFailureMessage := Some (Some message);
                 TaskPoller.tasksFetchUpdateTimestamp := Some now |}])%list).
Proof.
  split; [| split].
  - intros S h s s0 s1 started error t1 Hnow Hchain.
    unfold trace, ActionsV1.pollTasks.
    cbn [bind trigger exec]. rewrite Hnow.
    rewrite exec_orCatch, Hchain.
    unfold ActionsV1.cacheFailure. cbn [bind trigger exec].
    destruct (handle h DateNow s1) as [now s2].
    destruct (handle h (StorageLocalSet _) s2) as [answer s3].
    exists (failureMessageOf error), now, answer.
    split; [apply failureMessageOf_classified | reflexivity].
  - intros w i count error now Hnth Hen.
    exists (failureMessageOf error).
    cbn [TaskPoller.step]. rewrite Hnth.
    unfold TaskPoller.onError. cbn [TaskPoller.settings TaskPoller.setPending].
    rewrite Hen.
    eexists; split; [apply failureMessageOf_classified |].
    split; reflexivity.
  - intros w i count error now Hnth Hen.
    exists (failureMessageOf error).
    cbn [TaskPoller.step]. rewrite Hnth.
    unfold TaskPoller.onError. cbn [TaskPoller.settings TaskPoller.setPending].
    rewrite Hen.
    eexists; split; [apply failureMessageOf_classified |].
    split; reflexivity.
Qed.


End WithCollaborators.

(** *** Calls a program never makes *)

Lemma avoids_bind B (f : Obs -> option B) A C (p : Prog A) (g : A -> Prog C) :
  avoids f p -> (forall a, avoids f (g a)) -> avoids f (bind p g).
Proof.
  intros Hp Hg; induction Hp as [a | X e k He Hk IH]; simpl.
  - apply Hg.
  - apply avoids_Vis; assumption.
Qed.

Lemma avoids_trigger B (f : Obs -> option B) X (e : Event X) :
  (forall x, f (Observed e x) = None) -> avoids f (trigger e).
Proof.
  intros He; unfold trigger; apply avoids_Vis; [exact He |].
  intros x; apply avoids_Ret.
Qed.

Lemma avoids_andThen B (f : Obs -> option B) A C (p : Prog (Settled A))
    (g : A -> Prog (Settled C)) :
  avoids f p -> (forall a, avoids f (g a)) -> avoids f (andThen p g).
Proof.
  intros Hp Hg; unfold andThen; apply avoids_bind; [exact Hp |].
  intros [a | e]; [apply Hg | apply avoids_Ret].
Qed.

Lemma avoids_orCatch B (f : Obs -> option B) A (p : Prog (Settled A))
    (g : Js.Value -> Prog (Settled A)) :
  avoids f p -> (forall e, avoids f (g e)) -> avoids f (orCatch p g).
Proof.
  intros Hp Hg; unfold orCatch; apply avoids_bind; [exact Hp |].
  intros [a | e]; [apply avoids_Ret | apply Hg].
Qed.

Lemma avoids_collect B (f : Obs -> option B) A (p : Prog A) :
  avoids f p ->
  forall S (h : Handler S) (s : S), collect f (trace h p s) = [].
Proof.
  unfold trace.
  intros Hp S h; induction Hp as [a | X e k He Hk IH]; intros s; simpl.
  - reflexivity.
  - destruct (handle h e s) as [x s1].
    specialize (IH x s1).
    destruct (exec h (k x) s1) as [[a s2] tr].
    simpl in *. rewrite He. exact IH.
Qed.

(** The retry wrapper adds a logout to what the wrapped call does. *)
Lemma avoids_wrapInNoPermissionsRetry B (f : Obs -> option B) Args D
    (fn : Args -> Prog (Settled (ApiResult D))) (args : Args) :
  (forall x, f (Observed AuthLogout x) = None) ->
  avoids f (fn args) ->
  avoids f (Actions.wrapInNoPermissionsRetry fn args).
Proof.
  intros Hlogout Hfn.
  unfold Actions.wrapInNoPermissionsRetry.
  apply avoids_andThen; [exact Hfn |].
  intros result.
  destruct (Actions.isPermissionFailure result); [| apply avoids_Ret].
  apply avoids_bind; [apply avoids_trigger; exact Hlogout |].
  intros _; exact Hfn.
Qed.

Lemma avoids_doCreateTask B (f : Obs -> option B) (options : TaskCreateRequest) :
  (forall x, f (Observed AuthLogout x) = None) ->
  (forall request x, f (Observed (TaskCreate request) x) = None) ->
  avoids f (Actions.doCreateTask options).
Proof.
  intros Hlogout Hcreate.
  apply avoids_wrapInNoPermissionsRetry; [exact Hlogout |].
  apply avoids_trigger; apply Hcreate.
Qed.

Section WithCollaborators.
Context `{Collaborators}.

(** [pollTasks] talks to the clock, the storage and the API client only. *)
Lemma avoids_pollTasks B (f : Obs -> option B) :
  (forall x, f (Observed DateNow x) = None) ->
  (forall items x, f (Observed (StorageLocalSet items) x) = None) ->
  (forall request x, f (Observed (TaskList request) x) = None) ->
  (forall x, f (Observed AuthLogout x) = None) ->
  (forall x, f (Observed SettledFirst x) = None) ->
  avoids f Actions.pollTasks.
Proof.
  intros Hnow Hset Hlist Hlogout Hfirst.
  unfold Actions.pollTasks.
  apply avoids_bind; [apply avoids_trigger; exact Hnow |].
  intros started.
  apply avoids_orCatch; [| intros e; apply avoids_Ret].
  apply avoids_andThen.
  - unfold promiseAll2.
    apply avoids_bind; [apply avoids_trigger; apply Hset |].
    intros ra.
    apply avoids_bind.
    + unfold Actions.doTaskPoll.
      apply avoids_wrapInNoPermissionsRetry; [exact Hlogout |].
      apply avoids_trigger; apply Hlist.
    + intros rb.
      destruct ra, rb; try apply avoids_Ret.
      apply avoids_bind; [apply avoids_trigger; exact Hfirst |].
      intros first; apply avoids_Ret.
  - intros both.
    assert (Hwrite : forall items,
               avoids f (bind (trigger DateNow)
                           (fun completed =>
                              trigger (StorageLocalSet (items completed))))).
    { intros items.
      apply avoids_bind; [apply avoids_trigger; exact Hnow |].
      intros completed; apply avoids_trigger; apply Hset. }
    destruct (snd both) as [failure | [fetched | code]].
    + destruct (String.eqb (cf_type failure) "missing-config");
        apply (Hwrite (fun completed => spread _ _)).
    + apply (Hwrite (fun completed => spread _ _)).
    + apply (Hwrite (fun completed => spread _ _)).
Qed.

Lemma pollTasks_fulfils S (h : Handler S) (s : S) :
  exists s1 t1, exec h Actions.pollTasks s = (Fulfilled tt, s1, t1).
Proof.
  unfold Actions.pollTasks.
  rewrite exec_bind, exec_trigger.
  destruct (handle h DateNow s) as [started s0]; cbn [fst snd].
  rewrite exec_orCatch.
  match goal with
  | |- context [exec h ?p s0] => destruct (exec h p s0) as [[[[] | e] s1] t1]
  end; cbn [exec]; eauto.
Qed.

(** *** The single-URL flow *)

(** What one run of [doCreateTask] leaves in the trace. *)
Lemma doCreateTask_runs S (h : Handler S) (s : S) (options : TaskCreateRequest) :
  let '(r, _, tr) := exec h (Actions.doCreateTask options) s in
  (collect taskCreateRequest tr = [options] \/
   collect taskCreateRequest tr = [options; options]) /\
  last (collect createAnswer tr) (RejectedWith Js.Undefined) = r /\
  collect notification tr = [] /\
  collect axiosGetUrl tr = [] /\
  collect getAnswer tr = [] /\
  collect headAnswer tr = [].
Proof.
  unfold Actions.doCreateTask, Actions.wrapInNoPermissionsRetry, andThen.
  cbn [bind trigger exec].
  destruct (handle h (TaskCreate options) s)
    as [[[failure | [d | code]] | e] s1]; cbn [bind exec Actions.isPermissionFailure];
    try (cbn; repeat split; left; reflexivity).
  destruct (code =? Actions.NO_PERMISSIONS_ERROR_CODE); cbn [bind trigger exec].
  - destruct (handle h AuthLogout s1) as [u s2].
    destruct (handle h (TaskCreate options) s2) as [second s3].
    cbn. repeat split. right; reflexivity.
  - cbn. repeat split. left; reflexivity.
Qed.

(** The chain [doCreateTask(...).then(notifyTaskAddResult(...)).then(pollOnResponse)]:
    either the request settles with a result, which is notified once, or
    it is rejected and nothing is notified yet. *)
Lemma submission_chain S (h : Handler S) (s : S) (options : TaskCreateRequest)
    (notificationId url : string) (filename : option string) :
  let '(r, _, tr) :=
    exec h (andThen
              (andThen (Actions.doCreateTask options)
                 (Actions.notifyTaskAddResult notificationId url filename))
              Actions.pollOnResponse) s in
  (collect taskCreateRequest tr = [options] \/
   collect taskCreateRequest tr = [options; options]) /\
  collect axiosGetUrl tr = [] /\
  collect getAnswer tr = [] /\
  collect headAnswer tr = [] /\
  ((r = Fulfilled tt /\
    exists n, collect notification tr = [n] /\ isTerminal n /\
              n_replaces n = Some notificationId /\
              (n_kind n = Some "success" <->
               isSuccess (last (collect createAnswer tr)
                               (RejectedWith Js.Undefined)) = true)) \/
   ((exists e, r = RejectedWith e) /\ collect notification tr = [] /\
    isSuccess (last (collect createAnswer tr) (RejectedWith Js.Undefined)) = false)).
Proof.
  rewrite !exec_andThen.
  pose proof (doCreateTask_runs h s options) as Hrun.
  destruct (exec h (Actions.doCreateTask options) s) as [[r s1] t1].
  destruct Hrun as (Hreq & Hlast & Hn & Hg & Hga & Hh).
  destruct r as [result | e].
  - assert (Hnotify :
      exists n s2 x,
        exec h (Actions.notifyTaskAddResult notificationId url filename result) s1 =
          (Fulfilled tt, s2,
           [Observed (Notify (n_title n) (n_message n) (n_kind n) (n_replaces n)) x]) /\
        isTerminal n /\ n_replaces n = Some notificationId /\
        (n_kind n = Some "success" <-> isSuccess (Fulfilled result) = true)).
    { unfold Actions.notifyTaskAddResult, isTerminal.
      destruct result as [failure | [d | code]]; cbn [bind trigger exec];
        match goal with
        | |- context [handle h (Notify ?t ?m ?k ?i) s1] =>
            destruct (handle h (Notify t m k i) s1) as [x s2];
            exists {| n_title := t; n_message := m; n_kind := k; n_replaces := i |},
                   s2, x
        end; cbn;
        (split; [reflexivity |]);
        (split; [auto |]);
        (split; [reflexivity |]);
        split; intros Hk; try reflexivity; discriminate. }
    destruct Hnotify as (n & s2 & x & Hexec & Hterm & Hid & Hsucc).
    rewrite Hexec.
    unfold Actions.pollOnResponse.
    destruct (pollTasks_fulfils h s2) as (s3 & t3 & Hpoll).
    pose proof (fun B (f : Obs -> option B) a b c d e =>
                  avoids_collect (@avoids_pollTasks B f a b c d e) h s2) as Hquiet.
    unfold trace in Hquiet. rewrite Hpoll in Hquiet. cbn [snd] in Hquiet.
    rewrite Hpoll.
    rewrite !collect_app.
    rewrite Hn, Hg, Hga, Hh.
    rewrite (Hquiet _ taskCreateRequest), (Hquiet _ axiosGetUrl),
      (Hquiet _ getAnswer), (Hquiet _ headAnswer), (Hquiet _ notification),
      (Hquiet _ createAnswer);
      try (intros; reflexivity).
    cbn. rewrite !app_nil_r.
    repeat split; try assumption.
    left. split; [reflexivity |].
    exists n. rewrite Hlast.
    split; [destruct n; reflexivity |].
    split; [exact Hterm |].
    split; [exact Hid | exact Hsucc].
  - repeat split; try assumption.
    right. rewrite Hlast. repeat split; [eexists; reflexivity | assumption].
Qed.

End WithCollaborators.

Section SubmissionFlows.
Context `{Collaborators}.
Variables (S : Type) (h : Handler S).

(** In the single-URL flow a URL that starts with none of the protocols
    is answered by a failure notification naming the protocols, and no
    request is made for it. *)
Lemma addDownloadTaskAndPoll_rejects_unknown_protocol (s : S)
    (url : string) (path : option string) :
  url <> "" ->
  Protocols.startsWithAnyProtocol url AUTO_DOWNLOAD_TORRENT_FILE_PROTOCOLS = false ->
  Protocols.startsWithAnyProtocol url ALL_DOWNLOADABLE_PROTOCOLS = false ->
  let tr := trace h (Actions.addDownloadTaskAndPoll url path) s in
  collect taskCreateRequest tr = [] /\
  collect notification tr =
    [ addingDownload url;
      {| n_title := "Failed to add download";
         n_message := Some ("URL must start with one of " ++
                            Js.join ", " ALL_DOWNLOADABLE_PROTOCOLS);
         n_kind := Some "failure";
         n_replaces :=
           Some (fst (handle h (Notify "Adding download..." (Some url) None None) s)) |} ].
Proof.
  intros Hurl Hauto Hall tr; subst tr.
  unfold trace, Actions.addDownloadTaskAndPoll.
  apply String.eqb_neq in Hurl.
  cbn [bind trigger exec].
  destruct (handle h (Notify "Adding download..." (Some url) None None) s)
    as [id s0].
  rewrite Hurl, Hauto, Hall. cbn [negb bind trigger exec fst].
  destruct (handle h (Notify _ _ _ _) s0) as [x s1].
  cbn. split; reflexivity.
Qed.

Lemma chain_reportsOrRejects (options : TaskCreateRequest)
    (notificationId url : string) (filename : option string) :
  reportsOrRejects h
    (andThen
       (andThen (Actions.doCreateTask options)
          (Actions.notifyTaskAddResult notificationId url filename))
       Actions.pollOnResponse).
Proof.
  intros s.
  pose proof (submission_chain h s options notificationId url filename) as Hc.
  destruct (exec h _ s) as [[r s1] tr].
  destruct Hc as (_ & _ & _ & _ & [(Hr & n & Hn & Ht & _ & Hs) | (Hr & Hn & Hs)]).
  - left; split; [exact Hr |]. exists n; repeat split; try assumption; apply Hs.
  - right; repeat split; assumption.
Qed.

Lemma rejection_reportsOrRejects (e : Js.Value) :
  reportsOrRejects h (Ret (RejectedWith e)).
Proof.
  intros s; cbn. right; repeat split. eexists; reflexivity.
Qed.

Lemma request_reportsOrRejects A (e : Event (Settled A))
    (k : A -> Prog (Settled unit)) :
  (forall x, notification (Observed e x) = None) ->
  (forall x, createAnswer (Observed e x) = None) ->
  (forall a, reportsOrRejects h (k a)) ->
  reportsOrRejects h (andThen (trigger e) k).
Proof.
  intros Hn Hc Hk s.
  rewrite exec_andThen, exec_trigger.
  destruct (handle h e s) as [[a | err] s1]; cbn [fst snd].
  - specialize (Hk a s1).
    destruct (exec h (k a) s1) as [[r s2] tr].
    unfold succeeded in *. cbn [app collect]. rewrite Hn, Hc. exact Hk.
  - right. unfold succeeded. cbn [collect]. rewrite Hn, Hc.
    repeat split. eexists; reflexivity.
Qed.

Lemma failure_reportsOnce (title : string) (message id : option string) :
  reportsOnce h
    (trigger (Notify title message (Some "failure") id) ;;; Ret (Fulfilled tt)).
Proof.
  intros s. unfold trace, succeeded, isTerminal. cbn [bind trigger exec].
  destruct (handle h (Notify _ _ _ _) s) as [x s1].
  cbn. eexists; split; [reflexivity |].
  split; [right; reflexivity | split; discriminate].
Qed.

Lemma orCatch_reportsOnce (p : Prog (Settled unit)) (notificationId : string) :
  reportsOrRejects h p ->
  reportsOnce h (orCatch p (Actions.notifyUnexpectedError notificationId)).
Proof.
  intros Hp s. unfold trace. rewrite exec_orCatch.
  specialize (Hp s).
  destruct (exec h p s) as [[r s1] tr].
  destruct Hp as [(-> & n & Hn & Ht & Hs) | ((e & ->) & Hn & Hs)].
  - cbn [snd]. exists n; repeat split; try assumption; apply Hs.
  - unfold Actions.notifyUnexpectedError. cbn [bind trigger exec].
    destruct (handle h (Notify _ _ _ _) s1) as [x s2].
    cbn [snd]. unfold succeeded, isTerminal in *.
    rewrite !collect_app, Hn. cbn. rewrite app_nil_r, Hs.
    eexists; split; [reflexivity |].
    split; [right; reflexivity | split; discriminate].
Qed.


Lemma trace_bind_trigger A X (e : Event X) (k : X -> Prog A) (s : S) :
  trace h (bind (trigger e) k) s =
  Observed e (fst (handle h e s)) ::
  trace h (k (fst (handle h e s))) (snd (handle h e s)).
Proof.
  unfold trace. cbn [bind trigger exec].
  destruct (handle h e s) as [x s1]. cbn [fst snd].
  destruct (exec h (k x) s1) as [[a s2] tr]. reflexivity.
Qed.

(** Every run of the single-URL flow shows two notifications: the
    announcement and one that closes it, which reports success exactly
    when the last [Task.Create] answer was a successful response. *)
Lemma addDownloadTaskAndPoll_notifies_once (s : S) (url : string)
    (path : option string) :
  let tr := trace h (Actions.addDownloadTaskAndPoll url path) s in
  exists closing,
    collect notification tr = [addingDownload url; closing] /\
    isTerminal closing /\
    (n_kind closing = Some "success" <-> succeeded tr = true).
Proof.
  intros tr; subst tr.
  unfold Actions.addDownloadTaskAndPoll.
  rewrite trace_bind_trigger.
  set (id := fst (handle h (Notify "Adding download..." (Some url) None None) s)).
  set (s0 := snd (handle h (Notify "Adding download..." (Some url) None None) s)).
  cbv zeta.
  match goal with
  | |- context [trace h ?body s0] => assert (Hbody : reportsOnce h body)
  end.
  { destruct (negb (String.eqb url "")); [| apply failure_reportsOnce].
    destruct (Protocols.startsWithAnyProtocol url
                AUTO_DOWNLOAD_TORRENT_FILE_PROTOCOLS).
    - apply orCatch_reportsOnce.
      apply request_reportsOrRejects; try reflexivity.
      intros response.
      destruct (header (headers response) "content-type");
        [| apply rejection_reportsOrRejects].
      destruct (find _ Actions.METADATA_FILE_TYPES);
        [| apply chain_reportsOrRejects].
      destruct (negb _ && _); [| apply chain_reportsOrRejects].
      apply request_reportsOrRejects; try reflexivity.
      intros got. apply chain_reportsOrRejects.
    - destruct (Protocols.startsWithAnyProtocol url ALL_DOWNLOADABLE_PROTOCOLS);
        [| apply failure_reportsOnce].
      apply orCatch_reportsOnce. apply chain_reportsOrRejects. }
  destruct (Hbody s0) as (closing & Hn & Ht & Hs).
  exists closing. unfold succeeded in *.
  cbn [collect notification createAnswer].
  rewrite Hn. repeat split; try assumption; apply Hs.
Qed.

(** *** Fetching the metadata file first *)


Lemma trace_orCatch_collect B (f : Obs -> option B) A (p : Prog (Settled A))
    (handler : Js.Value -> Prog (Settled A)) (s : S) :
  (forall e, avoids f (handler e)) ->
  collect f (trace h (orCatch p handler) s) = collect f (trace h p s).
Proof.
  intros Hquiet. unfold trace. rewrite exec_orCatch.
  destruct (exec h p s) as [[[a | e] s1] t1]; [reflexivity |].
  pose proof (avoids_collect (Hquiet e) h s1) as Hnone. unfold trace in Hnone.
  destruct (exec h (handler e) s1) as [[b s2] t2].
  cbn [snd] in *. rewrite collect_app, Hnone, app_nil_r. reflexivity.
Qed.

Lemma trace_request A C (e : Event (Settled A)) (k : A -> Prog (Settled C))
    (s : S) :
  trace h (andThen (trigger e) k) s =
  Observed e (fst (handle h e s)) ::
  match fst (handle h e s) with
  | Fulfilled a => trace h (k a) (snd (handle h e s))
  | RejectedWith _ => []
  end.
Proof.
  unfold trace. rewrite exec_andThen, exec_trigger.
  destruct (handle h e s) as [[a | err] s1]; cbn [fst snd]; [| reflexivity].
  destruct (exec h (k a) s1) as [[b s2] t2]. reflexivity.
Qed.

Lemma avoids_notifyUnexpectedError B (f : Obs -> option B)
    (notificationId : string) (e : Js.Value) :
  (forall t m k i x, f (Observed (Notify t m k i) x) = None) ->
  avoids f (Actions.notifyUnexpectedError notificationId e).
Proof.
  intros Hn. unfold Actions.notifyUnexpectedError.
  apply avoids_bind; [apply avoids_trigger; apply Hn | intros; apply avoids_Ret].
Qed.

Lemma chain_requests (s1 : S) (options : TaskCreateRequest)
    (notificationId url : string) (filename : option string) :
  let tr :=
    trace h (andThen
               (andThen (Actions.doCreateTask options)
                  (Actions.notifyTaskAddResult notificationId url filename))
               Actions.pollOnResponse) s1 in
  oneOrTwo options (collect taskCreateRequest tr) /\
  collect axiosGetUrl tr = [].
Proof.
  intros tr; subst tr. unfold trace.
  pose proof (submission_chain h s1 options notificationId url filename) as Hc.
  destruct (exec h _ s1) as [[r s2] t2].
  destruct Hc as (Hreq & Hget & _). split; assumption.
Qed.


(** *** The multi-URL flow keeps its results to itself *)

Lemma unknown_is_not_fetched (url : string) :
  MultiAdd.startsWithAnyProtocol url MultiAdd.DOWNLOADABLE_PROTOCOLS = false ->
  MultiAdd.startsWithAnyProtocol url
    MultiAdd.AUTO_DOWNLOAD_TORRENT_FILE_PROTOCOLS = false.
Proof.
  unfold MultiAdd.startsWithAnyProtocol, MultiAdd.DOWNLOADABLE_PROTOCOLS,
    MultiAdd.AUTO_DOWNLOAD_TORRENT_FILE_PROTOCOLS.
  cbn [existsb].
  intros Hno.
  apply orb_false_elim in Hno; destruct Hno as (Hhttp & Hno).
  apply orb_false_elim in Hno; destruct Hno as (Hhttps & _).
  rewrite Hhttp, Hhttps. reflexivity.
Qed.

Lemma unknown_url_is_rejected (url : string) (s : S) :
  MultiAdd.startsWithAnyProtocol url MultiAdd.DOWNLOADABLE_PROTOCOLS = false ->
  exec h (MultiAdd.rejectUnknownUrls (MultiAdd.maybeMapUrlToFile url)) s =
    (RejectedWith (Js.Str (unknownUrlMessage url)), s, []).
Proof.
  intros Hno.
  unfold MultiAdd.rejectUnknownUrls, MultiAdd.maybeMapUrlToFile.
  rewrite (unknown_is_not_fetched Hno).
  rewrite exec_andThen. cbn [exec]. rewrite Hno. reflexivity.
Qed.

Lemma unknown_urls_settle (urls : list string) (s : S) :
  Forall (fun url =>
            MultiAdd.startsWithAnyProtocol url
              MultiAdd.DOWNLOADABLE_PROTOCOLS = false) urls ->
  settleInOrder h
    (map MultiAdd.rejectUnknownUrls (map MultiAdd.maybeMapUrlToFile urls)) s =
    (map (fun url => RejectedWith (Js.Str (unknownUrlMessage url))) urls, s, []).
Proof.
  induction 1 as [| url urls Hno Hrest IH]; cbn [map settleInOrder];
    [reflexivity |].
  rewrite (unknown_url_is_rejected s Hno), IH. reflexivity.
Qed.

Lemma rejected_have_no_values (urls : list string) :
  fulfilledValues
    (map (fun url : string =>
            @RejectedWith MultiAdd.Submission (Js.Str (unknownUrlMessage url)))
         urls) = [].
Proof. induction urls as [| url urls IH]; cbn; [reflexivity | exact IH]. Qed.

(** C4, on the multi-URL flow.  When every URL of a non-empty list starts
    with none of the downloadable protocols, each is rejected with a
    message saying that it must start with one of them, no [Task.Create]
    request is made, and the flow ends fulfilled after its announcement:
    the message is shown to nobody. *)
Theorem unknown_urls_end_without_a_report (poll : Prog (Settled unit))
    (urls : list string) (path : option string) (s : S) :
  urls <> [] ->
  Forall (fun url =>
            MultiAdd.startsWithAnyProtocol url
              MultiAdd.DOWNLOADABLE_PROTOCOLS = false) urls ->
  settleInOrder h
    (map MultiAdd.rejectUnknownUrls (map MultiAdd.maybeMapUrlToFile urls))
    (snd (handle h (announcement urls) s)) =
    (map (fun url => RejectedWith (Js.Str (unknownUrlMessage url))) urls,
     snd (handle h (announcement urls) s), []) /\
  exec h (MultiAdd.addDownloadTasksAndPoll poll urls path) s =
    (Fulfilled tt, snd (handle h (announcement urls) s),
     [Observed (announcement urls) (fst (handle h (announcement urls) s))]).
Proof.
  intros Hne Hno.
  split; [apply unknown_urls_settle; exact Hno |].
  unfold MultiAdd.addDownloadTasksAndPoll.
  destruct urls as [| url rest]; [congruence |].
  rewrite exec_bind.
  assert (Hannounce :
    exec h (match url :: rest with
            | [u] => trigger (Notify "Adding download..." (Some u) None None)
            | _ => trigger (Notify ("Adding " ++
                                    MultiAdd.decimal (List.length (url :: rest)) ++
                                    " downloads...") None None None)
            end) s =
    (fst (handle h (announcement (url :: rest)) s),
     snd (handle h (announcement (url :: rest)) s),
     [Observed (announcement (url :: rest))
        (fst (handle h (announcement (url :: rest)) s))])).
  { unfold announcement. destruct rest; apply exec_trigger. }
  rewrite Hannounce.
  set (s0 := snd (handle h (announcement (url :: rest)) s)).
  rewrite exec_orCatch, exec_andThen.
  unfold MultiAdd.partitionPromises.
  rewrite next_accumulates, (unknown_urls_settle s0 Hno).
  cbn [MultiAdd.resolved app]. rewrite rejected_have_no_values.
  reflexivity.
Qed.

(** C7, on the multi-URL flow.  A single URL of a downloadable protocol
    that is not looked at first is submitted; whatever the answer to the
    request (a connection failure, a successful or an unsuccessful
    response), the announcement stays the only notification of the run. *)
Theorem answered_submission_is_not_reported (url id : string)
    (path : option string) (result : ApiResult unit) (s s0 s1 : S) :
  MultiAdd.startsWithAnyProtocol url
    MultiAdd.AUTO_DOWNLOAD_TORRENT_FILE_PROTOCOLS = false ->
  MultiAdd.startsWithAnyProtocol url MultiAdd.DOWNLOADABLE_PROTOCOLS = true ->
  handle h (Notify "Adding download..." (Some url) None None) s = (id, s0) ->
  handle h (TaskCreate (uriSubmission url path)) s0 = (Fulfilled result, s1) ->
  Actions.isPermissionFailure result = false ->
  let tr := trace h (MultiAdd.addDownloadTasksAndPoll Actions.pollTasks [url] path) s in
  collect taskCreateRequest tr = [uriSubmission url path] /\
  collect createAnswer tr = [Fulfilled result] /\
  collect notification tr = [addingDownload url].
Proof.
  intros Hauto Hknown Hid Hcreate Hretry tr; subst tr.
  unfold MultiAdd.addDownloadTasksAndPoll.
  rewrite trace_bind_trigger, Hid. cbn [fst snd].
  unfold trace.
  rewrite exec_orCatch, exec_andThen.
  unfold MultiAdd.partitionPromises. cbn [map MultiAdd.next].
  rewrite exec_andThen, exec_orCatch, exec_andThen.
  unfold MultiAdd.rejectUnknownUrls, MultiAdd.maybeMapUrlToFile.
  rewrite Hauto, exec_andThen. cbn [exec]. rewrite Hknown. cbn [exec app].
  cbn [MultiAdd.resolved MultiAdd.sortSubmissions fold_left fst snd app].
  rewrite exec_andThen.
  unfold MultiAdd.doCreateTask, Actions.wrapInNoPermissionsRetry.
  rewrite exec_andThen, exec_trigger.
  unfold uriSubmission in Hcreate. rewrite Hcreate. cbn [fst snd].
  rewrite Hretry. cbn [exec app].
  unfold MultiAdd.pollOnResponse.
  destruct (pollTasks_fulfils h s1) as (s2 & t2 & Hpoll).
  pose proof (fun B (f : Obs -> option B) a b c d e =>
                avoids_collect (@avoids_pollTasks _ B f a b c d e) h s1) as Hquiet.
  unfold trace in Hquiet. rewrite Hpoll in Hquiet. cbn [snd] in Hquiet.
  rewrite Hpoll. cbn [snd collect taskCreateRequest createAnswer notification].
  rewrite (Hquiet _ taskCreateRequest), (Hquiet _ createAnswer),
    (Hquiet _ notification); try (intros; reflexivity).
  repeat split.
Qed.

End SubmissionFlows.



(** The first revision of [pollTasks] without a network: the rejection
    of the request is classified and cached. *)
Lemma poll_failure_message_by_shape_witness :
  exists message now answer,
    classified networkError message /\
    trace scripted (@ActionsV1.pollTasks sampleCollaborators)
      Runs.offlineScript =
    (Observed DateNow 10 ::
     [ Observed
         (StorageLocalSet
            {| tasks := None; taskFetchFailureReason := None;
               tasksLastCompletedFetchTimestamp := None;
               tasksLastInitiatedFetchTimestamp := Some (Some 10) |})
         (Fulfilled tt);
       Observed
         (TaskList {| offset := 0; limit := -1; additional := ["transfer"];
                      list_timeout := None |})
         (RejectedWith networkError) ] ++
     [ Observed DateNow now;
       Observed
         (StorageLocalSet
            {| tasks := None;
               taskFetchFailureReason := Some (Some (FailureMessage message));
               tasksLastCompletedFetchTimestamp := Some (Some now);
               tasksLastInitiatedFetchTimestamp := None |})
         answer ])%list.
Proof.
  eapply (proj1 (@poll_failure_message_by_shape sampleCollaborators));
    reflexivity.
Defined.

(** The timer of the first chain fires after a new session started a
    second chain: it is dropped. *)
Lemma tryPoll_chain_is_abandoned_when_superseded_witness :
  1 < TaskPoller.tryPollCount Runs.supersededWorld /\
  @TaskPoller.step sampleCollaborators Runs.supersededWorld
    (TaskPoller.TimerFired 0) =
    Some (TaskPoller.setPending Runs.supersededWorld
            (TaskPoller.removeNth 0 (TaskPoller.pending Runs.supersededWorld))).
Proof.
  destruct (@PollerFacts.tryPoll_chain_is_abandoned_when_superseded
              sampleCollaborators) as (_ & _ & Hstale).
  destruct (Hstale Runs.supersededWorld Runs.supersededWorld [] 1)
    as (Hcount & Htimer & _).
  - reflexivity.
  - vm_compute; reflexivity.
  - split; [exact Hcount |].
    apply (Htimer 0%nat 30000). vm_compute; reflexivity.
Defined.



(** [addDownloadTasksAndPoll(api, ['foo:bar'])] announces the download
    and ends. *)
Lemma unknown_urls_end_without_a_report_witness :
  settleInOrder scripted
    (map (@MultiAdd.rejectUnknownUrls)
       (map (@MultiAdd.maybeMapUrlToFile sampleCollaborators) ["foo:bar"]))
    (snd (handle scripted (announcement ["foo:bar"]) emptyScript)) =
    ([RejectedWith (Js.Str (unknownUrlMessage "foo:bar"))],
     snd (handle scripted (announcement ["foo:bar"]) emptyScript), []) /\
  exec scripted
    (@MultiAdd.addDownloadTasksAndPoll sampleCollaborators
       (@Actions.pollTasks sampleCollaborators) ["foo:bar"] None)
    emptyScript =
    (Fulfilled tt, snd (handle scripted (announcement ["foo:bar"]) emptyScript),
     [Observed (announcement ["foo:bar"])
        (fst (handle scripted (announcement ["foo:bar"]) emptyScript))]).
Proof.
  apply (@unknown_urls_end_without_a_report sampleCollaborators Script scripted
           (@Actions.pollTasks sampleCollaborators) ["foo:bar"] None emptyScript).
  - discriminate.
  - repeat constructor.
Defined.

(** A magnet link accepted by the station: the announcement is the only
    notification. *)
Lemma answered_submission_is_not_reported_witness :
  let tr := trace scripted
              (@MultiAdd.addDownloadTasksAndPoll sampleCollaborators
                 (@Actions.pollTasks sampleCollaborators)
                 [Runs.magnetUrl] None)
              Runs.acceptingScript in
  collect taskCreateRequest tr = [uriSubmission Runs.magnetUrl None] /\
  collect createAnswer tr = [Fulfilled (Responded (Success tt))] /\
  collect notification tr = [addingDownload Runs.magnetUrl].
Proof.
  apply (@answered_submission_is_not_reported sampleCollaborators Script scripted
           Runs.magnetUrl "notification" None (Responded (Success tt))
           Runs.acceptingScript Runs.acceptingScript
           {| clock := [10; 20]; storageAnswers := [];
              listAnswers := [Fulfilled (Responded (Success [Runs.oneTask]))];
              createAnswers := []; headAnswers := []; getAnswers := [];
              firstAnswers := [] |});
    reflexivity.
Defined.

(** ** Further properties *)

(** *** The path, the query string and the name in a link *)

Lemma substring_before (a b : string) :
  substring 0 (String.length a) (a ++ b) = a.
Proof.
  induction a as [| c a IH]; simpl.
  - destruct b; reflexivity.
  - rewrite IH; reflexivity.
Qed.

(** Where the first occurrence of a character is, if there is one. *)
Lemma indexOf_char_split (s : string) (c : ascii) :
  (Js.indexOf s (String c "") = -1 /\
   forall before after, s <> before ++ String c after) \/
  (exists before after,
      s = before ++ String c after /\
      Js.indexOf before (String c "") = -1 /\
      Js.indexOf s (String c "") = Js.len before).
Proof.
  induction s as [| a s IH].
  - left; split; [reflexivity |].
    intros [| b before] after; discriminate.
  - cbn [Js.indexOf Js.startsWith].
    rewrite startsWith_empty, andb_true_r.
    destruct (Ascii.eqb a c) eqn:Hac.
    + apply Ascii.eqb_eq in Hac; subst a.
      right; exists "", s; repeat split.
    + destruct IH as [(Hnone & Hno) | (before & after & Hs & Hb & Hi)].
      * left; rewrite Hnone; split; [reflexivity |].
        intros [| b before] after Heq; cbn [append] in Heq.
        -- inversion Heq; subst. rewrite Ascii.eqb_refl in Hac; discriminate.
        -- inversion Heq; subst. eapply Hno; reflexivity.
      * right; exists (String a before), after.
        pose proof (@indexOf_lower_bound before (String c "")) as Hlow.
        assert (Hpos : (Js.indexOf s (String c "") <? 0) = false).
        { apply Z.ltb_ge. rewrite Hi. unfold Js.len. lia. }
        rewrite Hpos, Hi.
        split; [cbn [append]; rewrite Hs; reflexivity |].
        split.
        -- cbn [Js.indexOf Js.startsWith].
           rewrite startsWith_empty, andb_true_r, Hac, Hb. reflexivity.
        -- unfold Js.len. cbn [String.length]. lia.
Qed.

(** X1. The URL without its query string is the part of the URL before
    its first question mark: it has no question mark, and the URL is it
    followed by nothing or by a question mark and more. *)
Theorem withoutQuery_is_what_precedes_the_query (url : string) :
  Js.indexOf (Actions.withoutQuery url) "?" = -1 /\
  exists rest,
    url = Actions.withoutQuery url ++ rest /\
    (rest = "" \/ exists query, rest = String "?" query).
Proof.
  unfold Actions.withoutQuery.
  destruct (indexOf_char_split url "?")
    as [(Hnone & _) | (before & after & Hurl & Hbefore & Hindex)].
  - rewrite Hnone. change (negb (-1 =? -1)) with false. cbv iota.
    split; [exact Hnone |].
    exists "". split; [| left; reflexivity].
    clear. induction url as [| c url IH]; cbn [append];
      [reflexivity | rewrite <- IH; reflexivity].
  - rewrite Hindex.
    assert (Hfound : (Js.len before =? -1) = false)
      by (apply Z.eqb_neq; unfold Js.len; lia).
    rewrite Hfound. cbn [negb].
    assert (Hslice : Js.slice url 0 (Js.len before) = before).
    { unfold Js.slice, Js.clampIndex, Js.len. subst url.
      rewrite length_append. cbn [String.length Z.ltb Z.compare].
      assert (Hneg : (Z.of_nat (String.length before) <? 0) = false)
        by (apply Z.ltb_ge; lia).
      rewrite Hneg.
      rewrite Z.min_l, Z.min_l by lia.
      rewrite Z.sub_0_r, Nat2Z.id. cbn [Z.to_nat].
      apply substring_before. }
    rewrite Hslice.
    split; [exact Hbefore |].
    exists (String "?" after). split; [exact Hurl |].
    right; exists after; reflexivity.
Qed.

Lemma sliceFrom_one (c : ascii) (rest : string) :
  Js.sliceFrom (String c rest) 1 = rest.
Proof.
  unfold Js.sliceFrom, Js.slice, Js.clampIndex, Js.len.
  cbn [String.length Z.ltb Z.compare].
  assert (Hneg : (Z.of_nat (S (String.length rest)) <? 0) = false)
    by (apply Z.ltb_ge; lia).
  rewrite Hneg.
  rewrite Z.min_l by lia. rewrite Z.min_id.
  replace (Z.to_nat (Z.of_nat (S (String.length rest)) - 1))
    with (String.length rest) by lia.
  cbn [Z.to_nat Pos.to_nat Pos.iter_op Nat.add substring].
  apply substring_all.
Qed.

(** X2. The destination of a submission is the given path without its
    leading slash; a path that does not start with a slash, an empty path
    and no path give no destination. *)
Theorem destination_is_an_absolute_path_without_its_slash
    (path : option string) :
  Actions.destinationOf path =
  match path with
  | Some (String c rest) => if Ascii.eqb c "/" then Some rest else None
  | _ => None
  end.
Proof.
  unfold Actions.destinationOf.
  destruct path as [[| c rest] |]; try reflexivity.
  cbn [String.eqb negb andb Js.startsWith].
  rewrite startsWith_empty, andb_true_r.
  destruct (Ascii.eqb c "/"); [| reflexivity].
  rewrite sliceFrom_one. reflexivity.
Qed.

Lemma ed2k_matches_here (s : string) (name : string) :
  Actions.matchEd2kHere s = Some name ->
  Actions.ED2K_FILENAME_REGEX_match s = Some name.
Proof.
  intros Hhere.
  destruct s; cbn [Actions.ED2K_FILENAME_REGEX_match]; rewrite Hhere;
    reflexivity.
Qed.

Lemma ed2k_moves_on (c : ascii) (s : string) :
  Js.startsWith (String c s) "|file|" = false ->
  Actions.ED2K_FILENAME_REGEX_match (String c s) =
  Actions.ED2K_FILENAME_REGEX_match s.
Proof.
  intros Hstart.
  cbn [Actions.ED2K_FILENAME_REGEX_match].
  unfold Actions.matchEd2kHere at 1.
  rewrite (stripPrefix_startsWith Hstart). reflexivity.
Qed.

Lemma ed2k_name_is_captured (before name after : string) :
  name <> "" ->
  Js.indexOf name "|" = -1 ->
  Js.indexOf (before ++ "|file|" ++ name ++ String "|" after) "|file|" =
    Js.len before ->
  Actions.ED2K_FILENAME_REGEX_match
    (before ++ "|file|" ++ name ++ String "|" after) = Some name.
Proof.
  intros Hname Hbar.
  induction before as [| c before IH]; intros Hfirst.
  - cbn [append]. apply ed2k_matches_here.
    unfold Actions.matchEd2kHere.
    cbn [append Actions.stripPrefix Ascii.eqb Bool.eqb].
    rewrite (@span_until _ name after Actions.verticalBar).
    + destruct name; [congruence | reflexivity].
    + intros d; split; intros Hd.
      * apply negb_false_iff in Hd. apply Ascii.eqb_eq in Hd. exact Hd.
      * subst d. rewrite Ascii.eqb_refl. reflexivity.
    + exact Hbar.
  - cbn [append] in *. cbn [Js.indexOf] in Hfirst.
    destruct (Js.startsWith (String c _) "|file|") eqn:Hstart.
    + unfold Js.len in Hfirst. cbn [String.length] in Hfirst. lia.
    + rewrite (ed2k_moves_on Hstart).
      apply IH.
      destruct (Js.indexOf _ "|file|" <? 0) eqn:Hneg.
      * unfold Js.len in Hfirst. lia.
      * unfold Js.len in *. cbn [String.length] in Hfirst. lia.
Qed.

Lemma startsWith_append (a b prefix : string) :
  Js.startsWith a prefix = true -> Js.startsWith (a ++ b) prefix = true.
Proof.
  revert prefix; induction a as [| c a IH]; intros [| d prefix] Hstart;
    try reflexivity; cbn [Js.startsWith append] in *.
  - destruct b; reflexivity.
  - discriminate.
  - apply andb_true_iff in Hstart; destruct Hstart as (Hc & Hrest).
    rewrite Hc, (IH _ Hrest). reflexivity.
Qed.

Section LinkNames.
Context `{Collaborators}.

(** X3. The file name guessed from an ed2k link is the text between the
    first [|file|] of the link and the bar that follows it, when that text
    is not empty. *)
Theorem guessFileNameFromUrl_reads_an_ed2k_link (before name after : string) :
  Js.startsWith before "ed2k:" = true ->
  name <> "" ->
  Js.indexOf name "|" = -1 ->
  Js.indexOf (before ++ "|file|" ++ name ++ String "|" after) "|file|" =
    Js.len before ->
  Actions.guessFileNameFromUrl
    (before ++ "|file|" ++ name ++ String "|" after) = Some name.
Proof.
  intros Hed2k Hname Hbar Hfirst.
  unfold Actions.guessFileNameFromUrl.
  rewrite (startsWith_append _ Hed2k).
  assert (Hmagnet :
    Js.startsWith (before ++ "|file|" ++ name ++ String "|" after) "magnet:" =
      false).
  { destruct before as [| c before]; [discriminate |].
    cbn [Js.startsWith append] in Hed2k |- *.
    apply andb_true_iff in Hed2k; destruct Hed2k as (Hc & _).
    apply Ascii.eqb_eq in Hc; subst c. reflexivity. }
  rewrite Hmagnet.
  apply ed2k_name_is_captured; assumption.
Qed.

End LinkNames.

Lemma guessFileNameFromUrl_reads_an_ed2k_link_witness :
  @Actions.guessFileNameFromUrl sampleCollaborators
    ("ed2k://" ++ "|file|" ++ "ubuntu.iso" ++ String "|" "1024|0A1B2C|/") =
    Some "ubuntu.iso".
Proof.
  apply (@guessFileNameFromUrl_reads_an_ed2k_link sampleCollaborators
           "ed2k://" "ubuntu.iso" "1024|0A1B2C|/").
  - reflexivity.
  - discriminate.
  - reflexivity.
  - reflexivity.
Defined.

(** *** Sorting what was resolved *)

Lemma sortSubmissions_from (submissions : list (FormFile + string))
    (files : list FormFile) (urls : list string) :
  fold_left
    (fun accumulator task =>
       match task with
       | inl f => ((fst accumulator ++ [f])%list, snd accumulator)
       | inr u => (fst accumulator, (snd accumulator ++ [u])%list)
       end)
    submissions (files, urls) =
  ((files ++ filesOf submissions)%list, (urls ++ urlsOf submissions)%list).
Proof.
  revert files urls.
  induction submissions as [| [f | u] rest IH]; intros files urls;
    cbn [fold_left filesOf urlsOf fst snd].
  - rewrite !app_nil_r; reflexivity.
  - rewrite IH, <- app_assoc; reflexivity.
  - rewrite IH, <- app_assoc; reflexivity.
Qed.

(** X4. The resolved submissions are sorted into the files and the URLs,
    each in the order in which they were resolved, and none is lost. *)
Theorem sortSubmissions_keeps_order (submissions : list (FormFile + string)) :
  MultiAdd.sortSubmissions submissions =
    (filesOf submissions, urlsOf submissions) /\
  (List.length (filesOf submissions) + List.length (urlsOf submissions))%nat =
    List.length submissions.
Proof.
  split.
  - unfold MultiAdd.sortSubmissions. apply sortSubmissions_from.
  - induction submissions as [| [f | u] rest IH]; cbn [filesOf urlsOf List.length];
      lia.
Qed.

(** *** The multi-URL flow *)

Lemma urlsOf_inr (urls : list string) :
  urlsOf (map (@inr FormFile string) urls) = urls /\
  filesOf (map (@inr FormFile string) urls) = [].
Proof.
  induction urls as [| url urls (IHu & IHf)]; cbn [map urlsOf filesOf];
    [split; reflexivity |].
  rewrite IHu, IHf; split; reflexivity.
Qed.

Lemma settledPlain_values (urls : list string) :
  fulfilledValues (map settledPlain urls) =
  map (@inr FormFile string) (downloadable urls).
Proof.
  unfold downloadable, settledPlain.
  induction urls as [| url urls IH]; cbn [map filter fulfilledValues];
    [reflexivity |].
  destruct (MultiAdd.startsWithAnyProtocol url MultiAdd.DOWNLOADABLE_PROTOCOLS);
    cbn [map fulfilledValues]; rewrite IH; reflexivity.
Qed.

Section MultiFlow.
Context `{Collaborators}.
Variables (S : Type) (h : Handler S).

Lemma addDownloadTasksAndPoll_announces (poll : Prog (Settled unit))
    (urls : list string) (path : option string) :
  urls <> [] ->
  MultiAdd.addDownloadTasksAndPoll poll urls path =
  (notificationId <- trigger (announcement urls) ;;
   orCatch
     (andThen
        (MultiAdd.partitionPromises
           (map MultiAdd.rejectUnknownUrls
              (map MultiAdd.maybeMapUrlToFile urls)))
        (fun partition =>
           match MultiAdd.resolved partition with
           | [] => Ret (Fulfilled tt)
           | _ :: _ =>
               let '(file, uri) :=
                 MultiAdd.sortSubmissions (MultiAdd.resolved partition) in
               andThen
                 (MultiAdd.doCreateTask
                    {| file := file; uri := uri;
                       destination := Actions.destinationOf path |})
                 (MultiAdd.pollOnResponse poll)
           end))
     (MultiAdd.notifyUnexpectedError (Some notificationId))).
Proof.
  intros Hne. destruct urls as [| url [| next rest]];
    [congruence | reflexivity | reflexivity].
Qed.

Lemma plain_url_settles (url : string) (s : S) :
  MultiAdd.startsWithAnyProtocol url
    MultiAdd.AUTO_DOWNLOAD_TORRENT_FILE_PROTOCOLS = false ->
  exec h (MultiAdd.rejectUnknownUrls (MultiAdd.maybeMapUrlToFile url)) s =
    (settledPlain url, s, []).
Proof.
  intros Hplain.
  unfold MultiAdd.rejectUnknownUrls, MultiAdd.maybeMapUrlToFile, settledPlain.
  rewrite Hplain, exec_andThen. cbn [exec].
  destruct (MultiAdd.startsWithAnyProtocol url MultiAdd.DOWNLOADABLE_PROTOCOLS);
    reflexivity.
Qed.

Lemma plain_urls_settle (urls : list string) (s : S) :
  Forall (fun url =>
            MultiAdd.startsWithAnyProtocol url
              MultiAdd.AUTO_DOWNLOAD_TORRENT_FILE_PROTOCOLS = false) urls ->
  settleInOrder h
    (map MultiAdd.rejectUnknownUrls (map MultiAdd.maybeMapUrlToFile urls)) s =
    (map settledPlain urls, s, []).
Proof.
  induction 1 as [| url urls Hplain Hrest IH]; cbn [map settleInOrder];
    [reflexivity |].
  rewrite (plain_url_settles s Hplain), IH. reflexivity.
Qed.

(** With URLs that are not looked at first, the flow comes down to one
    request for those it lets through. *)
Lemma plain_urls_flow (poll : Prog (Settled unit)) (urls : list string)
    (path : option string) (id : string) (s : S) :
  Forall (fun url =>
            MultiAdd.startsWithAnyProtocol url
              MultiAdd.AUTO_DOWNLOAD_TORRENT_FILE_PROTOCOLS = false) urls ->
  downloadable urls <> [] ->
  exec h
    (orCatch
       (andThen
          (MultiAdd.partitionPromises
             (map MultiAdd.rejectUnknownUrls
                (map MultiAdd.maybeMapUrlToFile urls)))
          (fun partition =>
             match MultiAdd.resolved partition with
             | [] => Ret (Fulfilled tt)
             | _ :: _ =>
                 let '(file, uri) :=
                   MultiAdd.sortSubmissions (MultiAdd.resolved partition) in
                 andThen
                   (MultiAdd.doCreateTask
                      {| file := file; uri := uri;
                         destination := Actions.destinationOf path |})
                   (MultiAdd.pollOnResponse poll)
             end))
       (MultiAdd.notifyUnexpectedError (Some id))) s =
  exec h
    (orCatch
       (andThen (Actions.doCreateTask (urisSubmission (downloadable urls) path))
          (fun _ => poll))
       (MultiAdd.notifyUnexpectedError (Some id))) s.
Proof.
  intros Hplain Hsome.
  rewrite !exec_orCatch, !exec_andThen.
  unfold MultiAdd.partitionPromises.
  rewrite next_accumulates, (plain_urls_settle s Hplain).
  cbn [MultiAdd.resolved MultiAdd.rejected app].
  rewrite settledPlain_values.
  destruct (downloadable urls) as [| known rest] eqn:Hknown; [congruence |].
  cbn [map].
  change (inr known :: map inr rest)
    with (map (@inr FormFile string) (known :: rest)).
  unfold MultiAdd.sortSubmissions. rewrite sortSubmissions_from.
  cbn [app].
  destruct (urlsOf_inr (known :: rest)) as (Hurls & Hfiles).
  rewrite Hurls, Hfiles.
  rewrite exec_andThen.
  unfold MultiAdd.pollOnResponse, urisSubmission.
  change (MultiAdd.doCreateTask ?options) with (Actions.doCreateTask options).
  destruct (exec h (Actions.doCreateTask _) s) as [[[answer | e] s1] t1];
    [| reflexivity].
  destruct (exec h poll s1) as [[[[] | e] s2] t2]; reflexivity.
Qed.

(** X5. When none of the URLs given to the multi-URL flow is looked at
    first and some start with a downloadable protocol, the flow makes no
    HEAD and no GET request and submits those URLs, in the order given, in
    one request (sent a second time after a permission failure); the URLs
    that start with none of the protocols are left out of it. *)
Theorem plain_urls_are_submitted_together (urls : list string)
    (path : option string) (s : S) :
  Forall (fun url =>
            MultiAdd.startsWithAnyProtocol url
              MultiAdd.AUTO_DOWNLOAD_TORRENT_FILE_PROTOCOLS = false) urls ->
  downloadable urls <> [] ->
  let tr := trace h (MultiAdd.addDownloadTasksAndPoll Actions.pollTasks urls path) s in
  oneOrTwo (urisSubmission (downloadable urls) path)
    (collect taskCreateRequest tr) /\
  collect headAnswer tr = [] /\
  collect axiosGetUrl tr = [].
Proof.
  intros Hplain Hsome tr; subst tr.
  assert (Hne : urls <> []) by (intros ->; apply Hsome; reflexivity).
  rewrite (addDownloadTasksAndPoll_announces _ _ Hne), trace_bind_trigger.
  assert (Hannounce :
    forall x, taskCreateRequest (Observed (announcement urls) x) = None /\
              headAnswer (Observed (announcement urls) x) = None /\
              axiosGetUrl (Observed (announcement urls) x) = None).
  { intros x. destruct urls as [| url [| next rest]]; repeat split. }
  destruct (Hannounce (fst (handle h (announcement urls) s)))
    as (Hcreate & Hhead & Hget).
  cbn [collect]. rewrite Hcreate, Hhead, Hget.
  unfold trace. rewrite (plain_urls_flow _ _ _ _ Hplain Hsome).
  rewrite exec_orCatch, exec_andThen.
  pose proof (doCreateTask_runs h (snd (handle h (announcement urls) s))
                (urisSubmission (downloadable urls) path)) as Hruns.
  destruct (exec h (Actions.doCreateTask _) _) as [[[answer | e] s1] t1].
  - destruct Hruns as (Hreq & _ & _ & Hget1 & _ & Hhead1).
    destruct (pollTasks_fulfils h s1) as (s2 & t2 & Hpoll).
    pose proof (fun B (f : Obs -> option B) a b c d e =>
                  avoids_collect (@avoids_pollTasks _ B f a b c d e) h s1)
      as Hquiet.
    unfold trace in Hquiet. rewrite Hpoll in Hquiet. cbn [snd] in Hquiet.
    rewrite Hpoll. cbn [snd].
    rewrite !collect_app.
    rewrite (Hquiet _ taskCreateRequest), (Hquiet _ headAnswer),
      (Hquiet _ axiosGetUrl); try (intros; reflexivity).
    rewrite !app_nil_r. repeat split; assumption.
  - destruct Hruns as (Hreq & _ & _ & Hget1 & _ & Hhead1).
    cbn [exec MultiAdd.notifyUnexpectedError bind trigger].
    destruct (handle h (Notify _ _ _ _) s1) as [x s2].
    cbn [snd]. rewrite !collect_app. cbn [collect taskCreateRequest headAnswer axiosGetUrl].
    rewrite !app_nil_r. repeat split; assumption.
Qed.


(** X7. Neither flow ever ends rejected: whatever the environment
    answers, and whatever is asked of them, the promise of the single-URL
    flow and that of the multi-URL flow are fulfilled. *)
Theorem submission_flows_are_always_fulfilled (poll : Prog (Settled unit))
    (url : string) (urls : list string) (path : option string) (s : S) :
  result h (Actions.addDownloadTaskAndPoll url path) s = Fulfilled tt /\
  result h (MultiAdd.addDownloadTasksAndPoll poll urls path) s = Fulfilled tt.
Proof.
  assert (Hcaught :
    forall (p : Prog (Settled unit)) (handler : Js.Value -> Prog (Settled unit))
           (s0 : S),
      (forall e s1, result h (handler e) s1 = Fulfilled tt) ->
      result h (orCatch p handler) s0 = Fulfilled tt).
  { intros p handler s0 Hhandler. unfold result in *.
    rewrite exec_orCatch.
    destruct (exec h p s0) as [[[[] | e] s1] t1]; [reflexivity |].
    specialize (Hhandler e s1).
    destruct (exec h (handler e) s1) as [[b s2] t2]. exact Hhandler. }
  assert (Hnotify :
    forall title message kind id s0,
      result h (trigger (Notify title message kind id) ;;; Ret (Fulfilled tt)) s0 =
        Fulfilled tt).
  { intros. unfold result. cbn [bind trigger exec].
    destruct (handle h _ s0) as [x s1]. reflexivity. }
  split.
  - unfold Actions.addDownloadTaskAndPoll, result.
    rewrite exec_bind, exec_trigger.
    destruct (handle h _ s) as [id s0]. cbn [fst snd].
    match goal with
    | |- context [exec h ?body s0] =>
        assert (Hbody : result h body s0 = Fulfilled tt)
    end.
    { destruct (negb (String.eqb url "")); [| apply Hnotify].
      destruct (Protocols.startsWithAnyProtocol url
                  AUTO_DOWNLOAD_TORRENT_FILE_PROTOCOLS).
      - apply Hcaught. intros e s1. apply Hnotify.
      - destruct (Protocols.startsWithAnyProtocol url ALL_DOWNLOADABLE_PROTOCOLS);
          [| apply Hnotify].
        apply Hcaught. intros e s1. apply Hnotify. }
    unfold result in Hbody.
    destruct (exec h _ s0) as [[b s2] t2]. exact Hbody.
  - destruct urls as [| first rest].
    + apply Hnotify.
    + rewrite addDownloadTasksAndPoll_announces by discriminate.
      unfold result. rewrite exec_bind, exec_trigger.
      destruct (handle h _ s) as [id s0]. cbn [fst snd].
      match goal with
      | |- context [exec h ?body s0] =>
          assert (Hbody : result h body s0 = Fulfilled tt)
      end.
      { apply Hcaught. intros e s1. apply Hnotify. }
      unfold result in Hbody.
      destruct (exec h _ s0) as [[b s2] t2]. exact Hbody.
Qed.

End MultiFlow.

Lemma plain_urls_are_submitted_together_witness :
  let tr :=
    trace scripted
      (@MultiAdd.addDownloadTasksAndPoll sampleCollaborators
         (@Actions.pollTasks sampleCollaborators)
         ["magnet:?xt=urn:btih:c12f"; "foo:bar"; "ftp://example.com/a.iso"]
         (Some "/video"))
      emptyScript in
  oneOrTwo
    (urisSubmission
       (downloadable
          ["magnet:?xt=urn:btih:c12f"; "foo:bar"; "ftp://example.com/a.iso"])
       (Some "/video"))
    (collect taskCreateRequest tr) /\
  collect headAnswer tr = [] /\
  collect axiosGetUrl tr = [].
Proof.
  apply (@plain_urls_are_submitted_together sampleCollaborators Script scripted
           ["magnet:?xt=urn:btih:c12f"; "foo:bar"; "ftp://example.com/a.iso"]
           (Some "/video") emptyScript).
  - repeat constructor.
  - vm_compute. discriminate.
Defined.


(** *** The poller, over any sequence of events *)

Lemma NoDup_snoc A (l : list A) (x : A) :
  NoDup l -> ~ In x l -> NoDup (l ++ [x])%list.
Proof.
  induction l as [| a l IH]; cbn [app]; intros Hnd Hx.
  - constructor; [intros [] | constructor].
  - inversion Hnd as [| b l' Ha Hl]; subst.
    constructor.
    + rewrite in_app_iff. cbn [In].
      intros [Hin | [Heq | []]]; [contradiction |].
      subst x. apply Hx. left; reflexivity.
    + apply IH; [exact Hl |]. intros Hin. apply Hx. right; exact Hin.
Qed.

Lemma removeNth_split A (l : list A) :
  forall (i : nat) (x : A),
    nth_error l i = Some x ->
    exists l1 l2,
      l = (l1 ++ x :: l2)%list /\ TaskPoller.removeNth i l = (l1 ++ l2)%list.
Proof.
  induction l as [| a l IH]; intros [| i] x Hnth; cbn in Hnth;
    try discriminate.
  - inversion Hnth; subst. exists [], l. split; reflexivity.
  - destruct (IH i x Hnth) as (l1 & l2 & Hl & Hr).
    exists (a :: l1), l2. cbn [app TaskPoller.removeNth].
    split; f_equal; assumption.
Qed.

Module PollerInvariants.
Import TaskPoller PollerTerms.

Lemma filter_absent (c : Z) (l : list Pending) :
  ~ In c (map countOf l) ->
  filter (fun p => countOf p =? c) l = [].
Proof.
  induction l as [| p l IH]; cbn [map filter In]; intros Hno; [reflexivity |].
  destruct (countOf p =? c) eqn:Hc.
  - apply Z.eqb_eq in Hc. exfalso. apply Hno. left; exact Hc.
  - apply IH. intros Hin. apply Hno. right; exact Hin.
Qed.

Lemma one_per_count (c : Z) (l : list Pending) :
  NoDup (map countOf l) ->
  (List.length (filter (fun p => (countOf p =? c)%Z) l) <= 1)%nat.
Proof.
  induction l as [| p l IH]; cbn [map filter]; intros Hnd; [cbn; lia |].
  inversion Hnd as [| b l' Hp Hl]; subst.
  destruct (countOf p =? c) eqn:Hc.
  - apply Z.eqb_eq in Hc. rewrite Hc in Hp.
    rewrite (filter_absent Hp). cbn. lia.
  - apply IH. exact Hl.
Qed.

Lemma kept_same (w w' : World) :
  oneItemPerChain w ->
  tryPollCount w <= tryPollCount w' ->
  pending w' = pending w ->
  oneItemPerChain w'.
Proof.
  intros (Hnd & Hle) Hcount Hp. unfold oneItemPerChain. rewrite Hp.
  split; [exact Hnd |].
  eapply Forall_impl; [| exact Hle]. cbn beta. intros p Hp0. lia.
Qed.

Lemma kept_extended (w w' : World) (p : Pending) :
  oneItemPerChain w ->
  tryPollCount w <= tryPollCount w' ->
  pending w' = (pending w ++ [p])%list ->
  ~ In (countOf p) (map countOf (pending w)) ->
  countOf p <= tryPollCount w' ->
  oneItemPerChain w'.
Proof.
  intros (Hnd & Hle) Hcount Hp Hnew Hbound. unfold oneItemPerChain. rewrite Hp.
  split.
  - rewrite map_app. cbn [map]. apply NoDup_snoc; assumption.
  - apply Forall_app. split.
    + eapply Forall_impl; [| exact Hle]. cbn beta. intros q Hq. lia.
    + constructor; [exact Hbound | constructor].
Qed.

(** What a settled item leaves behind: the others, none of its chain. *)
Lemma kept_removed (w : World) (i : nat) (p : Pending) :
  oneItemPerChain w ->
  nth_error (pending w) i = Some p ->
  oneItemPerChain (setPending w (removeNth i (pending w))) /\
  ~ In (countOf p) (map countOf (removeNth i (pending w))) /\
  countOf p <= tryPollCount w.
Proof.
  intros (Hnd & Hle) Hnth.
  destruct (removeNth_split Hnth) as (l1 & l2 & Hl & Hr).
  unfold oneItemPerChain. cbn [setPending pending tryPollCount].
  rewrite Hr. rewrite Hl in Hnd, Hle.
  rewrite map_app in Hnd. cbn [map] in Hnd.
  apply NoDup_remove in Hnd. destruct Hnd as (Hnd & Hout).
  rewrite <- map_app in Hnd, Hout.
  apply Forall_app in Hle. destruct Hle as (Hle1 & Hle2).
  inversion Hle2 as [| q l' Hp Hle3]; subst.
  repeat split; try assumption.
  apply Forall_app; split; assumption.
Qed.

Lemma above_all (w : World) :
  oneItemPerChain w ->
  ~ In (tryPollCount w + 1) (map countOf (pending w)).
Proof.
  intros (_ & Hle) Hin.
  apply in_map_iff in Hin. destruct Hin as (p & Hp & Hin).
  rewrite Forall_forall in Hle. specialize (Hle p Hin). lia.
Qed.

Lemma kept_tryPoll (w : World) :
  oneItemPerChain w -> oneItemPerChain (tryPoll w).
Proof.
  intros Hinv. pose proof (above_all Hinv) as Habove.
  unfold tryPoll. cbn [settings pending tryPollCount].
  destruct (enabled (settings w)).
  - destruct (sid (settings w)) as [session |];
      [destruct (truthyString (hostname (settings w)) && truthyString session) |];
      (eapply kept_extended;
       [exact Hinv | | reflexivity | exact Habove |];
       cbn [issue setPending tryPollCount countOf]; lia).
  - eapply kept_same; [exact Hinv | | reflexivity]. cbn [tryPollCount]. lia.
Qed.

Lemma kept_updateSettings (given : PartialPollerSettings) (w : World) :
  oneItemPerChain w -> oneItemPerChain (updateSettings given w).
Proof.
  intros Hinv. unfold updateSettings.
  assert (Hset : oneItemPerChain
                   {| tryPollCount := tryPollCount w;
                      settings := spreadSettings (settings w) given;
                      pending := pending w; calls := calls w |}).
  { eapply kept_same; [exact Hinv | | reflexivity]. cbn [tryPollCount]. lia. }
  destruct (negb _); [apply kept_tryPoll |]; exact Hset.
Qed.

Lemma kept_addsForChain (count : Z) (w w' : World) :
  oneItemPerChain w ->
  ~ In count (map countOf (pending w)) ->
  count <= tryPollCount w ->
  addsForChain count w w' ->
  oneItemPerChain w'.
Proof.
  intros Hinv Hout Hbound (Hcount & [Hsame | (p & Hp & Hmore)]).
  - eapply kept_same; [exact Hinv | lia | exact Hsame].
  - eapply kept_extended; [exact Hinv | lia | exact Hmore | |];
      rewrite Hp; [exact Hout | lia].
Qed.

Section WithCollaborators.
Context `{Collaborators}.

Lemma afterPoll_adds (count : Z) (w : World) :
  addsForChain count w (afterPoll count w).
Proof.
  unfold afterPoll, addsForChain.
  destruct (enabled (settings w)); cbn [issue tryPollCount pending].
  - split; [reflexivity |]. right. eexists; split; [| reflexivity]. reflexivity.
  - split; [reflexivity |]. left; reflexivity.
Qed.

Lemma onResponse_adds (count : Z)
    (response : SynologyResponse (list DownloadStationTask)) (now : Z)
    (w : World) :
  addsForChain count w (onResponse count response now w).
Proof.
  unfold onResponse.
  destruct (enabled (settings w)) eqn:Hon; [| apply afterPoll_adds].
  split; [reflexivity |]. right. eexists; split; [| reflexivity]. reflexivity.
Qed.

Lemma onError_adds (count : Z) (error : Js.Value) (now : Z) (w : World) :
  addsForChain count w (onError count error now w).
Proof.
  unfold onError.
  destruct (enabled (settings w)) eqn:Hon; [| apply afterPoll_adds].
  split; [reflexivity |]. right. eexists; split; [| reflexivity]. reflexivity.
Qed.

Lemma onMissingSettings_adds (count : Z) (now : Z) (w : World) :
  addsForChain count w (onMissingSettings count now w).
Proof.
  split; [reflexivity |]. right. eexists; split; [| reflexivity]. reflexivity.
Qed.

Lemma kept_step (w w' : World) (input : Input) :
  oneItemPerChain w -> step w input = Some w' -> oneItemPerChain w'.
Proof.
  intros Hinv Hstep.
  destruct input as [given | i outcome now | i outcome now | i now | i];
    cbn [step] in Hstep.
  - inversion Hstep; subst. apply kept_updateSettings; exact Hinv.
  - destruct (nth_error (pending w) i) as [[count | | |] |] eqn:Hnth;
      try discriminate.
    destruct (kept_removed Hinv Hnth) as (Hrest & Hout & Hbound).
    inversion Hstep; subst; clear Hstep.
    eapply kept_addsForChain; [exact Hrest | exact Hout | exact Hbound |].
    destruct outcome; [apply onResponse_adds | apply onError_adds].
  - destruct (nth_error (pending w) i) as [[| count origin | |] |] eqn:Hnth;
      try discriminate.
    destruct (kept_removed Hinv Hnth) as (Hrest & Hout & Hbound).
    inversion Hstep; subst; clear Hstep.
    eapply kept_addsForChain; [exact Hrest | exact Hout | exact Hbound |].
    destruct outcome; [apply afterPoll_adds |].
    destruct origin; [apply onError_adds | |];
      (split; [reflexivity | left; reflexivity]).
  - destruct (nth_error (pending w) i) as [[| | count |] |] eqn:Hnth;
      try discriminate.
    destruct (kept_removed Hinv Hnth) as (Hrest & Hout & Hbound).
    inversion Hstep; subst; clear Hstep.
    eapply kept_addsForChain; [exact Hrest | exact Hout | exact Hbound |].
    apply onMissingSettings_adds.
  - destruct (nth_error (pending w) i) as [[| | | count delay] |] eqn:Hnth;
      try discriminate.
    destruct (kept_removed Hinv Hnth) as (Hrest & Hout & Hbound).
    inversion Hstep; subst; clear Hstep.
    destruct (count =? _); [apply kept_tryPoll |]; exact Hrest.
Qed.

Lemma kept_run (inputs : list Input) :
  forall w w', oneItemPerChain w -> run w inputs = Some w' -> oneItemPerChain w'.
Proof.
  induction inputs as [| input rest IH]; intros w w' Hinv Hrun; cbn [run] in Hrun.
  - inversion Hrun; subst; exact Hinv.
  - destruct (step w input) as [w1 |] eqn:Hstep; [| discriminate].
    eapply IH; [| exact Hrun]. eapply kept_step; eassumption.
Qed.

(** X8. Whatever settings a poller is made with and whatever happens to
    it afterwards, no two of its pending items (a request, a cache write,
    a queued write, a timer) belong to the same chain of polls, every
    pending item belongs to a chain that was started, and so at most one
    pending item belongs to the chain started last. *)
Theorem one_pending_item_per_chain (given : option PartialPollerSettings)
    (inputs : list Input) (w : World) :
  run (construct given) inputs = Some w ->
  oneItemPerChain w /\
  (List.length
     (filter (fun p => (countOf p =? tryPollCount w)%Z) (pending w)) <= 1)%nat.
Proof.
  intros Hrun.
  assert (Hinv : oneItemPerChain w).
  { eapply kept_run; [| exact Hrun].
    apply kept_updateSettings. split; [constructor | constructor]. }
  split; [exact Hinv |].
  apply one_per_count. exact (proj1 Hinv).
Qed.

Lemma truthyString_nonempty (s : string) : truthyString s = true -> s <> "".
Proof.
  unfold truthyString. intros Htruthy ->. discriminate.
Qed.

Lemma responseFailureMessage_nonempty (code : Z) :
  responseFailureMessage code <> "".
Proof.
  unfold responseFailureMessage, Actions.orElse.
  destruct (ERROR_CODES_common code) as [[| c m] |];
    destruct (ERROR_CODES_task code) as [[| d n] |]; discriminate.
Qed.

Lemma failureMessageOf_nonempty (error : Js.Value) :
  failureMessageOf error <> "".
Proof.
  unfold failureMessageOf.
  destruct (_ && _ && _); [discriminate |].
  destruct (_ && _); discriminate.
Qed.

Lemma wellFormed_issue (w : World) (c : Call) (p : Pending) :
  Forall wellFormed (calls w) -> wellFormed c ->
  Forall wellFormed (calls (issue w c p)).
Proof.
  intros Hall Hc. cbn [issue calls]. apply Forall_app. split; [exact Hall |].
  constructor; [exact Hc | constructor].
Qed.

Lemma wellFormed_tryPoll (w : World) :
  Forall wellFormed (calls w) -> Forall wellFormed (calls (tryPoll w)).
Proof.
  intros Hall. unfold tryPoll. cbn [settings pending calls].
  destruct (enabled (settings w)); [| exact Hall].
  destruct (sid (settings w)) as [session |]; [| exact Hall].
  destruct (truthyString (hostname (settings w))) eqn:Hhost;
    [| exact Hall].
  destruct (truthyString session) eqn:Hsession; [| exact Hall].
  cbn [andb]. apply wellFormed_issue; [exact Hall |].
  split; [| exact I].
  repeat split; apply truthyString_nonempty; assumption.
Qed.

Lemma wellFormed_updateSettings (given : PartialPollerSettings) (w : World) :
  Forall wellFormed (calls w) ->
  Forall wellFormed (calls (updateSettings given w)).
Proof.
  intros Hall. unfold updateSettings.
  destruct (negb _); [apply wellFormed_tryPoll |]; exact Hall.
Qed.

Lemma wellFormed_afterPoll (count : Z) (w : World) :
  Forall wellFormed (calls w) -> Forall wellFormed (calls (afterPoll count w)).
Proof.
  intros Hall. unfold afterPoll.
  destruct (enabled (settings w)); [| exact Hall].
  apply wellFormed_issue; [exact Hall | split; exact I].
Qed.

Lemma wellFormed_onError (count : Z) (error : Js.Value) (now : Z) (w : World) :
  Forall wellFormed (calls w) ->
  Forall wellFormed (calls (onError count error now w)).
Proof.
  intros Hall. unfold onError.
  destruct (enabled (settings w)); [| apply wellFormed_afterPoll; exact Hall].
  apply wellFormed_issue; [exact Hall |].
  split; [exact I |]. split; [eexists; reflexivity |].
  right. eexists; repeat split. apply failureMessageOf_nonempty.
Qed.

Lemma wellFormed_onResponse (count : Z)
    (response : SynologyResponse (list DownloadStationTask)) (now : Z)
    (w : World) :
  Forall wellFormed (calls w) ->
  Forall wellFormed (calls (onResponse count response now w)).
Proof.
  intros Hall. unfold onResponse.
  destruct (enabled (settings w)); [| apply wellFormed_afterPoll; exact Hall].
  apply wellFormed_issue; [exact Hall |].
  split; [exact I |].
  destruct response as [fetched | code]; (split; [eexists; reflexivity |]).
  - left. eexists; split; reflexivity.
  - right. eexists; repeat split. apply responseFailureMessage_nonempty.
Qed.

Lemma wellFormed_step (w w' : World) (input : Input) :
  Forall wellFormed (calls w) -> step w input = Some w' ->
  Forall wellFormed (calls w').
Proof.
  intros Hall Hstep.
  destruct input as [given | i outcome now | i outcome now | i now | i];
    cbn [step] in Hstep.
  - inversion Hstep; subst. apply wellFormed_updateSettings; exact Hall.
  - destruct (nth_error (pending w) i) as [[count | | |] |]; try discriminate.
    inversion Hstep; subst; clear Hstep.
    destruct outcome; [apply wellFormed_onResponse | apply wellFormed_onError];
      exact Hall.
  - destruct (nth_error (pending w) i) as [[| count origin | |] |];
      try discriminate.
    inversion Hstep; subst; clear Hstep.
    destruct outcome; [apply wellFormed_afterPoll; exact Hall |].
    destruct origin; [apply wellFormed_onError | |]; exact Hall.
  - destruct (nth_error (pending w) i) as [[| | count |] |]; try discriminate.
    inversion Hstep; subst; clear Hstep.
    apply wellFormed_issue; [exact Hall |].
    split; [exact I |]. split; [eexists; reflexivity |].
    right. eexists; repeat split. discriminate.
  - destruct (nth_error (pending w) i) as [[| | | count delay] |];
      try discriminate.
    inversion Hstep; subst; clear Hstep.
    destruct (count =? _); [apply wellFormed_tryPoll |]; exact Hall.
Qed.

Lemma wellFormed_run (given : option PartialPollerSettings)
    (inputs : list Input) (w : World) :
  run (construct given) inputs = Some w -> Forall wellFormed (calls w).
Proof.
  assert (Hrun : forall inputs w0 w1,
             Forall wellFormed (calls w0) -> run w0 inputs = Some w1 ->
             Forall wellFormed (calls w1)).
  { clear. intros inputs.
    induction inputs as [| input rest IH]; intros w0 w1 Hall Hrun;
      cbn [run] in Hrun.
    - inversion Hrun; subst; exact Hall.
    - destruct (step w0 input) as [w2 |] eqn:Hstep; [| discriminate].
      eapply IH; [| exact Hrun]. eapply wellFormed_step; eassumption. }
  apply Hrun. apply wellFormed_updateSettings. constructor.
Qed.

(** X9. Every request for the task list that a poller makes, whatever
    happens to it, names a host and a session that are not empty, and asks
    for all tasks with their transfer details. *)
Theorem requests_name_host_and_session (given : option PartialPollerSettings)
    (inputs : list Input) (w : World) :
  run (construct given) inputs = Some w ->
  Forall namesHostAndSession (calls w).
Proof.
  intros Hrun.
  eapply Forall_impl; [| exact (wellFormed_run Hrun)].
  intros c Hc. exact (proj1 Hc).
Qed.

(** X10. Every write a poller makes to the cache, whatever happens to it,
    carries the time of the update and a failure message; it carries the
    task list exactly when the message is the cleared one, and a message
    that is not cleared is not empty. *)
Theorem cache_writes_are_consistent (given : option PartialPollerSettings)
    (inputs : list Input) (w : World) :
  run (construct given) inputs = Some w ->
  Forall isConsistentWrite (calls w).
Proof.
  intros Hrun.
  eapply Forall_impl; [| exact (wellFormed_run Hrun)].
  intros c Hc. exact (proj2 Hc).
Qed.

Lemma removeNth_length A (l : list A) (i : nat) (x : A) :
  nth_error l i = Some x ->
  List.length l = Datatypes.S (List.length (removeNth i l)).
Proof.
  intros Hnth. destruct (removeNth_split Hnth) as (l1 & l2 & Hl & Hr).
  rewrite Hr, Hl, !length_app. cbn [List.length]. lia.
Qed.

Lemma disabled_step (w w' : World) (input : Input) :
  enabled (settings w) = false ->
  isUpdate input = false ->
  step w input = Some w' ->
  enabled (settings w') = false /\
  (List.length (pending w') <= List.length (pending w))%nat /\
  exists added,
    calls w' = (calls w ++ added)%list /\ Forall isMissingSettingsWrite added.
Proof.
  intros Hoff Hinput Hstep.
  assert (Hnothing :
    forall l, (List.length l <= List.length (pending w))%nat ->
      enabled (settings (setPending w l)) = false /\
      (List.length (pending (setPending w l)) <= List.length (pending w))%nat /\
      exists added,
        calls (setPending w l) = (calls w ++ added)%list /\
        Forall isMissingSettingsWrite added).
  { intros l Hl. cbn [setPending settings pending calls].
    repeat split; [exact Hoff | exact Hl |].
    exists []. rewrite app_nil_r. split; [reflexivity | constructor]. }
  assert (Hafter : forall count w0,
             enabled (settings w0) = false -> afterPoll count w0 = w0).
  { intros count w0 Hw0. unfold afterPoll. rewrite Hw0. reflexivity. }
  assert (Herror : forall count error now w0,
             enabled (settings w0) = false -> onError count error now w0 = w0).
  { intros count error now w0 Hw0. unfold onError. rewrite Hw0.
    apply Hafter; exact Hw0. }
  assert (Hresponse : forall count response now w0,
             enabled (settings w0) = false ->
             onResponse count response now w0 = w0).
  { intros count response now w0 Hw0. unfold onResponse. rewrite Hw0.
    apply Hafter; exact Hw0. }
  destruct input as [given | i outcome now | i outcome now | i now | i];
    cbn [step isUpdate] in *; [discriminate | | | |].
  - destruct (nth_error (pending w) i) as [[count | | |] |] eqn:Hnth;
      try discriminate.
    pose proof (removeNth_length Hnth) as Hlen.
    inversion Hstep; subst; clear Hstep.
    destruct outcome;
      [rewrite Hresponse by exact Hoff | rewrite Herror by exact Hoff];
      apply Hnothing; lia.
  - destruct (nth_error (pending w) i) as [[| count origin | |] |] eqn:Hnth;
      try discriminate.
    pose proof (removeNth_length Hnth) as Hlen.
    inversion Hstep; subst; clear Hstep.
    destruct outcome; [rewrite Hafter by exact Hoff |
                       destruct origin; [rewrite Herror by exact Hoff | |]];
      apply Hnothing; lia.
  - destruct (nth_error (pending w) i) as [[| | count |] |] eqn:Hnth;
      try discriminate.
    pose proof (removeNth_length Hnth) as Hlen.
    inversion Hstep; subst; clear Hstep.
    cbn [onMissingSettings issue setPending settings pending calls].
    repeat split; [exact Hoff | rewrite length_app; cbn [List.length]; lia |].
    eexists; split; [reflexivity |].
    constructor; [| constructor]. exists count, now. reflexivity.
  - destruct (nth_error (pending w) i) as [[| | | count delay] |] eqn:Hnth;
      try discriminate.
    pose proof (removeNth_length Hnth) as Hlen.
    inversion Hstep; subst; clear Hstep.
    cbn [setPending tryPollCount].
    destruct (count =? tryPollCount w); [| apply Hnothing; lia].
    unfold tryPoll. cbn [setPending settings pending calls tryPollCount].
    rewrite Hoff. cbn [settings pending calls].
    repeat split; [exact Hoff | lia |].
    exists []. rewrite app_nil_r. split; [reflexivity | constructor].
Qed.

(** X11. A poller that is switched off stays quiet until its settings are
    changed: whatever settles in the meantime, it asks for no task list
    and sets no timer, the number of its pending items does not grow, and
    the only calls it makes are the cache writes that say that the host or
    the session is missing, queued before it was switched off. *)
Theorem disabled_poller_is_quiet (inputs : list Input) (w w' : World) :
  enabled (settings w) = false ->
  forallb (fun input => negb (isUpdate input)) inputs = true ->
  run w inputs = Some w' ->
  enabled (settings w') = false /\
  (List.length (pending w') <= List.length (pending w))%nat /\
  exists added,
    calls w' = (calls w ++ added)%list /\ Forall isMissingSettingsWrite added.
Proof.
  revert w.
  induction inputs as [| input rest IH]; intros w Hoff Hinputs Hrun;
    cbn [run forallb] in *.
  - inversion Hrun; subst.
    repeat split; [exact Hoff | lia |].
    exists []. rewrite app_nil_r. split; [reflexivity | constructor].
  - apply andb_true_iff in Hinputs. destruct Hinputs as (Hinput & Hrest).
    apply negb_true_iff in Hinput.
    destruct (step w input) as [w1 |] eqn:Hstep; [| discriminate].
    destruct (disabled_step Hoff Hinput Hstep)
      as (Hoff1 & Hlen1 & added1 & Hcalls1 & Hadded1).
    destruct (IH w1 Hoff1 Hrest Hrun)
      as (Hoff2 & Hlen2 & added2 & Hcalls2 & Hadded2).
    repeat split; [exact Hoff2 | lia |].
    exists (added1 ++ added2)%list.
    split; [rewrite Hcalls2, Hcalls1, app_assoc; reflexivity |].
    apply Forall_app; split; assumption.
Qed.

End WithCollaborators.
End PollerInvariants.

Lemma one_pending_item_per_chain_witness :
  PollerTerms.oneItemPerChain Runs.supersededWorld /\
  (List.length
     (filter (fun p => (PollerTerms.countOf p =?
                        TaskPoller.tryPollCount Runs.supersededWorld)%Z)
        (TaskPoller.pending Runs.supersededWorld)) <= 1)%nat.
Proof.
  apply (@PollerInvariants.one_pending_item_per_chain sampleCollaborators
           (Some Runs.nasSettings) MoreRuns.pollerInputs Runs.supersededWorld).
  vm_compute; reflexivity.
Defined.

Lemma requests_name_host_and_session_witness :
  Forall PollerTerms.namesHostAndSession
    (TaskPoller.calls Runs.supersededWorld).
Proof.
  apply (@PollerInvariants.requests_name_host_and_session sampleCollaborators
           (Some Runs.nasSettings) MoreRuns.pollerInputs Runs.supersededWorld).
  vm_compute; reflexivity.
Defined.

Lemma cache_writes_are_consistent_witness :
  Forall PollerTerms.isConsistentWrite
    (TaskPoller.calls Runs.supersededWorld).
Proof.
  apply (@PollerInvariants.cache_writes_are_consistent sampleCollaborators
           (Some Runs.nasSettings) MoreRuns.pollerInputs Runs.supersededWorld).
  vm_compute; reflexivity.
Defined.

Lemma disabled_poller_is_quiet_witness :
  TaskPoller.enabled
    (TaskPoller.settings
       (TaskPoller.setPending MoreRuns.switchedOff [])) = false /\
  (List.length (TaskPoller.pending (TaskPoller.setPending MoreRuns.switchedOff []))
   <= List.length (TaskPoller.pending MoreRuns.switchedOff))%nat /\
  exists added,
    TaskPoller.calls (TaskPoller.setPending MoreRuns.switchedOff []) =
      (TaskPoller.calls MoreRuns.switchedOff ++ added)%list /\
    Forall PollerTerms.isMissingSettingsWrite added.
Proof.
  apply (@PollerInvariants.disabled_poller_is_quiet sampleCollaborators
           MoreRuns.whileOff MoreRuns.switchedOff
           (TaskPoller.setPending MoreRuns.switchedOff [])).
  - reflexivity.
  - reflexivity.
  - vm_compute; reflexivity.
Defined.

(** *** The background script *)

(** The tasks kept by a test have distinct identifiers when all tasks
    have. *)
Lemma kept_tasks_are_distinct (keep : DownloadStationTask -> bool)
    (stored : list DownloadStationTask) :
  NoDup (map task_id stored) -> NoDup (map task_id (filter keep stored)).
Proof.
  induction stored as [| task stored IH]; cbn [map filter]; intros Hdistinct;
    [constructor |].
  inversion Hdistinct as [| b l' Hnew Hrest]; subst.
  destruct (keep task); cbn [map]; [| apply IH; exact Hrest].
  constructor; [| apply IH; exact Hrest].
  intros Hin. apply Hnew.
  apply in_map_iff in Hin. destruct Hin as (other & Hsame & Hin).
  apply filter_In in Hin. rewrite <- Hsame. apply in_map. apply Hin.
Qed.

Module BackgroundFacts.
Import Background BackgroundTerms.

Lemma absent_spec (ids : list string) (id : string) :
  absent ids id = true <-> ~ In id ids.
Proof.
  unfold absent. rewrite negb_true_iff. split.
  - intros Hno Hin.
    assert (Hyes : existsb (String.eqb id) ids = true).
    { apply existsb_exists. exists id. split; [exact Hin | apply String.eqb_refl]. }
    congruence.
  - intros Hno. destruct (existsb (String.eqb id) ids) eqn:He; [| reflexivity].
    apply existsb_exists in He. destruct He as (x & Hin & Heq).
    apply String.eqb_eq in Heq. subst x. contradiction.
Qed.

Lemma isEqual_refl (a : NotificationSettings) : isEqual a a = true.
Proof.
  unfold isEqual. rewrite Bool.eqb_reflx, Z.eqb_refl. reflexivity.
Qed.

(** The parts of what the listener returns. *)
Lemma recorded_after (START_TIME : Z) (vars : Variables)
    (state : StoredState) (updated : bool) (id : Z) :
  recorded (fst (onStoredStateChange START_TIME vars state updated id)) =
  if isFreshSuccess START_TIME state
  then (recorded vars ++
        filter (fun taskId =>
                  match finishedTaskIds vars with
                  | Some ids => absent ids taskId
                  | None => true
                  end)
               (updatedFinishedTaskIds state))%list
  else recorded vars.
Proof.
  unfold onStoredStateChange, recorded. cbn [fst finishedTaskIds].
  destruct (isFreshSuccess START_TIME state); reflexivity.
Qed.

Lemma requests_of_call (START_TIME : Z) (vars : Variables)
    (state : StoredState) (updated : bool) (id : Z) :
  snd (onStoredStateChange START_TIME vars state updated id) =
  ((if updated then [ClearCachedTasksThenPoll] else []) ++
   (if negb (isEqual (notifications state) (notificationSettings vars))
    then ClearInterval (notificationInterval vars) ::
         (if enabled (notifications state)
          then [SetInterval (pollingInterval (notifications state) * 1000) id]
          else [])
    else []) ++
   match taskFetchFailureReason state with
   | Some _ =>
       [ SetIcon true; SetBadgeText "";
         SetBadgeBackgroundColor [217; 0; 0; 255] ]
   | None =>
       [ SetIcon false;
         SetBadgeText
           (match tasks state with
            | [] => ""
            | _ :: _ => MultiAdd.decimal (List.length (tasks state))
            end);
         SetBadgeBackgroundColor [0; 217; 0; 255] ]
   end ++
   finishedNotifications state (announcedBy START_TIME vars state))%list.
Proof.
  unfold onStoredStateChange, announcedBy. cbn [snd].
  destruct (isFreshSuccess START_TIME state); [reflexivity |].
  destruct (finishedTaskIds vars); reflexivity.
Qed.

Lemma listen_cons (START_TIME : Z) (vars : Variables) (change : Change)
    (rest : list Change) :
  listen START_TIME vars (change :: rest) =
  (fst (listen START_TIME
          (fst (onStoredStateChange START_TIME vars (storedState change)
                  (didUpdateSettings change) (timer change)))
          rest),
   snd (onStoredStateChange START_TIME vars (storedState change)
          (didUpdateSettings change) (timer change)) ::
   snd (listen START_TIME
          (fst (onStoredStateChange START_TIME vars (storedState change)
                  (didUpdateSettings change) (timer change)))
          rest)).
Proof.
  cbn [listen].
  destruct (onStoredStateChange START_TIME vars (storedState change)
              (didUpdateSettings change) (timer change)) as [vars1 requests].
  cbn [fst snd].
  destruct (listen START_TIME vars1 rest) as [vars2 later]. reflexivity.
Qed.

(** **** Finished downloads *)

Lemma finishedNotifications_count (state : StoredState) (ids : list string) :
  (List.length (filter isNotifyFinished (finishedNotifications state ids))
   <= List.length ids)%nat.
Proof.
  unfold finishedNotifications.
  induction ids as [| id ids IH]; cbn [flat_map List.length]; [cbn; lia |].
  rewrite filter_app, length_app.
  destruct (filter (fun t => String.eqb (task_id t) id) (tasks state))
    as [| task others];
    [| destruct (enabled (notifications state))]; cbn [filter List.length isNotifyFinished];
    lia.
Qed.

Lemma call_notifies_at_most (START_TIME : Z) (vars : Variables)
    (state : StoredState) (updated : bool) (id : Z) :
  (List.length
     (filter isNotifyFinished
        (snd (onStoredStateChange START_TIME vars state updated id)))
   <= List.length (announcedBy START_TIME vars state))%nat.
Proof.
  rewrite requests_of_call, !filter_app, !length_app.
  pose proof (finishedNotifications_count state
                (announcedBy START_TIME vars state)) as Hcount.
  destruct updated;
    destruct (negb (isEqual (notifications state) (notificationSettings vars)));
    destruct (enabled (notifications state));
    destruct (taskFetchFailureReason state);
    cbn [filter isNotifyFinished List.length Nat.add]; exact Hcount.
Qed.

Lemma call_records (START_TIME : Z) (vars : Variables)
    (state : StoredState) (updated : bool) (id : Z) :
  NoDup (map task_id (tasks state)) ->
  NoDup (recorded vars) ->
  NoDup (announcedBy START_TIME vars state) /\
  (forall taskId,
      In taskId (announcedBy START_TIME vars state) ->
      ~ In taskId (recorded vars) /\
      In taskId
        (recorded (fst (onStoredStateChange START_TIME vars state updated id)))) /\
  NoDup (recorded (fst (onStoredStateChange START_TIME vars state updated id))) /\
  (forall taskId,
      In taskId (recorded vars) ->
      In taskId
        (recorded (fst (onStoredStateChange START_TIME vars state updated id)))).
Proof.
  intros Htasks Hknown.
  assert (Hupdated : NoDup (updatedFinishedTaskIds state))
    by (apply kept_tasks_are_distinct; exact Htasks).
  rewrite recorded_after. unfold announcedBy, newlyFinishedTaskIds, recorded in *.
  destruct (isFreshSuccess START_TIME state).
  - destruct (finishedTaskIds vars) as [ids |].
    + split; [apply NoDup_filter; exact Hupdated |].
      split; [| split].
      * intros taskId Hin. split.
        -- apply filter_In in Hin. apply absent_spec. apply Hin.
        -- apply in_or_app. right. exact Hin.
      * apply NoDup_app; [exact Hknown | apply NoDup_filter; exact Hupdated |].
        intros a Ha Hin. apply filter_In in Hin.
        destruct Hin as (_ & Habsent). apply absent_spec in Habsent.
        contradiction.
      * intros taskId Hin. apply in_or_app. left; exact Hin.
    + split; [constructor |].
      split; [intros taskId [] |].
      split; [cbn [app]; apply NoDup_filter; exact Hupdated |].
      intros taskId [].
  - split; [constructor |].
    split; [intros taskId [] |].
    split; [exact Hknown |].
    intros taskId Hin; exact Hin.
Qed.

Lemma announced_once (START_TIME : Z) (changes : list Change) :
  forall vars,
    Forall hasDistinctTasks changes ->
    NoDup (recorded vars) ->
    NoDup (announcedDuring START_TIME vars changes) /\
    (forall taskId,
        In taskId (announcedDuring START_TIME vars changes) ->
        ~ In taskId (recorded vars)) /\
    (List.length
       (filter isNotifyFinished
          (List.concat (snd (listen START_TIME vars changes))))
     <= List.length (announcedDuring START_TIME vars changes))%nat.
Proof.
  induction changes as [| change rest IH]; intros vars Hdistinct Hknown.
  - cbn. repeat split; [constructor | intros taskId [] | lia].
  - inversion Hdistinct as [| c l Hchange Hrest]; subst.
    cbn [announcedDuring]. rewrite listen_cons. cbn [snd List.concat].
    destruct (call_records START_TIME (didUpdateSettings change) (timer change)
                Hchange Hknown) as (Hnow & Hnew & Hknown1 & Hkept).
    destruct (IH _ Hrest Hknown1) as (Hlater & Hfresh & Hcount).
    repeat split.
    + apply NoDup_app; [exact Hnow | exact Hlater |].
      intros taskId Hin Hagain.
      apply (Hfresh taskId Hagain). apply (Hnew taskId Hin).
    + intros taskId Hin Hold. apply in_app_or in Hin.
      destruct Hin as [Hin | Hin].
      * apply (Hnew taskId Hin). exact Hold.
      * apply (Hfresh taskId Hin). apply Hkept. exact Hold.
    + rewrite filter_app, !length_app.
      pose proof (call_notifies_at_most START_TIME vars (storedState change)
                    (didUpdateSettings change) (timer change)) as Hcall.
      lia.
Qed.

(** X12. Over any sequence of changes of the stored state in each of
    which the tasks have distinct identifiers, the listener of the
    background script announces no task identifier as finished twice, and
    shows at most one notification for each identifier it announces. *)
Theorem finished_tasks_are_announced_once (START_TIME : Z)
    (defaults : NotificationSettings) (changes : list Change) :
  Forall hasDistinctTasks changes ->
  NoDup (announcedDuring START_TIME (loaded defaults) changes) /\
  (List.length
     (filter isNotifyFinished
        (List.concat (snd (listen START_TIME (loaded defaults) changes))))
   <= List.length (announcedDuring START_TIME (loaded defaults) changes))%nat.
Proof.
  intros Hdistinct.
  destruct (@announced_once START_TIME changes (loaded defaults) Hdistinct)
    as (Hnodup & _ & Hcount); [constructor |].
  split; assumption.
Qed.

(** X13. A notification that a download has finished is shown only when
    notifications are enabled in the stored state, the stored state
    reports a fetch that completed after the script started and did not
    fail, a list of finished tasks has been recorded before, and the task
    named is one of the stored tasks whose identifier is not in that list
    and is that of a task that is finished or seeding. *)
Theorem finished_notification_names_a_new_task (START_TIME : Z)
    (vars : Variables) (state : StoredState) (updated : bool) (id : Z)
    (title : string) :
  In (NotifyFinished title)
     (snd (onStoredStateChange START_TIME vars state updated id)) ->
  enabled (notifications state) = true /\
  isFreshSuccess START_TIME state = true /\
  exists ids task finished,
    finishedTaskIds vars = Some ids /\
    In task (tasks state) /\ task_title task = title /\
    absent ids (task_id task) = true /\
    In finished (tasks state) /\ task_id finished = task_id task /\
    isFinished finished = true.
Proof.
  rewrite requests_of_call. intros Hin.
  assert (Hfinished :
    In (NotifyFinished title)
       (finishedNotifications state (announcedBy START_TIME vars state))).
  { repeat (apply in_app_or in Hin; destruct Hin as [Hin | Hin]);
      try exact Hin; exfalso.
    - destruct updated; cbn [In] in Hin; [destruct Hin as [Hin | []] |];
        try discriminate; contradiction.
    - destruct (negb _); [| contradiction].
      destruct Hin as [Hin | Hin]; [discriminate |].
      destruct (enabled (notifications state)); [| contradiction].
      destruct Hin as [Hin | []]; discriminate.
    - destruct (taskFetchFailureReason state);
        cbn [In] in Hin; intuition discriminate. }
  clear Hin. unfold finishedNotifications in Hfinished.
  apply in_flat_map in Hfinished. destruct Hfinished as (taskId & Hid & Hin).
  destruct (filter (fun t => String.eqb (task_id t) taskId) (tasks state))
    as [| task others] eqn:Hfirst; [contradiction |].
  destruct (enabled (notifications state)); [| contradiction].
  destruct Hin as [Hin | []]. inversion Hin; subst title; clear Hin.
  assert (Htask : In task (tasks state) /\ task_id task = taskId).
  { assert (Hmember :
      In task (filter (fun t => String.eqb (task_id t) taskId) (tasks state)))
      by (rewrite Hfirst; left; reflexivity).
    apply filter_In in Hmember. destruct Hmember as (Hmember & Heq).
    apply String.eqb_eq in Heq. split; assumption. }
  destruct Htask as (Htask & Hsame).
  unfold announcedBy in Hid.
  destruct (isFreshSuccess START_TIME state); [| contradiction].
  unfold newlyFinishedTaskIds in Hid.
  destruct (finishedTaskIds vars) as [ids |]; [| contradiction].
  apply filter_In in Hid. destruct Hid as (Hupdated & Habsent).
  unfold updatedFinishedTaskIds in Hupdated.
  apply in_map_iff in Hupdated. destruct Hupdated as (finished & Hfid & Hf).
  apply filter_In in Hf. destruct Hf as (Hf & Hdone).
  split; [reflexivity |]. split; [reflexivity |].
  exists ids, task, finished. subst taskId.
  split; [reflexivity |]. split; [exact Htask |]. split; [reflexivity |].
  split; [rewrite Hsame; exact Habsent |].
  split; [exact Hf |]. split; [symmetry; exact Hsame | exact Hdone].
Qed.

(** **** The polling interval *)

Lemma runningAfter_app (a b : list Request) :
  forall running,
    runningAfter (a ++ b) running = runningAfter b (runningAfter a running).
Proof.
  induction a as [| request a IH]; intros running; cbn [app runningAfter];
    [reflexivity |].
  destruct request as [| [id |] | delay id | | | |]; apply IH.
Qed.

Lemma runningAfter_others (requests : list Request) :
  filter isIntervalRequest requests = [] ->
  forall running, runningAfter requests running = running.
Proof.
  induction requests as [| request requests IH]; intros Hnone running;
    [reflexivity |].
  destruct request; cbn [filter isIntervalRequest] in Hnone;
    try discriminate; cbn [runningAfter]; apply IH; exact Hnone.
Qed.

Lemma finishedNotifications_others (state : StoredState) (ids : list string) :
  filter isIntervalRequest (finishedNotifications state ids) = [].
Proof.
  unfold finishedNotifications.
  induction ids as [| id ids IH]; cbn [flat_map]; [reflexivity |].
  rewrite filter_app, IH, app_nil_r.
  destruct (filter (fun t => String.eqb (task_id t) id) (tasks state));
    [| destruct (enabled (notifications state))]; reflexivity.
Qed.

Lemma call_keeps_oneInterval (START_TIME : Z) (vars : Variables)
    (state : StoredState) (updated : bool) (id : Z) (running : list (Z * Z)) :
  oneInterval vars running ->
  oneInterval (fst (onStoredStateChange START_TIME vars state updated id))
    (runningAfter (snd (onStoredStateChange START_TIME vars state updated id))
       running).
Proof.
  intros Hone.
  rewrite requests_of_call, !runningAfter_app.
  rewrite (runningAfter_others (finishedNotifications_others _ _)).
  assert (Hbadge : forall r,
    runningAfter
      match taskFetchFailureReason state with
      | Some _ =>
          [ SetIcon true; SetBadgeText "";
            SetBadgeBackgroundColor [217; 0; 0; 255] ]
      | None =>
          [ SetIcon false;
            SetBadgeText
              (match tasks state with
               | [] => ""
               | _ :: _ => MultiAdd.decimal (List.length (tasks state))
               end);
            SetBadgeBackgroundColor [0; 217; 0; 255] ]
      end r = r).
  { intros r. destruct (taskFetchFailureReason state); reflexivity. }
  rewrite Hbadge.
  assert (Hsettings : forall r,
    runningAfter (if updated then [ClearCachedTasksThenPoll] else []) r = r).
  { intros r. destruct updated; reflexivity. }
  rewrite Hsettings.
  unfold onStoredStateChange. cbn [fst].
  unfold oneInterval in *.
  cbn [notificationInterval notificationSettings].
  destruct (negb (isEqual (notifications state) (notificationSettings vars)));
    cbn [andb runningAfter]; [| exact Hone].
  assert (Hcleared :
    match notificationInterval vars with
    | Some old => filter (fun r => negb (fst r =? old)) running
    | None => running
    end = []).
  { destruct running as [| [old delay] [| second others]];
      [destruct (notificationInterval vars); reflexivity | | contradiction].
    destruct Hone as (Hold & _). rewrite Hold.
    cbn [filter fst]. rewrite Z.eqb_refl. reflexivity. }
  destruct (enabled (notifications state)) eqn:Hon.
  - destruct (notificationInterval vars) as [old |]; cbn [runningAfter];
      rewrite Hcleared; cbn [app]; repeat split; exact Hon.
  - destruct (notificationInterval vars) as [old |]; cbn [runningAfter];
      rewrite Hcleared; exact I.
Qed.

(** X14. Over any sequence of changes of the stored state, at most one
    polling interval set by the background script runs at a time; when
    one runs, it is the one the script remembers, notifications are
    enabled in the settings it remembers, and its delay is their polling
    interval in milliseconds. *)
Theorem one_polling_interval_at_a_time (START_TIME : Z)
    (defaults : NotificationSettings) (changes : list Change) :
  oneInterval (fst (listen START_TIME (loaded defaults) changes))
    (runningAfter (List.concat (snd (listen START_TIME (loaded defaults) changes)))
       []).
Proof.
  assert (Hany : forall vars running,
    oneInterval vars running ->
    oneInterval (fst (listen START_TIME vars changes))
      (runningAfter (List.concat (snd (listen START_TIME vars changes))) running)).
  { induction changes as [| change rest IH]; intros vars running Hone.
    - exact Hone.
    - rewrite listen_cons. cbn [fst snd List.concat].
      rewrite runningAfter_app. apply IH.
      apply call_keeps_oneInterval. exact Hone. }
  apply Hany. exact I.
Qed.

(** X15. As long as the notification settings of the stored state are the
    ones the script started with, the script neither sets nor clears a
    polling interval, whether they enable notifications or not. *)
Theorem no_interval_while_settings_are_the_defaults (START_TIME : Z)
    (defaults : NotificationSettings) (changes : list Change) :
  Forall (fun change => notifications (storedState change) = defaults) changes ->
  filter isIntervalRequest
    (List.concat (snd (listen START_TIME (loaded defaults) changes))) = [].
Proof.
  assert (Hany : forall vars,
    notificationSettings vars = defaults ->
    Forall (fun change => notifications (storedState change) = defaults)
      changes ->
    filter isIntervalRequest
      (List.concat (snd (listen START_TIME vars changes))) = []).
  { induction changes as [| change rest IH]; intros vars Hvars Hsame.
    - reflexivity.
    - inversion Hsame as [| c l Hchange Hrest]; subst.
      rewrite listen_cons. cbn [snd List.concat].
      rewrite filter_app, IH; [| | exact Hrest].
      + rewrite app_nil_r, requests_of_call, !filter_app.
        rewrite finishedNotifications_others, Hchange, isEqual_refl.
        destruct (didUpdateSettings change);
          destruct (taskFetchFailureReason (storedState change)); reflexivity.
      + unfold onStoredStateChange. cbn [fst notificationSettings].
        rewrite Hchange, isEqual_refl. reflexivity. }
  intros Hsame. apply Hany; [reflexivity | exact Hsame].
Qed.

End BackgroundFacts.

Lemma finished_tasks_are_announced_once_witness :
  NoDup (BackgroundTerms.announcedDuring 100
           (Background.loaded MoreRuns.notifying) MoreRuns.taskFinishes) /\
  (List.length
     (filter BackgroundTerms.isNotifyFinished
        (List.concat (snd (Background.listen 100
                        (Background.loaded MoreRuns.notifying)
                        MoreRuns.taskFinishes))))
   <= List.length
        (BackgroundTerms.announcedDuring 100
           (Background.loaded MoreRuns.notifying) MoreRuns.taskFinishes))%nat.
Proof.
  apply (@BackgroundFacts.finished_tasks_are_announced_once 100
           MoreRuns.notifying MoreRuns.taskFinishes).
  repeat constructor; intros [].
Defined.

Lemma finished_notification_names_a_new_task_witness :
  Background.enabled
    (Background.notifications
       (MoreRuns.stateWith [MoreRuns.finishedTask] MoreRuns.notifying)) = true /\
  Background.isFreshSuccess 100
    (MoreRuns.stateWith [MoreRuns.finishedTask] MoreRuns.notifying) = true /\
  exists ids task finished,
    Background.finishedTaskIds MoreRuns.sawDownloading = Some ids /\
    In task (Background.tasks
               (MoreRuns.stateWith [MoreRuns.finishedTask] MoreRuns.notifying)) /\
    task_title task = "ubuntu.iso" /\
    Background.absent ids (task_id task) = true /\
    In finished
       (Background.tasks
          (MoreRuns.stateWith [MoreRuns.finishedTask] MoreRuns.notifying)) /\
    task_id finished = task_id task /\
    Background.isFinished finished = true.
Proof.
  apply (@BackgroundFacts.finished_notification_names_a_new_task 100
           MoreRuns.sawDownloading
           (MoreRuns.stateWith [MoreRuns.finishedTask] MoreRuns.notifying)
           false 8 "ubuntu.iso").
  vm_compute. do 3 right. left. reflexivity.
Defined.

Lemma no_interval_while_settings_are_the_defaults_witness :
  filter BackgroundTerms.isIntervalRequest
    (List.concat (snd (Background.listen 100
                    (Background.loaded MoreRuns.notifying)
                    MoreRuns.taskFinishes))) = [].
Proof.
  apply (@BackgroundFacts.no_interval_while_settings_are_the_defaults 100
           MoreRuns.notifying MoreRuns.taskFinishes).
  repeat constructor.
Defined.

(** *** The context menu *)

Section ContextMenu.
Context `{Collaborators}.
Variable getMessage : string -> string.
Variables (S : Type) (h : Handler S).

(** X16. A selection is tested after trimming and submitted as it was
    selected: selected text that starts with a downloadable protocol only
    once the white space around it is removed passes the test of the
    context menu and is then refused by the submission flow, which makes
    no request for it and closes its announcement with the failure
    notification that names the protocols. *)
Theorem selection_is_submitted_untrimmed (data : Background.OnClickData)
    (text : string) (s : S) :
  Actions.isNonEmpty (Background.linkUrl data) = false ->
  Actions.isNonEmpty (Background.srcUrl data) = false ->
  Background.selectionText data = Some text ->
  text <> "" ->
  Protocols.startsWithAnyProtocol (Background.trim text)
    ALL_DOWNLOADABLE_PROTOCOLS = true ->
  Protocols.startsWithAnyProtocol text AUTO_DOWNLOAD_TORRENT_FILE_PROTOCOLS =
    false ->
  Protocols.startsWithAnyProtocol text ALL_DOWNLOADABLE_PROTOCOLS = false ->
  let tr := trace h (Background.onclick getMessage data) s in
  collect taskCreateRequest tr = [] /\
  collect notification tr =
    [ addingDownload text;
      {| n_title := "Failed to add download";
         n_message := Some ("URL must start with one of " ++
                            Js.join ", " ALL_DOWNLOADABLE_PROTOCOLS);
         n_kind := Some "failure";
         n_replaces :=
           Some (fst (handle h
                        (Notify "Adding download..." (Some text) None None)
                        s)) |} ].
Proof.
  intros Hlink Hsrc Hselection Htext Htrimmed Hauto Hall.
  unfold Background.onclick.
  rewrite Hlink, Hsrc, Hselection.
  assert (Hsome : Actions.isNonEmpty (Some text) = true)
    by (destruct text; [congruence | reflexivity]).
  rewrite Hsome. cbv zeta. rewrite Htrimmed.
  apply addDownloadTaskAndPoll_rejects_unknown_protocol; assumption.
Qed.

End ContextMenu.

Lemma selection_is_submitted_untrimmed_witness :
  let tr :=
    trace scripted
      (@Background.onclick sampleCollaborators (fun key => key)
         MoreRuns.selectedLink)
      emptyScript in
  collect taskCreateRequest tr = [] /\
  collect notification tr =
    [ addingDownload " magnet:?xt=urn:btih:c12f";
      {| n_title := "Failed to add download";
         n_message :=
           Some ("URL must start with one of " ++
                 Js.join ", " (@ALL_DOWNLOADABLE_PROTOCOLS sampleCollaborators));
         n_kind := Some "failure";
         n_replaces :=
           Some (fst (handle scripted
                        (Notify "Adding download..."
                           (Some " magnet:?xt=urn:btih:c12f") None None)
                        emptyScript)) |} ].
Proof.
  apply (@selection_is_submitted_untrimmed sampleCollaborators (fun key => key)
           Script scripted MoreRuns.selectedLink " magnet:?xt=urn:btih:c12f"
           emptyScript).
  - reflexivity.
  - reflexivity.
  - reflexivity.
  - discriminate.
  - reflexivity.
  - reflexivity.
  - reflexivity.
Defined.

(** *** The first submission flow *)

Section FirstFlow.
Context `{Collaborators}.
Variables (S : Type) (h : Handler S).

(** X17. The first revision takes a URL only when a protocol is followed
    by a colon and two slashes: a magnet link, which has no slashes after
    its colon and which the later revision lets through, is answered by
    the notification that the URL must start with one of the protocols,
    magnet among them, and nothing is submitted. *)
Theorem first_revision_refuses_magnet_links (rest : string) (s : S) :
  Js.startsWith rest "//" = false ->
  let tr := trace h (FirstSubmission.addDownloadTask ("magnet:" ++ rest)) s in
  collect notification tr =
    [addingDownload ("magnet:" ++ rest); firstRevisionRefusal] /\
  collect taskCreateRequest tr = [] /\
  MultiAdd.startsWithAnyProtocol ("magnet:" ++ rest)
    MultiAdd.DOWNLOADABLE_PROTOCOLS = true.
Proof.
  intros Hrest tr; subst tr.
  assert (Hauto :
    FirstSubmission.startsWithAnyProtocol ("magnet:" ++ rest)
      FirstSubmission.AUTO_DOWNLOAD_TORRENT_FILE_PROTOCOLS = false)
    by reflexivity.
  assert (Hall :
    FirstSubmission.startsWithAnyProtocol ("magnet:" ++ rest)
      FirstSubmission.DOWNLOADABLE_PROTOCOLS = false).
  { unfold FirstSubmission.startsWithAnyProtocol,
      FirstSubmission.DOWNLOADABLE_PROTOCOLS.
    cbn [existsb append Js.startsWith Ascii.eqb Bool.eqb andb orb].
    rewrite Hrest. reflexivity. }
  unfold FirstSubmission.addDownloadTask.
  rewrite trace_bind_trigger.
  rewrite Hauto, Hall.
  change (negb (String.eqb ("magnet:" ++ rest) "")) with true.
  cbv iota. unfold trace. cbn [bind trigger exec].
  destruct (handle h (Notify "Failed to add download" _ _ _) _) as [x s1].
  cbn [snd collect notification taskCreateRequest].
  repeat split.
  unfold MultiAdd.startsWithAnyProtocol, MultiAdd.DOWNLOADABLE_PROTOCOLS.
  cbn [existsb append Js.startsWith Ascii.eqb Bool.eqb andb orb].
  rewrite startsWith_empty. reflexivity.
Qed.

(** X18. The first revision has no handler for a failed look at the URL:
    when the HEAD request for a URL that is looked at first is rejected,
    its promise is rejected with the same reason, nothing is submitted,
    and the announcement is the only notification. *)
Theorem first_revision_leaves_a_failed_look_unreported (url id : string)
    (e : Js.Value) (s s0 s1 : S) :
  url <> "" ->
  FirstSubmission.startsWithAnyProtocol url
    FirstSubmission.AUTO_DOWNLOAD_TORRENT_FILE_PROTOCOLS = true ->
  handle h (Notify "Adding download..." (Some url) None None) s = (id, s0) ->
  handle h (AxiosHead url 10000) s0 = (RejectedWith e, s1) ->
  exec h (FirstSubmission.addDownloadTask url) s =
    (RejectedWith e, s1,
     [ Observed (Notify "Adding download..." (Some url) None None) id;
       Observed (AxiosHead url 10000) (RejectedWith e) ]).
Proof.
  intros Hurl Hauto Hid Hhead.
  apply String.eqb_neq in Hurl.
  unfold FirstSubmission.addDownloadTask.
  rewrite exec_bind, exec_trigger, Hid. cbn [fst snd].
  rewrite Hurl, Hauto. cbn [negb].
  rewrite !exec_andThen, exec_trigger, Hhead. reflexivity.
Qed.

End FirstFlow.

Lemma first_revision_refuses_magnet_links_witness :
  let tr :=
    trace scripted
      (@FirstSubmission.addDownloadTask sampleCollaborators
         ("magnet:" ++ "?xt=urn:btih:c12f"))
      emptyScript in
  collect notification tr =
    [addingDownload ("magnet:" ++ "?xt=urn:btih:c12f"); firstRevisionRefusal] /\
  collect taskCreateRequest tr = [] /\
  MultiAdd.startsWithAnyProtocol ("magnet:" ++ "?xt=urn:btih:c12f")
    MultiAdd.DOWNLOADABLE_PROTOCOLS = true.
Proof.
  apply (@first_revision_refuses_magnet_links sampleCollaborators Script
           scripted "?xt=urn:btih:c12f" emptyScript).
  reflexivity.
Defined.

Lemma first_revision_leaves_a_failed_look_unreported_witness :
  exec scripted
    (@FirstSubmission.addDownloadTask sampleCollaborators
       "http://example.com/a.torrent")
    emptyScript =
    (RejectedWith networkError,
     snd (handle scripted (AxiosHead "http://example.com/a.torrent" 10000)
            (snd (handle scripted
                    (Notify "Adding download..."
                       (Some "http://example.com/a.torrent") None None)
                    emptyScript))),
     [ Observed
         (Notify "Adding download..." (Some "http://example.com/a.torrent")
            None None)
         (fst (handle scripted
                 (Notify "Adding download..."
                    (Some "http://example.com/a.torrent") None None)
                 emptyScript));
       Observed (AxiosHead "http://example.com/a.torrent" 10000)
         (RejectedWith networkError) ]).
Proof.
  apply (@first_revision_leaves_a_failed_look_unreported sampleCollaborators
           Script scripted "http://example.com/a.torrent"
           (fst (handle scripted
                   (Notify "Adding download..."
                      (Some "http://example.com/a.torrent") None None)
                   emptyScript))
           networkError emptyScript
           (snd (handle scripted
                   (Notify "Adding download..."
                      (Some "http://example.com/a.torrent") None None)
                   emptyScript))).
  - discriminate.
  - reflexivity.
  - reflexivity.
  - reflexivity.
Defined.

(** *** What a poll leaves in the cache *)

Lemma areaAfter_app (t1 t2 : list Obs) (area : Cache.CachedTasks) :
  Cache.areaAfter (t1 ++ t2) area = Cache.areaAfter t2 (Cache.areaAfter t1 area).
Proof.
  unfold Cache.areaAfter. rewrite collect_app, fold_left_app. reflexivity.
Qed.

Ltac settle_keptOrFetched :=
  unfold keptOrFetched, Cache.areaAfter; cbn;
  first
    [ left; reflexivity
    | right; eexists;
      split; [reflexivity |];
      split; [reflexivity |];
      split; [reflexivity |];
      eexists; reflexivity ].

Section CacheAfterPoll.
Context `{Collaborators}.
Variables (S : Type) (h : Handler S).

Lemma pollTasks_keptOrFetched (s : S) (area : Cache.CachedTasks) :
  keptOrFetched (trace h Actions.pollTasks s) area
    (Cache.areaAfter (trace h Actions.pollTasks s) area).
Proof.
  unfold trace, Actions.pollTasks, Actions.doTaskPoll,
    Actions.wrapInNoPermissionsRetry, promiseAll2, andThen, orCatch.
  cbn [bind trigger exec].
  destruct (handle h DateNow s) as [started s0].
  destruct (handle h (StorageLocalSet _) s0) as [[[] | e1] s1];
    destruct (handle h (TaskList Actions.taskListRequest) s1)
      as [[[failure | [fetched | code]] | e2] s2];
    cbn [bind trigger exec Actions.isPermissionFailure snd];
    try destruct (String.eqb (cf_type failure) "missing-config") eqn:Hcfg;
    try destruct (code =? Actions.NO_PERMISSIONS_ERROR_CODE);
    cbn [bind trigger exec Actions.isPermissionFailure snd];
    repeat match goal with
      | |- context [handle h AuthLogout ?st] =>
          destruct (handle h AuthLogout st) as [[] ?]
      | |- context [handle h (TaskList Actions.taskListRequest) ?st] =>
          destruct (handle h (TaskList Actions.taskListRequest) st)
            as [[[failure' | [fetched' | code']] | e3] ?];
          cbn [bind trigger exec snd]
      | |- context [String.eqb (cf_type ?f) "missing-config"] =>
          destruct (String.eqb (cf_type f) "missing-config") eqn:?;
          cbn [bind trigger exec snd]
      | |- context [handle h SettledFirst ?st] =>
          destruct (handle h SettledFirst st) as [? ?]
      | |- context [handle h DateNow ?st] =>
          destruct (handle h DateNow st) as [? ?]
      | |- context [handle h (StorageLocalSet ?items) ?st] =>
          destruct (handle h (StorageLocalSet items) st) as [[[] | ?] ?]
      end;
    settle_keptOrFetched.
Qed.

Lemma firstPollTasks_keptOrFetched (s : S) (area : Cache.CachedTasks) :
  keptOrFetched (trace h ActionsV1.pollTasks s) area
    (Cache.areaAfter (trace h ActionsV1.pollTasks s) area).
Proof.
  unfold trace, ActionsV1.pollTasks, ActionsV1.fetchAndCache,
    ActionsV1.cacheFailure, promiseAll2, andThen, orCatch.
  cbn [bind trigger exec].
  destruct (handle h DateNow s) as [started s0].
  destruct (handle h (StorageLocalSet _) s0) as [[[] | e1] s1];
    destruct (handle h (TaskList _) s1)
      as [[[failure | [fetched | code]] | e2] s2];
    cbn [bind trigger exec snd];
    try destruct (String.eqb (cf_type failure) "missing-config") eqn:Hcfg;
    repeat match goal with
      | |- context [handle h SettledFirst ?st] =>
          destruct (handle h SettledFirst st) as [? ?];
          cbn [bind trigger exec snd]
      | |- context [handle h DateNow ?st] =>
          destruct (handle h DateNow st) as [? ?];
          cbn [bind trigger exec snd]
      | |- context [handle h (StorageLocalSet ?items) ?st] =>
          destruct (handle h (StorageLocalSet items) st) as [[[] | ?] ?];
          cbn [bind trigger exec snd]
      end;
    settle_keptOrFetched.
Qed.

(** X19. In both revisions a poll replaces the cached task list only by
    the list of the successful response it ended with, which it stores
    with a cleared failure reason and the time of completion: whatever
    else happens (a connection failure, an unsuccessful response, a
    rejected request or a rejected write), the task list that was cached
    stays as it was. *)
Theorem poll_keeps_the_tasks_unless_it_fetched_them (s : S)
    (area : Cache.CachedTasks) :
  keptOrFetched (trace h Actions.pollTasks s) area
    (Cache.areaAfter (trace h Actions.pollTasks s) area) /\
  keptOrFetched (trace h ActionsV1.pollTasks s) area
    (Cache.areaAfter (trace h ActionsV1.pollTasks s) area).
Proof.
  split; [apply pollTasks_keptOrFetched | apply firstPollTasks_keptOrFetched].
Qed.

(** X20. What the background script does when the connection settings
    have changed: once the write that clears the cache is fulfilled, the
    task list in the cache is empty or the one fetched by the poll that
    follows, never the list cached before; and when that write is
    rejected the task list is not asked for. *)
Theorem changed_settings_clear_the_cached_tasks (s : S)
    (area : Cache.CachedTasks) :
  let tr := trace h Cache.clearThenPoll s in
  let after := Cache.areaAfter tr area in
  match hd_error (collect storageAnswer tr) with
  | Some (Fulfilled _) =>
      Cache.stored_tasks after = [] \/
      exists fetched,
        last (collect taskListAnswer tr) (RejectedWith Js.Undefined) =
          Fulfilled (Responded (Success fetched)) /\
        Cache.stored_tasks after = fetched
  | _ => collect taskListAnswer tr = [] /\ after = area
  end.
Proof.
  intros tr after; subst tr after.
  unfold trace, Cache.clearThenPoll, Cache.clearCachedTasks.
  rewrite exec_andThen, exec_trigger.
  destruct (handle h (StorageLocalSet _) s) as [[[] | e] s0]; cbn [fst snd].
  - rewrite exec_bind.
    pose proof (pollTasks_keptOrFetched s0) as Hpoll. unfold trace in Hpoll.
    destruct (exec h Actions.pollTasks s0) as [[r s1] t1].
    cbn [exec snd app collect storageAnswer hd_error taskListAnswer] in *.
    rewrite app_nil_r.
    change (Observed (StorageLocalSet ?items) ?x :: t1)
      with ([Observed (StorageLocalSet items) x] ++ t1)%list.
    rewrite areaAfter_app.
    match goal with
    | |- context [Cache.areaAfter t1 ?cleared] =>
        destruct (Hpoll cleared)
          as [Hkept | (fetched & Hlast & Hfetched & _)]
    end.
    + left. rewrite Hkept. reflexivity.
    + right. exists fetched. split; assumption.
  - cbn. split; reflexivity.
Qed.

End CacheAfterPoll.

(** *** Naming the file that was fetched *)

(** X21. When the [content-disposition] header of the response has a
    quoted [filename] as its first [filename=], the fetched file is named
    by what is between the quotes, with the extension of the metadata
    file type appended unless the name ends with it; the URL plays no
    part. *)
Theorem quoted_filename_names_the_file (urlWithoutQuery : string)
    (headers : list (string * string))
    (metadataFileType : Actions.MetadataFileType)
    (before name after : string) :
  header headers "content-disposition" =
    Some (before ++ "filename=" ++
          String Actions.doubleQuote (name ++ String Actions.doubleQuote after)) ->
  name <> "" ->
  Js.indexOf name (String Actions.doubleQuote "") = -1 ->
  Js.indexOf
    (before ++ "filename=" ++
     String Actions.doubleQuote (name ++ String Actions.doubleQuote after))
    "filename=" = Js.len before ->
  Actions.guessTorrentFileName urlWithoutQuery headers metadataFileType =
    withExtension name (Actions.extension metadataFileType).
Proof.
  intros Hheader Hname Hquote Hfirst.
  unfold Actions.guessTorrentFileName. rewrite Hheader.
  rewrite (quoted_filename_is_captured Hname Hquote Hfirst), Hfirst.
  assert (Hnonempty :
    Actions.isNonEmpty
      (Some (before ++ "filename=" ++
             String Actions.doubleQuote
               (name ++ String Actions.doubleQuote after))) = true)
    by (destruct before; reflexivity).
  rewrite Hnonempty.
  assert (Hfound : (Js.len before =? -1) = false)
    by (apply Z.eqb_neq; unfold Js.len; lia).
  rewrite Hfound. cbn [negb andb Actions.group2 Actions.group3].
  destruct name as [| c name]; [congruence |].
  cbn [Actions.orElse].
  assert (Hlen : (Js.len (String c name) =? 0) = false)
    by (apply Z.eqb_neq; unfold Js.len; cbn [String.length]; lia).
  rewrite Hlen. reflexivity.
Qed.

(** X22. Without a [content-disposition] header the fetched file is named
    by what follows the last slash of the URL, or [download] when nothing
    follows it, with the extension of the metadata file type appended
    unless the name ends with it. *)
Theorem last_segment_names_the_file (dir segment : string)
    (headers : list (string * string))
    (metadataFileType : Actions.MetadataFileType) :
  header headers "content-disposition" = None ->
  Js.indexOf segment "/" = -1 ->
  Actions.guessTorrentFileName (dir ++ "/" ++ segment) headers
    metadataFileType =
    withExtension (orDownload (Some segment))
      (Actions.extension metadataFileType).
Proof.
  intros Hheader Hsegment.
  unfold Actions.guessTorrentFileName. rewrite Hheader.
  cbn [Actions.isNonEmpty andb].
  change (Js.sliceFrom (dir ++ "/" ++ segment)
            (Js.lastIndexOf (dir ++ "/" ++ segment) "/" + 1))
    with (finalSegment (dir ++ "/" ++ segment)).
  rewrite (finalSegment_after_last_slash dir Hsegment).
  destruct segment as [| c segment]; [reflexivity |].
  assert (Hlen : (Js.len (String c segment) =? 0) = false)
    by (apply Z.eqb_neq; unfold Js.len; cbn [String.length]; lia).
  rewrite Hlen. reflexivity.
Qed.

Lemma quoted_filename_names_the_file_witness :
  Actions.guessTorrentFileName "http://example.com/get"
    [("content-disposition",
      "attachment; " ++ "filename=" ++
      String Actions.doubleQuote
        ("ubuntu.iso" ++ String Actions.doubleQuote "; size=3"))]
    {| Actions.mediaType := "application/x-bittorrent";
       Actions.extension := ".torrent" |} =
    withExtension "ubuntu.iso" ".torrent".
Proof.
  apply (@quoted_filename_names_the_file "http://example.com/get"
           [("content-disposition",
             "attachment; " ++ "filename=" ++
             String Actions.doubleQuote
               ("ubuntu.iso" ++ String Actions.doubleQuote "; size=3"))]
           {| Actions.mediaType := "application/x-bittorrent";
              Actions.extension := ".torrent" |}
           "attachment; " "ubuntu.iso" "; size=3").
  - reflexivity.
  - discriminate.
  - reflexivity.
  - reflexivity.
Defined.

Lemma last_segment_names_the_file_witness :
  Actions.guessTorrentFileName ("http://example.com/files" ++ "/" ++ "a.torrent")
    []
    {| Actions.mediaType := "application/x-bittorrent";
       Actions.extension := ".torrent" |} =
    withExtension (orDownload (Some "a.torrent")) ".torrent".
Proof.
  apply (@last_segment_names_the_file "http://example.com/files" "a.torrent" []
           {| Actions.mediaType := "application/x-bittorrent";
              Actions.extension := ".torrent" |}).
  - reflexivity.
  - reflexivity.
Defined.

(** *** The single-URL flow reports once *)

Section SingleFlow.
Context `{Collaborators}.
Variables (S : Type) (h : Handler S).

(** X23. Whatever is asked of the single-URL flow and whatever the
    environment answers, the user is shown exactly two notifications: the
    announcement and one that closes it as a success or as a failure, a
    success exactly when the last answer to the [Task.Create] request was
    a successful response. *)
Theorem single_url_flow_closes_its_announcement (url : string)
    (path : option string) (s : S) :
  let tr := trace h (Actions.addDownloadTaskAndPoll url path) s in
  exists closing,
    collect notification tr = [addingDownload url; closing] /\
    isTerminal closing /\
    (n_kind closing = Some "success" <-> succeeded tr = true).
Proof.
  apply addDownloadTaskAndPoll_notifies_once.
Qed.

End SingleFlow.

(** *** The poller's timers *)

Module PollerTimers.
Import TaskPoller PollerTerms.

Lemma adds_nothing (w w' : World) :
  calls w' = calls w -> setsTimersFor w w'.
Proof.
  intros Hsame. exists []. rewrite app_nil_r.
  split; [exact Hsame | intros count delay []].
Qed.

Lemma adds_other (w : World) (c : Call) (p : Pending) :
  (forall count delay, c <> CallSetTimeout count delay) ->
  setsTimersFor w (issue w c p).
Proof.
  intros Hother. exists [c]. split; [reflexivity |].
  intros count delay [Heq | []]. exfalso. exact (Hother count delay Heq).
Qed.

Lemma tryPoll_sets_no_timer (w : World) : setsTimersFor w (tryPoll w).
Proof.
  unfold tryPoll. cbn [settings pending calls].
  destruct (enabled (settings w)); [| apply adds_nothing; reflexivity].
  destruct (sid (settings w)) as [session |];
    [| apply adds_nothing; reflexivity].
  destruct (truthyString (hostname (settings w)) && truthyString session);
    [| apply adds_nothing; reflexivity].
  exists [CallTaskList (tryPollCount w + 1) (hostname (settings w)) session
            {| offset := 0; limit := -1; additional := ["transfer"];
               list_timeout := None |}].
  split; [reflexivity |].
  intros count delay [Heq | []]. discriminate.
Qed.

Section WithCollaborators.
Context `{Collaborators}.

Lemma afterPoll_sets_timer (count : Z) (w : World) :
  setsTimersFor w (afterPoll count w).
Proof.
  unfold afterPoll.
  destruct (enabled (settings w)) eqn:Hon; [| apply adds_nothing; reflexivity].
  exists [CallSetTimeout count (interval (settings w) * 1000)].
  split; [reflexivity |].
  intros c d [Heq | []]. inversion Heq; subst.
  cbn [issue settings pending].
  repeat split; [exact Hon |].
  apply in_or_app. right. left. reflexivity.
Qed.

Lemma onError_sets_timer (count : Z) (error : Js.Value) (now : Z)
    (w : World) :
  setsTimersFor w (onError count error now w).
Proof.
  unfold onError.
  destruct (enabled (settings w)); [| apply afterPoll_sets_timer].
  apply adds_other. intros c d. discriminate.
Qed.

Lemma onResponse_sets_timer (count : Z)
    (response : SynologyResponse (list DownloadStationTask)) (now : Z)
    (w : World) :
  setsTimersFor w (onResponse count response now w).
Proof.
  unfold onResponse.
  destruct (enabled (settings w)); [| apply afterPoll_sets_timer].
  apply adds_other. intros c d. discriminate.
Qed.

(** X24. In every turn of a poller, a timer is set only when the poller
    is enabled, always for the interval of its current settings in
    milliseconds, and the timer that was set is then among its pending
    items. *)
Theorem timers_are_set_for_the_current_interval (w w' : World)
    (input : Input) :
  step w input = Some w' ->
  setsTimersFor w w'.
Proof.
  intros Hstep.
  destruct input as [given | i outcome now | i outcome now | i now | i];
    cbn [step] in Hstep.
  - inversion Hstep; subst; clear Hstep. unfold updateSettings.
    destruct (negb _); [| apply adds_nothing; reflexivity].
    apply (tryPoll_sets_no_timer
             {| tryPollCount := tryPollCount w;
                settings := spreadSettings (settings w) given;
                pending := pending w; calls := calls w |}).
  - destruct (nth_error (pending w) i) as [[count | | |] |]; try discriminate.
    inversion Hstep; subst; clear Hstep.
    destruct outcome;
      [apply (onResponse_sets_timer count _ now
                (setPending w (removeNth i (pending w))))
      | apply (onError_sets_timer count _ now
                 (setPending w (removeNth i (pending w))))].
  - destruct (nth_error (pending w) i) as [[| count origin | |] |];
      try discriminate.
    inversion Hstep; subst; clear Hstep.
    destruct outcome;
      [apply (afterPoll_sets_timer count
                (setPending w (removeNth i (pending w)))) |].
    destruct origin;
      [apply (onError_sets_timer count _ now
                (setPending w (removeNth i (pending w))))
      | apply adds_nothing; reflexivity
      | apply adds_nothing; reflexivity].
  - destruct (nth_error (pending w) i) as [[| | count |] |]; try discriminate.
    inversion Hstep; subst; clear Hstep.
    apply (@adds_other (setPending w (removeNth i (pending w)))).
    intros c d. discriminate.
  - destruct (nth_error (pending w) i) as [[| | | count delay] |];
      try discriminate.
    inversion Hstep; subst; clear Hstep.
    destruct (count =? _);
      [apply (tryPoll_sets_no_timer (setPending w (removeNth i (pending w))))
      | apply adds_nothing; reflexivity].
Qed.

(** X25. A rejected cache write of a failure message ends the polling:
    when the only pending item of a poller is the write of the message of
    a failed request or of missing settings and that write is rejected,
    the poller makes no call, keeps nothing pending, and does nothing
    more until [updateSettings] is called, although its settings are as
    they were. *)
Theorem rejected_failure_write_stops_the_poller (w : World) (count now : Z)
    (origin : WriteOrigin) (e : Js.Value) :
  pending w = [AwaitingWrite count origin] ->
  origin <> FromResponse ->
  exists w',
    step w (WriteSettled 0 (RejectedWith e) now) = Some w' /\
    settings w' = settings w /\ calls w' = calls w /\ pending w' = [] /\
    forall input, isUpdate input = false -> step w' input = None.
Proof.
  intros Hpending Horigin.
  exists (setPending w []).
  split.
  - cbn [step]. rewrite Hpending. cbn [nth_error removeNth].
    destruct origin; [congruence | reflexivity | reflexivity].
  - repeat split.
    intros input Hinput.
    destruct input as [given | i outcome t | i outcome t | i t | i];
      cbn [isUpdate] in Hinput; [discriminate | | | |];
      cbn [step setPending pending]; destruct i; reflexivity.
Qed.

End WithCollaborators.
End PollerTimers.

Lemma timers_are_set_for_the_current_interval_witness :
  PollerTerms.setsTimersFor MoreRuns.answered
    (match @TaskPoller.step sampleCollaborators MoreRuns.answered
             (TaskPoller.WriteSettled 0 (Fulfilled tt) 101) with
     | Some w => w
     | None => MoreRuns.answered
     end).
Proof.
  apply (@PollerTimers.timers_are_set_for_the_current_interval
           sampleCollaborators MoreRuns.answered _
           (TaskPoller.WriteSettled 0 (Fulfilled tt) 101)).
  vm_compute; reflexivity.
Defined.

Lemma rejected_failure_write_stops_the_poller_witness :
  exists w',
    @TaskPoller.step sampleCollaborators MoreRuns.reportingFailure
      (TaskPoller.WriteSettled 0 (RejectedWith networkError) 101) = Some w' /\
    TaskPoller.settings w' = TaskPoller.settings MoreRuns.reportingFailure /\
    TaskPoller.calls w' = TaskPoller.calls MoreRuns.reportingFailure /\
    TaskPoller.pending w' = [] /\
    forall input,
      PollerTerms.isUpdate input = false ->
      @TaskPoller.step sampleCollaborators w' input = None.
Proof.
  apply (@PollerTimers.rejected_failure_write_stops_the_poller
           sampleCollaborators MoreRuns.reportingFailure 1 101
           TaskPoller.FromError networkError).
  - vm_compute; reflexivity.
  - discriminate.
Defined.

(** *** What the flows fetch and submit *)

Section GivenOnly.
Context `{Collaborators}.
Variables (S : Type) (h : Handler S).

Lemma chain_submits (s1 : S) (options : TaskCreateRequest)
    (notificationId url : string) (filename : option string) :
  let tr :=
    trace h (andThen
               (andThen (Actions.doCreateTask options)
                  (Actions.notifyTaskAddResult notificationId url filename))
               Actions.pollOnResponse) s1 in
  collect axiosGetUrl tr = [] /\
  forall request, In request (collect taskCreateRequest tr) -> request = options.
Proof.
  intros tr.
  destruct (chain_requests h s1 options notificationId url filename)
    as (Hrequests & Hgets).
  fold tr in Hrequests, Hgets.
  split; [exact Hgets |].
  intros request Hin.
  destruct Hrequests as [Hone | Htwo]; [rewrite Hone in Hin | rewrite Htwo in Hin];
    cbn [In] in Hin; intuition congruence.
Qed.

(** X26. Whatever URL and path the single-URL flow is given and whatever
    the environment answers, the only URL it fetches with a GET request is
    the one it was given, at most once, and every [Task.Create] request it
    makes carries the destination derived from the path and either that
    URL alone or, after the GET request, one file and no URL. *)
Theorem single_url_flow_submits_what_it_was_given (url : string)
    (path : option string) (s : S) :
  let tr := trace h (Actions.addDownloadTaskAndPoll url path) s in
  submitsOnlyGiven url path (collect axiosGetUrl tr)
    (collect taskCreateRequest tr).
Proof.
  intros tr; subst tr.
  unfold Actions.addDownloadTaskAndPoll.
  rewrite trace_bind_trigger.
  set (id := fst (handle h (Notify "Adding download..." (Some url) None None) s)).
  set (s0 := snd (handle h (Notify "Adding download..." (Some url) None None) s)).
  cbv zeta. cbn [collect axiosGetUrl taskCreateRequest].
  assert (Hnothing : submitsOnlyGiven url path [] []).
  { split; [left; reflexivity | intros request []]. }
  assert (Hnotice :
    forall title message kind replaced,
      submitsOnlyGiven url path
        (collect axiosGetUrl
           (trace h (trigger (Notify title message kind replaced) ;;;
                     Ret (Fulfilled tt)) s0))
        (collect taskCreateRequest
           (trace h (trigger (Notify title message kind replaced) ;;;
                     Ret (Fulfilled tt)) s0))).
  { intros. unfold trace. cbn [bind trigger exec].
    destruct (handle h _ s0) as [x s1]. exact Hnothing. }
  assert (Huri :
    forall filename s1,
      submitsOnlyGiven url path
        (collect axiosGetUrl
           (trace h (andThen
                       (andThen
                          (Actions.doCreateTask
                             {| file := []; uri := [url];
                                destination := Actions.destinationOf path |})
                          (Actions.notifyTaskAddResult id url filename))
                       Actions.pollOnResponse) s1))
        (collect taskCreateRequest
           (trace h (andThen
                       (andThen
                          (Actions.doCreateTask
                             {| file := []; uri := [url];
                                destination := Actions.destinationOf path |})
                          (Actions.notifyTaskAddResult id url filename))
                       Actions.pollOnResponse) s1))).
  { intros filename s1.
    destruct (chain_submits s1
                {| file := []; uri := [url];
                   destination := Actions.destinationOf path |}
                id url filename) as (Hgets & Hrequests).
    rewrite Hgets. split; [left; reflexivity |].
    intros request Hin. rewrite (Hrequests request Hin).
    split; [reflexivity | left; split; reflexivity]. }
  destruct (negb (String.eqb url "")); [| apply Hnotice].
  destruct (Protocols.startsWithAnyProtocol url
              AUTO_DOWNLOAD_TORRENT_FILE_PROTOCOLS).
  - rewrite !trace_orCatch_collect
      by (intros e; apply avoids_notifyUnexpectedError; reflexivity).
    rewrite trace_request.
    cbn [collect axiosGetUrl taskCreateRequest].
    destruct (fst (handle h (AxiosHead url 10000) s0)) as [response | e];
      [| exact Hnothing].
    destruct (header (headers response) "content-type") as [rawContentType |];
      [| exact Hnothing].
    cbv zeta.
    destruct (find _ Actions.METADATA_FILE_TYPES) as [metadataFileType |];
      [| apply Huri].
    destruct (negb _ && _); [| apply Huri].
    rewrite trace_request.
    cbn [collect axiosGetUrl taskCreateRequest].
    destruct (fst (handle h (AxiosGet url (Some 10000)) _)) as [got | e].
    + match goal with
      | |- context [trace h (andThen (andThen (Actions.doCreateTask ?options)
                                        (Actions.notifyTaskAddResult _ _ ?name))
                               _) ?s1] =>
          destruct (chain_submits s1 options id url name) as (Hgets & Hrequests)
      end.
      rewrite Hgets. split; [right; reflexivity |].
      intros request Hin. rewrite (Hrequests request Hin).
      split; [reflexivity |]. right.
      split; [reflexivity |]. split; [eexists; reflexivity | reflexivity].
    + split; [right; reflexivity | intros request []].
  - destruct (Protocols.startsWithAnyProtocol url ALL_DOWNLOADABLE_PROTOCOLS);
      [| apply Hnotice].
    rewrite !trace_orCatch_collect
      by (intros e; apply avoids_notifyUnexpectedError; reflexivity).
    apply Huri.
Qed.

Lemma url_settles (url : string) (s : S) :
  let '(r, _, tr) :=
    exec h (MultiAdd.rejectUnknownUrls (MultiAdd.maybeMapUrlToFile url)) s in
  collect taskCreateRequest tr = [] /\
  match r with
  | Fulfilled (inr u) =>
      u = url /\
      MultiAdd.startsWithAnyProtocol url MultiAdd.DOWNLOADABLE_PROTOCOLS = true /\
      collect axiosGetUrl tr = []
  | Fulfilled (inl _) =>
      collect axiosGetUrl tr = [url] /\
      MultiAdd.startsWithAnyProtocol url
        MultiAdd.AUTO_DOWNLOAD_TORRENT_FILE_PROTOCOLS = true
  | RejectedWith _ =>
      collect axiosGetUrl tr = [] \/
      (collect axiosGetUrl tr = [url] /\
       MultiAdd.startsWithAnyProtocol url
         MultiAdd.AUTO_DOWNLOAD_TORRENT_FILE_PROTOCOLS = true)
  end.
Proof.
  unfold MultiAdd.rejectUnknownUrls, MultiAdd.maybeMapUrlToFile.
  rewrite exec_andThen.
  assert (Hplain :
    forall s1 : S,
      let '(r, _, tr) :=
        exec h
          (if MultiAdd.startsWithAnyProtocol url MultiAdd.DOWNLOADABLE_PROTOCOLS
           then Ret (Fulfilled (@inr FormFile string url))
           else Ret (RejectedWith
                       (Js.Str ("URL '" ++ url ++ "' must start with one of " ++
                                Js.join ", " MultiAdd.DOWNLOADABLE_PROTOCOLS))))
          s1 in
      tr = [] /\
      match r with
      | Fulfilled (inr u) =>
          u = url /\
          MultiAdd.startsWithAnyProtocol url MultiAdd.DOWNLOADABLE_PROTOCOLS =
            true
      | Fulfilled (inl _) => False
      | RejectedWith _ => True
      end).
  { intros s1.
    destruct (MultiAdd.startsWithAnyProtocol url MultiAdd.DOWNLOADABLE_PROTOCOLS)
      eqn:Hknown; cbn [exec]; repeat split. }
  destruct (MultiAdd.startsWithAnyProtocol url
              MultiAdd.AUTO_DOWNLOAD_TORRENT_FILE_PROTOCOLS) eqn:Hauto.
  - rewrite exec_andThen, exec_trigger.
    destruct (handle h (AxiosHead url 10000) s) as [[response | e] s1];
      cbn [fst snd]; [| split; [reflexivity | left; reflexivity]].
    destruct (header (headers response) "content-type") as [rawContentType |];
      [| cbn [exec]; split; [reflexivity | left; reflexivity]].
    cbv zeta.
    destruct (find _ MultiAdd.METADATA_FILE_TYPES) as [metadataFileType |].
    + destruct (negb _ && _).
      * rewrite exec_andThen, exec_trigger.
        destruct (handle h (AxiosGet url (Some 10000)) s1) as [[got | e] s2];
          cbn [fst snd exec app collect taskCreateRequest axiosGetUrl].
        -- split; [reflexivity | split; reflexivity].
        -- split; [reflexivity | right; split; reflexivity].
      * cbn [exec app].
        specialize (Hplain s1).
        destruct (exec h _ s1) as [[[[f | u] | e] s2] t2];
          destruct Hplain as (Ht2 & Hr); subst t2;
          cbn [collect taskCreateRequest axiosGetUrl app];
          [contradiction
          | split; [reflexivity |]; destruct Hr; repeat split; assumption
          | split; [reflexivity | left; reflexivity]].
    + cbn [exec app].
      specialize (Hplain s1).
      destruct (exec h _ s1) as [[[[f | u] | e] s2] t2];
        destruct Hplain as (Ht2 & Hr); subst t2;
        cbn [collect taskCreateRequest axiosGetUrl app];
        [contradiction
        | split; [reflexivity |]; destruct Hr; repeat split; assumption
        | split; [reflexivity | left; reflexivity]].
  - cbn [exec app].
    specialize (Hplain s).
    destruct (exec h _ s) as [[[[f | u] | e] s2] t2];
      destruct Hplain as (Ht2 & Hr); subst t2;
      cbn [collect taskCreateRequest axiosGetUrl app];
      [contradiction
      | split; [reflexivity |]; destruct Hr; repeat split; assumption
      | split; [reflexivity | left; reflexivity]].
Qed.

Lemma urls_settle (urls : list string) :
  forall s : S,
    let '(outcomes, _, tr) :=
      settleInOrder h
        (map MultiAdd.rejectUnknownUrls (map MultiAdd.maybeMapUrlToFile urls))
        s in
    collect taskCreateRequest tr = [] /\
    Forall (fun url =>
              In url urls /\
              MultiAdd.startsWithAnyProtocol url
                MultiAdd.AUTO_DOWNLOAD_TORRENT_FILE_PROTOCOLS = true)
           (collect axiosGetUrl tr) /\
    incl (urlsOf (fulfilledValues outcomes)) (downloadable urls) /\
    (List.length (filesOf (fulfilledValues outcomes))
     <= List.length (collect axiosGetUrl tr))%nat.
Proof.
  induction urls as [| url urls IH]; intros s; cbn [map settleInOrder].
  - repeat split; [constructor | intros u [] | cbn; lia].
  - pose proof (url_settles url s) as Hfirst.
    destruct (exec h _ s) as [[r s1] t1].
    specialize (IH s1).
    destruct (settleInOrder h _ s1) as [[outcomes s2] t2].
    destruct Hfirst as (Hnone1 & Hr).
    destruct IH as (Hnone2 & Hgets & Hurls & Hfiles).
    rewrite !collect_app, Hnone1, Hnone2.
    assert (Hlater :
      Forall (fun u =>
                In u (url :: urls) /\
                MultiAdd.startsWithAnyProtocol u
                  MultiAdd.AUTO_DOWNLOAD_TORRENT_FILE_PROTOCOLS = true)
             (collect axiosGetUrl t2)).
    { eapply Forall_impl; [| exact Hgets].
      intros u (Hin & Hu). split; [right; exact Hin | exact Hu]. }
    assert (Hkept : incl (downloadable urls) (downloadable (url :: urls))).
    { unfold downloadable. cbn [filter].
      destruct (MultiAdd.startsWithAnyProtocol url
                  MultiAdd.DOWNLOADABLE_PROTOCOLS);
        [apply incl_tl |]; apply incl_refl. }
    split; [reflexivity |].
    destruct r as [[f | u] | e]; cbn [fulfilledValues urlsOf filesOf].
    + destruct Hr as (Hget & Hauto). rewrite Hget. cbn [app List.length].
      split; [constructor; [split; [left; reflexivity | exact Hauto] | exact Hlater] |].
      split; [eapply incl_tran; eassumption | lia].
    + destruct Hr as (Hu & Hknown & Hget). subst u. rewrite Hget. cbn [app].
      split; [exact Hlater |].
      split; [| exact Hfiles].
      apply incl_cons.
      * unfold downloadable. cbn [filter]. rewrite Hknown. left; reflexivity.
      * eapply incl_tran; eassumption.
    + split.
      * destruct Hr as [Hget | (Hget & Hauto)]; rewrite Hget; cbn [app];
          [exact Hlater |].
        constructor; [split; [left; reflexivity | exact Hauto] | exact Hlater].
      * split; [eapply incl_tran; eassumption |].
        destruct Hr as [Hget | (Hget & Hauto)]; rewrite Hget;
          cbn [app List.length]; lia.
Qed.

(** X27. Whatever list of URLs and path the multi-URL flow is given and
    whatever the environment answers, it fetches with a GET request only
    URLs of the list that start with http: or https:, and it makes at most
    one [Task.Create] request (sent a second time only by the permission
    retry), whose URLs are URLs of the list that start with a downloadable
    protocol, whose files are no more than the GET requests made, and
    which carries the destination derived from the path. *)
Theorem multi_url_flow_submits_what_it_was_given (urls : list string)
    (path : option string) (s : S) :
  let tr :=
    trace h (MultiAdd.addDownloadTasksAndPoll Actions.pollTasks urls path) s in
  submitsOnlyGivenList urls path (collect axiosGetUrl tr)
    (collect taskCreateRequest tr).
Proof.
  intros tr; subst tr.
  destruct urls as [| first rest].
  - unfold MultiAdd.addDownloadTasksAndPoll, trace. cbn [bind trigger exec].
    destruct (handle h _ s) as [x s1]. cbn [snd collect axiosGetUrl taskCreateRequest].
    split; [constructor |].
    exists {| file := []; uri := []; destination := Actions.destinationOf path |}.
    repeat split; [left; reflexivity | intros u [] | cbn; lia].
  - rewrite addDownloadTasksAndPoll_announces by discriminate.
    rewrite trace_bind_trigger.
    assert (Hannounce :
      forall x,
        taskCreateRequest (Observed (announcement (first :: rest)) x) = None /\
        axiosGetUrl (Observed (announcement (first :: rest)) x) = None).
    { intros x. destruct rest; split; reflexivity. }
    destruct (Hannounce (fst (handle h (announcement (first :: rest)) s)))
      as (Hcreate & Hget).
    cbn [collect]. rewrite Hcreate, Hget.
    rewrite !trace_orCatch_collect
      by (intros e; unfold MultiAdd.notifyUnexpectedError;
          apply avoids_bind;
          [apply avoids_trigger; reflexivity | intros; apply avoids_Ret]).
    unfold trace. rewrite exec_andThen.
    unfold MultiAdd.partitionPromises. rewrite next_accumulates.
    pose proof (urls_settle (first :: rest)
                  (snd (handle h (announcement (first :: rest)) s))) as Hsettle.
    destruct (settleInOrder h _ _) as [[outcomes s1] t1].
    destruct Hsettle as (Hnone & Hgets & Hurls & Hfiles).
    cbn [MultiAdd.resolved MultiAdd.rejected app].
    destruct (fulfilledValues outcomes) as [| submission others] eqn:Hresolved.
    + cbn [exec snd]. rewrite app_nil_r, Hnone.
      split; [exact Hgets |].
      exists {| file := []; uri := []; destination := Actions.destinationOf path |}.
      repeat split; [left; reflexivity | intros u [] | cbn; lia].
    + unfold MultiAdd.sortSubmissions. rewrite sortSubmissions_from.
      cbn [app]. rewrite exec_andThen.
      change (MultiAdd.doCreateTask ?options)
        with (Actions.doCreateTask options).
      pose proof (doCreateTask_runs h s1
                    {| file := filesOf (submission :: others);
                       uri := urlsOf (submission :: others);
                       destination := Actions.destinationOf path |}) as Hruns.
      destruct (exec h (Actions.doCreateTask _) s1) as [[[answer | e] s2] t2].
      * destruct Hruns as (Hreq & _ & _ & Hget2 & _).
        unfold MultiAdd.pollOnResponse.
        destruct (pollTasks_fulfils h s2) as (s3 & t3 & Hpoll).
        pose proof (fun B (f : Obs -> option B) a b c d e =>
                      avoids_collect (@avoids_pollTasks _ B f a b c d e) h s2)
          as Hquiet.
        unfold trace in Hquiet. rewrite Hpoll in Hquiet. cbn [snd] in Hquiet.
        rewrite Hpoll. cbn [snd].
        rewrite !collect_app, Hnone, Hget2.
        rewrite (Hquiet _ taskCreateRequest), (Hquiet _ axiosGetUrl);
          try (intros; reflexivity).
        rewrite !app_nil_r. cbn [app].
        split; [exact Hgets |].
        eexists. split; [right; exact Hreq |].
        cbn [file uri destination].
        split; [exact Hurls |]. split; [exact Hfiles | reflexivity].
      * destruct Hruns as (Hreq & _ & _ & Hget2 & _).
        cbn [snd]. rewrite !collect_app, Hnone, Hget2.
        rewrite !app_nil_r. cbn [app].
        split; [exact Hgets |].
        eexists. split; [right; exact Hreq |].
        cbn [file uri destination].
        split; [exact Hurls |]. split; [exact Hfiles | reflexivity].
Qed.

End GivenOnly.
